(** * BME Putaway bin transfer: a shallow embedding and its properties

    The development follows the repository:
    - [JS]       the JavaScript primitives the Angular components rely on
                 ([Math.round], [toFixed], string padding), over exact
                 quantities;
    - [Modal]    [TransactionSelectionModalComponent]
                 (transaction-selection-modal.component.ts);
    - [Putaway]  [PutawayComponent] (putaway.component.ts);
    - [Legacy]   the SQL statements of Docs/Putaway-Bme-Transaction.md, run
                 over tables modelled as lists of rows;
    - [Engine]   the transfer coordinator assembled over those statements;
    - [AvailabilitySpec], [ReceiptSpec] the wording of the design document
                 for the commitment and for the receipt;
    - [Scenario] the transfer of the transaction document, as data;
    - [Binary64] JavaScript numbers as IEEE 754 binary64 values, and [Utf8]
                 [String.prototype.trim] over UTF-8;
    - [Modal64], [Putaway64], [Scenario64] the two components and the
                 scenario over those numbers and strings;
    - [SeqNumLock] sessions that allocate document numbers under the lock
                 of the counter row.

    Quantities are SQL decimals in the database and JavaScript numbers in
    the browser.  [Legacy] and [Engine] hold them as exact rationals [Q].
    The components are given twice: over [Q], for what does not depend on
    rounding (selection, resets, the layout of the receipt), and over
    binary64, for every property that compares quantities with the literal
    0.001 or rounds them to three places. *)

From Stdlib Require Import QArith Qabs Qround ZArith Lia Lqa.
From Stdlib Require Import String Ascii List Sorted.
From Stdlib Require SpecFloat.
From stdpp Require Import base decidable option list gmap strings pretty.
Import ListNotations.

Local Open Scope Z_scope.

(** ** JavaScript primitives *)

Module JS.

(** [a < b], [a <= b] and [a > b] on numbers, as booleans. *)
Definition lt (a b : Q) : bool := negb (Qle_bool b a).
Definition le (a b : Q) : bool := Qle_bool a b.
Definition gt (a b : Q) : bool := lt b a.

(** [Math.abs]. *)
Definition Math_abs (x : Q) : Q := Qabs x.

(** [Math.round]: the nearest integer, halves towards +infinity. *)
Definition Math_round (x : Q) : Z := Qfloor (x + (1 # 2)).

(** [Number.EPSILON] = 2^-52. *)
Definition Number_EPSILON : Q := 1 # (2 ^ 52).

(** [parseFloat(v) || 0] on the value of a numeric form control: an empty
    or unparsable value gives [NaN], which [||] replaces by [0]. *)
Definition parseFloat_or_0 (v : option Q) : Q :=
  match v with Some q => q | None => 0%Q end.

(** White space removed by [String.prototype.trim] (ASCII part). *)
Definition is_white_space (c : ascii) : bool :=
  match nat_of_ascii c with
  | 9%nat | 10%nat | 11%nat | 12%nat | 13%nat | 32%nat => true
  | _ => false
  end.

Fixpoint trimStart (s : string) : string :=
  match s with
  | String c s' => if is_white_space c then trimStart s' else s
  | EmptyString => EmptyString
  end.

Definition trim (s : string) : string :=
  String.rev (trimStart (String.rev (trimStart s))).

(** [!s] for a possibly null string: null and the empty string are falsy. *)
Definition falsy (s : option string) : bool :=
  match s with
  | None => true
  | Some s => if String.eqb s "" then true else false
  end.

Fixpoint repeat_char (c : ascii) (n : nat) : string :=
  match n with
  | O => EmptyString
  | S n' => String c (repeat_char c n')
  end.

(** [s.padStart(n, c)] and [s.padEnd(n)] (padding with spaces). *)
Definition padStart (s : string) (n : nat) (c : ascii) : string :=
  repeat_char c (n - String.length s) +:+ s.
Definition padEnd (s : string) (n : nat) : string :=
  s +:+ repeat_char " " (n - String.length s).

(** [s.slice(k)] for [k >= 0]. *)
Fixpoint slice (k : nat) (s : string) : string :=
  match k, s with
  | O, _ => s
  | S k', String _ s' => slice k' s'
  | S _, EmptyString => EmptyString
  end.

(** [String(n)] for an integer. *)
Definition String_of_int (n : Z) : string := pretty n.

Definition digit (n : Z) : ascii := pretty_N_char (Z.to_N n).

(** [x.toFixed(3)] for [|x| < 10^21]: the sign, then the integer [n]
    nearest to [|x| * 1000] (the larger one on a tie), written with the
    point before its last three digits. *)
Definition toFixed3 (x : Q) : string :=
  let n := Qfloor (Qabs x * 1000 + (1 # 2)) in
  (if lt x 0 then "-" else "") +:+
  String_of_int (n / 1000) +:+ "." +:+
  String (digit (n / 100 mod 10))
    (String (digit (n / 10 mod 10))
       (String (digit (n mod 10)) EmptyString)).

End JS.

(** The tolerance [0.001] used in the quantity comparisons. *)
Definition tolerance : Q := 1 # 1000.

(** ** transaction-selection-modal.component.ts *)

Module Modal.

Record LotTransactionItem := {
  lot_tran_no : Z;
  lot_no : string;
  bin_no : string;
  doc_no : string;
  issue_doc_line_no : Z;
  qty : Q;
  tran_typ : string
}.

(** The signals of the component that the computed signals read. *)
Record State := {
  transactions : list LotTransactionItem;
  selectedIds : gset Z;
  targetQty : Q
}.

Definition selectedCount (m : State) : nat := size (selectedIds m).

Definition isSelected (m : State) (id : Z) : bool :=
  bool_decide (id ∈ selectedIds m).

(** [txs.filter(t => selected.has(t.lot_tran_no)).reduce((sum, t) => sum + t.qty, 0)] *)
Definition selectedTotalQty (m : State) : Q :=
  fold_left (fun sum t => (sum + qty t)%Q)
    (List.filter (fun t => isSelected m (lot_tran_no t)) (transactions m)) 0%Q.

Definition isQtyMatched (m : State) : bool :=
  let target := targetQty m in
  if JS.le target 0 then (0 <? selectedCount m)%nat
  else JS.lt (JS.Math_abs (selectedTotalQty m - target)) tolerance.

Definition showQtyMismatchWarning (m : State) : bool :=
  (0 <? selectedCount m)%nat && negb (isQtyMatched m) && JS.gt (targetQty m) 0.

Definition canConfirm (m : State) : bool :=
  (0 <? selectedCount m)%nat && isQtyMatched m.

Definition toggleSelection (id : Z) (m : State) : State :=
  {| transactions := transactions m;
     selectedIds := if isSelected m id then selectedIds m ∖ {[id]}
                    else selectedIds m ∪ {[id]};
     targetQty := targetQty m |}.

Definition toggleAll (isChecked : bool) (m : State) : State :=
  {| transactions := transactions m;
     selectedIds := if isChecked
                    then list_to_set (List.map lot_tran_no (transactions m))
                    else ∅;
     targetQty := targetQty m |}.

(** [onConfirm] emits the selected total on [transactionsSelected].  The
    Confirm button is bound to [[disabled]="!canConfirm()"], so a click
    reaches [onConfirm] only when [canConfirm] holds. *)
Definition onConfirm (m : State) : Q := selectedTotalQty m.

Definition clickConfirm (m : State) : option Q :=
  if canConfirm m then Some (onConfirm m) else None.

End Modal.

(** ** putaway.component.ts *)

Module Putaway.

Record LotDetails := {
  lotNumber : string;
  binNumber : string;
  itemKey : string;
  location : string;
  uom : string;
  qtyCommitSales : Q;
  qtyOnHand : Q;
  qtyAvail : Q;
  expDate : string;
  lotStatus : string
}.

(** The controls of [putawayForm] that the modelled methods read.  A
    control holds [null] ([None]) when empty or after [reset()]; the
    numeric control [putawayQty] holds a number otherwise. *)
Record FormValues := {
  putawayQty : option Q;
  toBinNumber : option string;
  printReport : bool;
  remarks : option string;
  referenced : option string
}.

Definition form_reset : FormValues :=
  {| putawayQty := None; toBinNumber := None; printReport := false;
     remarks := None; referenced := None |}.

(** [BinTransferRequest] and the request of the committed transfer. *)
Record BinTransferRequest := {
  lot_no : string;
  item_key : string;
  req_location : string;
  bin_from : string;
  bin_to : string;
  transfer_qty : Q;
  user_id : string;
  req_remarks : string;
  req_referenced : string
}.

Record CommittedTransferRequest := {
  c_lot_no : string;
  c_item_key : string;
  c_location : string;
  source_bin : string;
  to_bin : string;
  c_transfer_qty : Q;
  c_user_id : string;
  c_remarks : string;
  c_referenced : string
}.

Record TransactionResponse := {
  success : bool;
  document_no : string;
  message : string;
  timestamp : string;
  source_lot_status : option string;
  destination_lot_status : option string
}.

(** The error body of a rejected HTTP call, as [parseErrorResponse] reads it. *)
Record ErrorResponse := {
  error : string;
  err_message : string;
  err_requested : option Q;
  err_available : option Q
}.

Inductive BackendResult :=
| Responded (r : TransactionResponse)
| Rejected (e : ErrorResponse).

(** Messages given to [setError].  The two that interpolate numbers keep
    the numbers instead of their rendering. *)
Inductive Message :=
| EnterDestinationBin
| CannotTransferMoreThanCommitted (committed input : Q)
| QuantityMismatch (selected target : Q)
| SelectDestinationBin
| UserNotAuthenticated
| SystemErrorOccurred
| Text (s : string).

Inductive Category :=
| cat_validation | cat_operation | cat_system | cat_authentication
| cat_quantity | cat_bin | cat_lot | cat_general.

Inductive Details :=
| NoDetails
| RequestedAvailable (requested available : option Q)
| FieldRequired (field : string)
| OtherDetails.

Record Error := {
  errorMessage : Message;
  errorCategory : Category;
  errorDetails : Details
}.

Record TransactionDetails := {
  td_document_no : string;
  td_lot_no : string;
  td_transfer_qty : Q;
  td_uom : string;
  td_bin_from : string;
  td_bin_to : string;
  td_timestamp : string;
  should_print : bool;
  td_source_lot_status : option string;
  td_destination_lot_status : option string
}.

(** The signals of the component. *)
Record State := {
  selectedLot : option LotDetails;
  putawayForm : FormValues;
  targetTransferQty : Q;
  isTransactionModalOpen : bool;
  currentError : option Error;
  successMessage : string
}.

Definition setError (msg : Message) (cat : Category) (d : Details)
    (st : State) : State :=
  {| selectedLot := selectedLot st;
     putawayForm := putawayForm st;
     targetTransferQty := targetTransferQty st;
     isTransactionModalOpen := isTransactionModalOpen st;
     currentError := Some {| errorMessage := msg; errorCategory := cat;
                             errorDetails := d |};
     successMessage := "" |}.

Definition clearMessages (st : State) : State :=
  {| selectedLot := selectedLot st;
     putawayForm := putawayForm st;
     targetTransferQty := targetTransferQty st;
     isTransactionModalOpen := isTransactionModalOpen st;
     currentError := None;
     successMessage := "" |}.

Definition clearForm (st : State) : State :=
  clearMessages
    {| selectedLot := None;
       putawayForm := form_reset;
       targetTransferQty := targetTransferQty st;
       isTransactionModalOpen := isTransactionModalOpen st;
       currentError := currentError st;
       successMessage := successMessage st |}.

Definition set_successMessage (s : string) (st : State) : State :=
  {| selectedLot := selectedLot st;
     putawayForm := putawayForm st;
     targetTransferQty := targetTransferQty st;
     isTransactionModalOpen := isTransactionModalOpen st;
     currentError := currentError st;
     successMessage := s |}.

Definition set_modal (target : Q) (open : bool) (st : State) : State :=
  {| selectedLot := selectedLot st;
     putawayForm := putawayForm st;
     targetTransferQty := target;
     isTransactionModalOpen := open;
     currentError := currentError st;
     successMessage := successMessage st |}.

(** [!toBin || toBin.trim() === ''] *)
Definition blank (toBin : option string) : bool :=
  match toBin with
  | None => true
  | Some s => JS.falsy (Some s) || String.eqb (JS.trim s) ""
  end.

(** What [openTransactionModal] does besides updating the signals. *)
Inductive Call :=
| NoCall
| Call_executeCommittedTransfer (transferQty : Q).

Definition openTransactionModal (st : State) : State * Call :=
  match selectedLot st with
  | None => (st, NoCall)
  | Some lot =>
    if blank (toBinNumber (putawayForm st)) then
      (setError EnterDestinationBin cat_validation NoDetails st, NoCall)
    else
      let putawayQty := JS.parseFloat_or_0 (putawayQty (putawayForm st)) in
      let qtyCommitSales := qtyCommitSales lot in
      if JS.gt putawayQty qtyCommitSales then
        (setError (CannotTransferMoreThanCommitted qtyCommitSales putawayQty)
           cat_validation
           (RequestedAvailable (Some putawayQty) (Some qtyCommitSales)) st,
         NoCall)
      else if JS.lt (JS.Math_abs (putawayQty - qtyCommitSales)) tolerance then
        (st, Call_executeCommittedTransfer putawayQty)
      else
        (set_modal putawayQty true (clearMessages st), NoCall)
  end.

Definition onTransactionModalClosed (st : State) : State :=
  set_modal 0 false st.

(** [onTransactionsSelected] up to its call of [executeCommittedTransfer]. *)
Definition onTransactionsSelected (selectedTotalQty : Q) (st : State)
    : State * Call :=
  let transferQty := targetTransferQty st in
  if JS.gt (JS.Math_abs (selectedTotalQty - transferQty)) tolerance then
    (setError (QuantityMismatch selectedTotalQty transferQty) cat_validation
       NoDetails st, NoCall)
  else (st, Call_executeCommittedTransfer transferQty).

Definition roundToDecimalPlaces (value : Q) (decimalPlaces : Z) : Q :=
  let factor := inject_Z (10 ^ decimalPlaces) in
  (inject_Z (JS.Math_round ((value + JS.Number_EPSILON) * factor)) / factor)%Q.

(** [this.selectedLot()?.qtyAvail ?? 0], rounded to three places. *)
Definition maxQuantity (st : State) : Q :=
  roundToDecimalPlaces
    (match selectedLot st with Some lot => qtyAvail lot | None => 0%Q end) 3.

(** The validity of the [putawayQty] control under its validators
    [Validators.required] and [Validators.min(0.001)], as Angular defines
    them: an empty control is invalid, a number is valid unless it is below
    the minimum. *)
Definition putawayQtyValid (st : State) : bool :=
  match putawayQty (putawayForm st) with
  | None => false
  | Some v => negb (JS.lt v (1 # 1000))
  end.

Definition isFormValid (st : State) : bool :=
  let putawayQtyValue := JS.parseFloat_or_0 (putawayQty (putawayForm st)) in
  let maxQty := maxQuantity st in
  match selectedLot st with
  | None => false
  | Some _ =>
    putawayQtyValid st && JS.gt putawayQtyValue 0 && JS.le putawayQtyValue maxQty
  end.

Definition formatLotStatus (sourceStatus : string) (destStatus : option string)
    : string :=
  match destStatus with
  | Some d =>
    if JS.falsy destStatus || String.eqb sourceStatus d then
      (if String.eqb sourceStatus "" then "N/A" else sourceStatus)
    else sourceStatus +:+ " - " +:+ d
  | None => if String.eqb sourceStatus "" then "N/A" else sourceStatus
  end.

(** The fields of [new Date()] that the receipt reads. *)
Record Date := {
  getDate : Z;
  getMonth : Z;
  getFullYear : Z;
  toISOString : string
}.

Definition formattedDate (now : Date) : string :=
  JS.padStart (JS.String_of_int (getDate now)) 2 "0" +:+ "-" +:+
  JS.padStart (JS.String_of_int (getMonth now + 1)) 2 "0" +:+ "-" +:+
  JS.slice 2 (JS.String_of_int (getFullYear now)).

Definition or_dash (s : option string) : string :=
  match s with
  | Some s => if JS.falsy (Some s) then "-" else s
  | None => "-"
  end.

Definition rule : string :=
  "======================================================================================".

Definition reportLines (now : Date) (td : TransactionDetails)
    (lot : LotDetails) (formValues : FormValues) : list string :=
  let qtyOnHand := JS.toFixed3 (qtyOnHand lot) in
  let qtyTransfer := JS.toFixed3 (td_transfer_qty td) in
  let lotStatusDisplay :=
    formatLotStatus (lotStatus lot) (td_destination_lot_status td) in
  [ "Bin Transfer Report                    Date:" +:+ formattedDate now;
    rule;
    "Doc No         Item Key          Location Result";
    rule;
    JS.padEnd (td_document_no td) 15 +:+ JS.padEnd (itemKey lot) 18 +:+
      JS.padEnd (location lot) 9 +:+ "Success";
    rule;
    "Bins/Lots from where material is transferred:";
    "LotNo           BinFrom          BinTo           Qtyonhand    QtyTransfer  Status";
    rule;
    JS.padEnd (td_lot_no td) 16 +:+ JS.padEnd (td_bin_from td) 17 +:+
      JS.padEnd (td_bin_to td) 16 +:+ JS.padStart qtyOnHand 12 " " +:+ " " +:+
      JS.padStart qtyTransfer 11 " " +:+ "  " +:+ JS.padEnd lotStatusDisplay 11;
    "";
    "Remarks: " +:+ or_dash (remarks formValues);
    "Reference No: " +:+ or_dash (referenced formValues) ].

Definition newline : string := String (ascii_of_nat 10) EmptyString.

(** [printTransferReceipt] up to [printDirectly]: the report content. *)
Definition printTransferReceipt (now : Date) (td : option TransactionDetails)
    (lot : option LotDetails) (formValues : FormValues) : option string :=
  match td, lot with
  | Some td, Some lot =>
    Some (String.concat newline (reportLines now td lot formValues))
  | _, _ => None
  end.

(** The modal bound to the component: [[targetQty]="targetTransferQty()"],
    [(transactionsSelected)="onTransactionsSelected($event)"] and
    [(modalClosed)="onTransactionModalClosed()"]. *)
Definition modal_of (transactions : list Modal.LotTransactionItem)
    (pick : gset Z) (st : State) : Modal.State :=
  {| Modal.transactions := transactions;
     Modal.selectedIds := pick;
     Modal.targetQty := targetTransferQty st |}.

(** A click on Confirm with the rows [pick] selected: [onConfirm] emits the
    total, [onTransactionsSelected] checks it, and [onClose] closes the
    modal. *)
Definition modalConfirm (transactions : list Modal.LotTransactionItem)
    (pick : gset Z) (st : State) : State * Call :=
  match Modal.clickConfirm (modal_of transactions pick st) with
  | None => (st, NoCall)
  | Some selectedTotalQty =>
    let c := onTransactionsSelected selectedTotalQty st in
    (onTransactionModalClosed (fst c), snd c)
  end.

(** [s || d] on a possibly null string. *)
Definition or_else (s : option string) (d : string) : string :=
  match s with
  | Some s => if JS.falsy (Some s) then d else s
  | None => d
  end.

(** What a run of [executeCommittedTransfer] or [onSubmit] leaves behind:
    the signals, the request sent to the backend (if any), the transaction
    details built on success and the report handed to [printDirectly]. *)
Record Outcome (Request : Type) := {
  final : State;
  sent : option Request;
  details : option TransactionDetails;
  printed : option string
}.
Arguments final {Request}.
Arguments sent {Request}.
Arguments details {Request}.
Arguments printed {Request}.

Definition stopped {Request : Type} (st : State) : Outcome Request :=
  {| final := st; sent := None; details := None; printed := None |}.

Definition parseErrorResponse (e : ErrorResponse) (st : State) : State :=
  if String.eqb (error e) "Insufficient quantity" then
    setError (Text (err_message e)) cat_quantity
      (RequestedAvailable (err_requested e) (err_available e)) st
  else if String.eqb (error e) "Invalid bin" then
    setError (Text (err_message e)) cat_bin OtherDetails st
  else if String.eqb (error e) "Lot not found" then
    setError (Text (err_message e)) cat_lot OtherDetails st
  else if String.eqb (error e) "Validation error" then
    setError (Text (err_message e)) cat_validation NoDetails st
  else if String.eqb (error e) "Transaction error"
          || String.eqb (error e) "Database error" then
    setError SystemErrorOccurred cat_system NoDetails st
  else
    setError (Text (or_else (Some (err_message e)) "An unexpected error occurred"))
      cat_general NoDetails st.

Section Backend.

(** The two HTTP calls of [PutawayService], the signed-in user of
    [AuthService] and the clock. *)
Variable transferCommittedTransactions : CommittedTransferRequest -> BackendResult.
Variable executeBinTransfer : BinTransferRequest -> BackendResult.
Variable currentUser : option string.
Variable now : Date.

Definition executeCommittedTransfer (transferQty : Q) (st : State)
    : Outcome CommittedTransferRequest :=
  match selectedLot st with
  | None => stopped st
  | Some lot =>
    match toBinNumber (putawayForm st) with
    | None => stopped (setError EnterDestinationBin cat_validation NoDetails st)
    | Some toBin =>
      if blank (Some toBin) then
        stopped (setError EnterDestinationBin cat_validation NoDetails st)
      else
        let st1 := clearMessages st in
        let formValues := putawayForm st in
        let request :=
          {| c_lot_no := lotNumber lot;
             c_item_key := itemKey lot;
             c_location := location lot;
             source_bin := binNumber lot;
             to_bin := toBin;
             c_transfer_qty := transferQty;
             c_user_id := or_else currentUser "unknown";
             c_remarks := or_else (remarks formValues) "";
             c_referenced := or_else (referenced formValues) "" |} in
        match transferCommittedTransactions request with
        | Responded result =>
          if success result then
            let transactionDetails :=
              {| td_document_no := document_no result;
                 td_lot_no := lotNumber lot;
                 td_transfer_qty := transferQty;
                 td_uom := uom lot;
                 td_bin_from := binNumber lot;
                 td_bin_to := toBin;
                 td_timestamp := timestamp result;
                 should_print := printReport formValues;
                 td_source_lot_status := Some (lotStatus lot);
                 td_destination_lot_status := Some (lotStatus lot) |} in
            {| final := clearForm (set_successMessage (message result) st1);
               sent := Some request;
               details := Some transactionDetails;
               printed :=
                 if printReport formValues then
                   printTransferReceipt now (Some transactionDetails)
                     (Some lot) formValues
                 else None |}
          else
            {| final := setError (Text (or_else (Some (message result))
                                          "Transfer failed"))
                          cat_operation NoDetails st1;
               sent := Some request; details := None; printed := None |}
        | Rejected e =>
          {| final := setError (Text ("Error transferring committed items: "
                                      +:+ err_message e))
                        cat_system NoDetails st1;
             sent := Some request; details := None; printed := None |}
        end
    end
  end.

Definition onSubmit (st : State) : Outcome BinTransferRequest :=
  if negb (isFormValid st) then stopped st
  else
    match selectedLot st, putawayQty (putawayForm st) with
    | Some lot, Some transferQty =>
      let formValues := putawayForm st in
      if JS.falsy (option_map JS.trim (toBinNumber formValues)) then
        stopped (setError SelectDestinationBin cat_validation
                   (FieldRequired "toBinNumber") st)
      else
        match currentUser with
        | None =>
          stopped (setError UserNotAuthenticated cat_authentication
                     NoDetails st)
        | Some userId =>
          let st1 := clearMessages st in
          let request :=
            {| lot_no := lotNumber lot;
               item_key := itemKey lot;
               req_location := location lot;
               bin_from := binNumber lot;
               bin_to := or_else (toBinNumber formValues) "";
               transfer_qty := transferQty;
               user_id := userId;
               req_remarks := or_else (remarks formValues) "";
               req_referenced := or_else (referenced formValues) "" |} in
          match executeBinTransfer request with
          | Responded result =>
            if success result then
              let transactionDetails :=
                {| td_document_no := document_no result;
                   td_lot_no := lotNumber lot;
                   td_transfer_qty := transferQty;
                   td_uom := uom lot;
                   td_bin_from := binNumber lot;
                   td_bin_to := or_else (toBinNumber formValues) "";
                   td_timestamp := toISOString now;
                   should_print := printReport formValues;
                   td_source_lot_status := source_lot_status result;
                   td_destination_lot_status := destination_lot_status result |} in
              {| final := set_successMessage "Transfer Successful" st1;
                 sent := Some request;
                 details := Some transactionDetails;
                 printed :=
                   if printReport formValues then
                     printTransferReceipt now (Some transactionDetails)
                       (Some lot) formValues
                   else None |}
            else
              {| final := setError (Text (or_else (Some (message result))
                                            "Transfer failed"))
                            cat_operation OtherDetails st1;
                 sent := Some request; details := None; printed := None |}
          | Rejected e =>
            {| final := parseErrorResponse e st1;
               sent := Some request; details := None; printed := None |}
          end
        end
    | _, _ => stopped st
    end.

Definition run_call (c : State * Call) : Outcome CommittedTransferRequest :=
  match snd c with
  | NoCall => stopped (fst c)
  | Call_executeCommittedTransfer q => executeCommittedTransfer q (fst c)
  end.

Definition confirmSelection (transactions : list Modal.LotTransactionItem)
    (pick : gset Z) (st : State) : Outcome CommittedTransferRequest :=
  run_call (modalConfirm transactions pick st).

End Backend.

End Putaway.

(** ** Docs/Putaway-Bme-Transaction.md: the SQL statements of a transfer

    Tables are lists of rows, in insertion order.  A column that an INSERT
    does not name is NULL ([None]).  String comparison is exact.
    [LotStatus] is the column of [LotMaster] behind [lot_status] of the lot
    search, and [LotTranNo] the identity column of the audit tables, which
    the pending-transactions query returns. *)

Module Legacy.

Record LotMasterRow := {
  LotNo : string;
  ItemKey : string;
  LocationKey : string;
  BinNo : string;
  QtyOnHand : Q;
  Qtycommitsales : Q;
  QtyReserved : Q;
  VendorKey : string;
  VendorlotNo : string;
  DateReceived : string;
  DateExpiry : string;
  LotStatus : string
}.

Record InmastRow := {
  im_ItemKey : string;
  Seriallotflg : string;
  MultipleBinsreq : string;
  StockUomCode : string
}.

Record BinMasterRow := {
  bm_BinNo : string;
  bm_Location : string;
  Description : string
}.

Record InlocRow := {
  il_ItemKey : string;
  il_Location : string;
  Physinprogress : string
}.

Record DistributionParameterRow := {
  Default_Key : string;
  Default_Value : string
}.

(** A row of [LotTransaction] or [QCLotTransaction]. *)
Record AuditRow := {
  LotTranNo : Z;
  t_LotNo : string;
  t_ItemKey : string;
  t_LocationKey : string;
  t_DateReceived : option string;
  t_DateExpiry : option string;
  TransactionType : Z;
  t_Vendorkey : option string;
  t_VendorlotNo : option string;
  CustomerKey : option string;
  IssueDocNo : option string;
  IssueDocLineNo : option Z;
  IssueDate : option string;
  QtyIssued : option Q;
  ReceiptDocNo : option string;
  ReceiptDocLineNo : option Z;
  QtyReceived : option Q;
  RecUserid : option string;
  RecDate : option string;
  Processed : string;
  t_BinNo : string;
  DateQuarantine : option string
}.

Record Database := {
  LotMaster : list LotMasterRow;
  inmast : list InmastRow;
  BinMaster : list BinMasterRow;
  INLOC : list InlocRow;
  DistributionParameter : list DistributionParameterRow;
  SeqNum : gmap string Z;
  LotTransaction : list AuditRow;
  QCLotTransaction : list AuditRow
}.

(** The key [(ItemKey, LocationKey, LotNo, BinNo)] of the WHERE clauses. *)
Record LotKey := {
  k_ItemKey : string;
  k_LocationKey : string;
  k_LotNo : string;
  k_BinNo : string
}.

Definition with_bin (k : LotKey) (b : string) : LotKey :=
  {| k_ItemKey := k_ItemKey k; k_LocationKey := k_LocationKey k;
     k_LotNo := k_LotNo k; k_BinNo := b |}.

(** [ItemKey = .. AND LocationKey = .. AND LotNo = .. AND BinNo = ..] *)
Definition lot_at (k : LotKey) (r : LotMasterRow) : bool :=
  String.eqb (ItemKey r) (k_ItemKey k) && String.eqb (LocationKey r) (k_LocationKey k)
  && String.eqb (LotNo r) (k_LotNo k) && String.eqb (BinNo r) (k_BinNo k).

Definition audit_at (k : LotKey) (r : AuditRow) : bool :=
  String.eqb (t_ItemKey r) (k_ItemKey k) && String.eqb (t_LocationKey r) (k_LocationKey k)
  && String.eqb (t_LotNo r) (k_LotNo k) && String.eqb (t_BinNo r) (k_BinNo k).

(** [SUM(col)]: NULL values are skipped, and the sum of no value is NULL. *)
Definition sql_sum (col : list (option Q)) : option Q :=
  match omap id col with
  | [] => None
  | v :: vs => Some (fold_left Qplus vs v)
  end.

(** 1.2 Lot details: [Lotmaster a INNER JOIN inmast b on a.itemkey=b.itemKey
    where b.seriallotFlg <> 'N' and B.MultipleBinsreq = 'Y' and] key. *)
Definition lot_details_query (db : Database) (k : LotKey)
    : list (LotMasterRow * InmastRow) :=
  List.filter
    (fun ab => negb (String.eqb (Seriallotflg (snd ab)) "N")
               && String.eqb (MultipleBinsreq (snd ab)) "Y"
               && lot_at k (fst ab))
    (List.flat_map
       (fun a => List.map (fun b => (a, b))
                   (List.filter (fun b => String.eqb (ItemKey a) (im_ItemKey b))
                      (inmast db)))
       (LotMaster db)).

(** [TransactionType In (2,3,5,7,9,10,12,16,17,20,21)] *)
Definition outbound_types : list Z := [2; 3; 5; 7; 9; 10; 12; 16; 17; 20; 21].

(** [Processed IN ('N','P') and TransactionType In (..) and] key. *)
Definition pending_where (k : LotKey) (r : AuditRow) : bool :=
  (String.eqb (Processed r) "N" || String.eqb (Processed r) "P")
  && existsb (Z.eqb (TransactionType r)) outbound_types
  && audit_at k r.

(** 1.3 Commitment calculation: [Select SUM(QtyIssued) from (Select
    QtyIssued From LotTransaction where .. Union all Select QtyIssued From
    QCLotTransaction where ..)]. *)
Definition commitment_query (db : Database) (k : LotKey) : option Q :=
  sql_sum
    (List.map QtyIssued (List.filter (pending_where k) (LotTransaction db))
     ++ List.map QtyIssued (List.filter (pending_where k) (QCLotTransaction db))).

(** 1.4 Pending transactions: the rows of [LotTransaction] that the
    commitment counts, [UNION ALL] those of [QCLotTransaction]. *)
Definition pending_transactions_query (db : Database) (k : LotKey)
    : list AuditRow :=
  List.filter (pending_where k) (LotTransaction db)
  ++ List.filter (pending_where k) (QCLotTransaction db).

(** [Available Qty = QtyOnHand - Qtycommitsales] *)
Definition available_qty (r : LotMasterRow) : Q :=
  (QtyOnHand r - Qtycommitsales r)%Q.

(** 2. [SELECT Default_Value from DistributionParameter Where Default_Key =
    'Freeze_Inventory'] and [select Physinprogress from INLOC where ItemKey
    = .. AND Location = ..]. *)
Definition freeze_inventory_query (db : Database) : list string :=
  List.map Default_Value
    (List.filter (fun r => String.eqb (Default_Key r) "Freeze_Inventory")
       (DistributionParameter db)).

Definition physinprogress_query (db : Database) (item loc : string)
    : list string :=
  List.map Physinprogress
    (List.filter (fun r => String.eqb (il_ItemKey r) item
                           && String.eqb (il_Location r) loc)
       (INLOC db)).

(** [select .. from binmaster where location = ..] restricted to one bin. *)
Definition bin_exists (db : Database) (loc b : string) : bool :=
  existsb (fun r => String.eqb (bm_Location r) loc && String.eqb (bm_BinNo r) b)
    (BinMaster db).

Definition set_LotMaster (l : list LotMasterRow) (db : Database) : Database :=
  {| LotMaster := l; inmast := inmast db; BinMaster := BinMaster db;
     INLOC := INLOC db; DistributionParameter := DistributionParameter db;
     SeqNum := SeqNum db; LotTransaction := LotTransaction db;
     QCLotTransaction := QCLotTransaction db |}.

Definition set_SeqNum (s : gmap string Z) (db : Database) : Database :=
  {| LotMaster := LotMaster db; inmast := inmast db; BinMaster := BinMaster db;
     INLOC := INLOC db; DistributionParameter := DistributionParameter db;
     SeqNum := s; LotTransaction := LotTransaction db;
     QCLotTransaction := QCLotTransaction db |}.

Definition set_LotTransaction (l : list AuditRow) (db : Database) : Database :=
  {| LotMaster := LotMaster db; inmast := inmast db; BinMaster := BinMaster db;
     INLOC := INLOC db; DistributionParameter := DistributionParameter db;
     SeqNum := SeqNum db; LotTransaction := l;
     QCLotTransaction := QCLotTransaction db |}.

(** 3. Document number: the cursor on [select * from SeqNum where
    SeqName='BT'] fetches the row and writes back the value plus one; the
    document number carries the value written. *)
Definition BT (n : Z) : string := "BT-" +:+ pretty n.

Definition next_document_no (db : Database) : option (string * Database) :=
  match SeqNum db !! "BT" with
  | None => None
  | Some n =>
    Some (BT (n + 1), set_SeqNum (<["BT" := n + 1]> (SeqNum db)) db)
  end.

(** 4.1, 4.2 [SELECT VendorKey, VendorLotNo] and [SELECT DateExpiry FROM
    LotMaster WHERE] key: the first matching row. *)
Definition select_lot (db : Database) (k : LotKey) : option LotMasterRow :=
  List.find (lot_at k) (LotMaster db).

Definition set_Qtycommitsales (q : Q) (r : LotMasterRow) : LotMasterRow :=
  {| LotNo := LotNo r; ItemKey := ItemKey r; LocationKey := LocationKey r;
     BinNo := BinNo r; QtyOnHand := QtyOnHand r; Qtycommitsales := q;
     QtyReserved := QtyReserved r; VendorKey := VendorKey r;
     VendorlotNo := VendorlotNo r; DateReceived := DateReceived r;
     DateExpiry := DateExpiry r; LotStatus := LotStatus r |}.

(** 4.3 [UPDATE LotMaster SET Qtycommitsales = Qtycommitsales + qty WHERE]
    key. *)
Definition update_commitsales (k : LotKey) (delta : Q) (db : Database)
    : Database :=
  set_LotMaster
    (List.map (fun r => if lot_at k r
                        then set_Qtycommitsales (Qtycommitsales r + delta)%Q r
                        else r)
       (LotMaster db)) db.

(** 4.4 [SELECT count( * ) FROM LotMaster WHERE] key of the destination. *)
Definition count_lot (db : Database) (k : LotKey) : nat :=
  List.length (List.filter (lot_at k) (LotMaster db)).

(** 5.1 INSERT of the source transaction (OUT, type 9).  The key columns
    and the quantity are the request's; the dates and the vendor lot are
    those read from the source row of [LotMaster].  [LotTranNo] is the
    identity column, given by the table on insertion. *)
Definition source_transaction (k : LotKey) (src : LotMasterRow)
    (doc : string) (qty : Q) (user today : string) : AuditRow :=
  {| LotTranNo := 0;
     t_LotNo := k_LotNo k; t_ItemKey := k_ItemKey k;
     t_LocationKey := k_LocationKey k;
     t_DateReceived := Some (DateReceived src);
     t_DateExpiry := Some (DateExpiry src);
     TransactionType := 9;
     t_Vendorkey := None;
     t_VendorlotNo := Some (VendorlotNo src);
     CustomerKey := None;
     IssueDocNo := Some doc; IssueDocLineNo := Some 1;
     IssueDate := Some today; QtyIssued := Some qty;
     ReceiptDocNo := None; ReceiptDocLineNo := None; QtyReceived := None;
     RecUserid := Some user; RecDate := Some today;
     Processed := "N"; t_BinNo := k_BinNo k; DateQuarantine := None |}.

(** 5.2 INSERT of the destination transaction (IN, type 8). *)
Definition destination_transaction (k : LotKey) (src : LotMasterRow)
    (bin_to doc : string) (qty : Q) (user today : string) : AuditRow :=
  {| LotTranNo := 0;
     t_LotNo := k_LotNo k; t_ItemKey := k_ItemKey k;
     t_LocationKey := k_LocationKey k;
     t_DateReceived := Some (DateReceived src);
     t_DateExpiry := Some (DateExpiry src);
     TransactionType := 8;
     t_Vendorkey := Some (VendorKey src);
     t_VendorlotNo := Some (VendorlotNo src);
     CustomerKey := Some "";
     IssueDocNo := None; IssueDocLineNo := None;
     IssueDate := None; QtyIssued := None;
     ReceiptDocNo := Some doc; ReceiptDocLineNo := Some 1;
     QtyReceived := Some qty;
     RecUserid := Some user; RecDate := Some today;
     Processed := "N"; t_BinNo := bin_to; DateQuarantine := None |}.

Definition set_LotTranNo (n : Z) (r : AuditRow) : AuditRow :=
  {| LotTranNo := n;
     t_LotNo := t_LotNo r; t_ItemKey := t_ItemKey r;
     t_LocationKey := t_LocationKey r; t_DateReceived := t_DateReceived r;
     t_DateExpiry := t_DateExpiry r; TransactionType := TransactionType r;
     t_Vendorkey := t_Vendorkey r; t_VendorlotNo := t_VendorlotNo r;
     CustomerKey := CustomerKey r; IssueDocNo := IssueDocNo r;
     IssueDocLineNo := IssueDocLineNo r; IssueDate := IssueDate r;
     QtyIssued := QtyIssued r; ReceiptDocNo := ReceiptDocNo r;
     ReceiptDocLineNo := ReceiptDocLineNo r; QtyReceived := QtyReceived r;
     RecUserid := RecUserid r; RecDate := RecDate r;
     Processed := Processed r; t_BinNo := t_BinNo r;
     DateQuarantine := DateQuarantine r |}.

(** The next value of the identity column: one more than the largest. *)
Definition next_LotTranNo (t : list AuditRow) : Z :=
  1 + fold_right Z.max 0 (List.map LotTranNo t).

Definition insert_LotTransaction (r : AuditRow) (db : Database) : Database :=
  set_LotTransaction
    (LotTransaction db ++ [set_LotTranNo (next_LotTranNo (LotTransaction db)) r])
    db.

End Legacy.

(** ** The transfer engine

    The backend serves the HTTP calls of [PutawayService].  Its operations
    are assembled here from the statements of [Legacy], in the order and
    with the failure kinds that the design document gives them. *)

Module Engine.
Import Legacy.

(** The kinds of failure of the design document; [InvalidQuantity] stands
    for the rejection of a quantity that is not positive or has more than
    three decimals, for which the document names no kind. *)
Inductive ErrorKind :=
| LotNotFound
| InvalidBin
| InsufficientQuantity (requested available : Q)
| InsufficientCommitted (requested committed : Q)
| SelectionMismatch
| InventoryFrozen
| PhysicalCountInProgress
| NotTransferrable
| InvalidQuantity
| Unauthorized
| Contention
| Timeout
| SystemError
| InvariantViolation.

Record TransferResult := {
  document_no : string;
  source_lot_status : string;
  destination_lot_status : string;
  timestamp : string
}.

Record AvailabilityView := {
  on_hand : Q;
  committed_sales : Q;
  available : Q;
  pending_commit : Q
}.

Record Clock := {
  today : string;
  rfc3339 : string
}.

(** A transaction body: it reads and writes the database, or fails. *)
Definition Tx (A : Type) : Type := Database -> ErrorKind + (A * Database).

Definition ret {A} (a : A) : Tx A := fun db => inr (a, db).
Definition fail {A} (e : ErrorKind) : Tx A := fun _ => inl e.
Definition bind {A B} (m : Tx A) (k : A -> Tx B) : Tx B :=
  fun db => match m db with
            | inl e => inl e
            | inr (a, db') => k a db'
            end.
Definition query {A} (q : Database -> A) : Tx A := fun db => inr (q db, db).
Definition exec (f : Database -> Database) : Tx unit := fun db => inr (tt, f db).
Definition require (b : bool) (e : ErrorKind) : Tx unit :=
  if b then ret tt else fail e.
Definition some_or {A} (o : option A) (e : ErrorKind) : Tx A :=
  match o with Some a => ret a | None => fail e end.

Notation "x <-- m ;; k" := (bind m (fun x => k))
  (at level 100, m at next level, right associativity).
Notation "m ;;; k" := (bind m (fun _ => k))
  (at level 100, right associativity).

(** Commit on success; on failure every write is rolled back. *)
Definition transaction {A} (m : Tx A) (db : Database)
    : (ErrorKind + A) * Database :=
  match m db with
  | inl e => (inl e, db)
  | inr (a, db') => (inr a, db')
  end.

Definition key_of (r : Putaway.BinTransferRequest) : LotKey :=
  {| k_ItemKey := JS.trim (Putaway.item_key r);
     k_LocationKey := JS.trim (Putaway.req_location r);
     k_LotNo := JS.trim (Putaway.lot_no r);
     k_BinNo := JS.trim (Putaway.bin_from r) |}.

Definition key_of_committed (r : Putaway.CommittedTransferRequest) : LotKey :=
  {| k_ItemKey := JS.trim (Putaway.c_item_key r);
     k_LocationKey := JS.trim (Putaway.c_location r);
     k_LotNo := JS.trim (Putaway.c_lot_no r);
     k_BinNo := JS.trim (Putaway.source_bin r) |}.

(** Modelled from the spec: the status reported for the destination
    (section 4.4, "Success output"; the code that computes it is in the
    backend): the source status, unless a destination lot row exists with
    a different status, and then that row's status. *)
Definition resolve_destination_status (db : Database) (k : LotKey)
    (dest : string) (src : LotMasterRow) : string :=
  match select_lot db (with_bin k dest) with
  | Some d => if String.eqb (LotStatus d) (LotStatus src)
              then LotStatus src else LotStatus d
  | None => LotStatus src
  end.

Section Settings.

(** Which stored flag values count as set is a setting of the store. *)
Variable truthy : string -> bool.

(** Modelled from the spec: the availability calculator (section 4.1;
    its code is in the backend), over the commitment query and the
    availability formula of the transaction document. *)
Definition searchAvailability (db : Database) (k : LotKey)
    : ErrorKind + AvailabilityView :=
  match select_lot db k with
  | None => inl LotNotFound
  | Some r =>
    if JS.lt (available_qty r) 0 then inl InvariantViolation
    else inr {| on_hand := QtyOnHand r;
                committed_sales := Qtycommitsales r;
                available := available_qty r;
                pending_commit :=
                  match commitment_query db k with
                  | Some c => c
                  | None => 0%Q
                  end |}
  end.

(** Modelled from the spec: the precondition gate (section 4.2; its code
    is in the backend): six ordered checks, the first failure wins.  It
    yields the source lot row. *)
Definition precondition_gate (k : LotKey) (dest : string) : Tx LotMasterRow :=
  require (negb (String.eqb dest "") && negb (String.eqb dest (k_BinNo k)))
    InvalidBin ;;;
  ok <-- query (fun db => bin_exists db (k_LocationKey k) dest) ;;
  require ok InvalidBin ;;;
  frozen <-- query freeze_inventory_query ;;
  require (negb (existsb truthy frozen)) InventoryFrozen ;;;
  counting <-- query (fun db =>
                 physinprogress_query db (k_ItemKey k) (k_LocationKey k)) ;;
  require (negb (existsb truthy counting)) PhysicalCountInProgress ;;;
  items <-- query inmast ;;
  require (existsb (fun b => String.eqb (im_ItemKey b) (k_ItemKey k)
                             && negb (String.eqb (Seriallotflg b) "N")
                             && String.eqb (MultipleBinsreq b) "Y") items)
    NotTransferrable ;;;
  src <-- query (fun db => select_lot db k) ;;
  some_or src LotNotFound.

(** [qty > 0] with at most three decimals. *)
Definition valid_qty (qty : Q) : bool :=
  JS.gt qty 0 && Qeq_bool (inject_Z (Qfloor (qty * 1000))) (qty * 1000).

(** The write phase shared by both paths: document number, update of
    the source commitment, and the paired INSERTs. *)
Definition record_transfer (k : LotKey) (dest : string) (src : LotMasterRow)
    (qty delta : Q) (user : string) (clock : Clock) : Tx TransferResult :=
  status <-- query (fun db => resolve_destination_status db k dest src) ;;
  doc <-- (fun db => match next_document_no db with
                     | Some r => inr r
                     | None => inl SystemError
                     end) ;;
  exec (update_commitsales k delta) ;;;
  _ <-- query (fun db => count_lot db (with_bin k dest)) ;;
  exec (insert_LotTransaction
          (source_transaction k src doc qty user (today clock))) ;;;
  exec (insert_LotTransaction
          (destination_transaction k src dest doc qty user (today clock))) ;;;
  ret {| document_no := doc;
         source_lot_status := LotStatus src;
         destination_lot_status := status;
         timestamp := rfc3339 clock |}.

(** Modelled from the spec: the free-quantity path (section 4.4; its code
    is in the backend). *)
Definition transfer_body (r : Putaway.BinTransferRequest) (clock : Clock)
    : Tx TransferResult :=
  let k := key_of r in
  let dest := JS.trim (Putaway.bin_to r) in
  let qty := Putaway.transfer_qty r in
  require (valid_qty qty) InvalidQuantity ;;;
  src <-- precondition_gate k dest ;;
  require (negb (JS.lt (available_qty src) 0)) InvariantViolation ;;;
  require (negb (JS.gt qty (available_qty src))
           || JS.lt (JS.Math_abs (qty - available_qty src)) tolerance)
    (InsufficientQuantity qty (available_qty src)) ;;;
  record_transfer k dest src qty qty (Putaway.user_id r) clock.

Definition transfer (r : Putaway.BinTransferRequest) (clock : Clock)
    (db : Database) : (ErrorKind + TransferResult) * Database :=
  transaction (transfer_body r clock) db.

(** The selection of a committed transfer: the [LotTranNo] values of the
    chosen pending rows; none stands for the full commitment. *)
Definition selected_total (db : Database) (k : LotKey) (ids : list Z) : Q :=
  fold_left (fun sum t => match QtyIssued t with
                          | Some q => (sum + q)%Q
                          | None => sum
                          end)
    (List.filter (fun t => existsb (Z.eqb (LotTranNo t)) ids)
       (pending_transactions_query db k)) 0%Q.

(** Modelled from the spec: the committed-quantity path (section 4.5; its
    code is in the backend). *)
Definition transferCommitted_body (r : Putaway.CommittedTransferRequest)
    (ids : list Z) (clock : Clock) : Tx TransferResult :=
  let k := key_of_committed r in
  let dest := JS.trim (Putaway.to_bin r) in
  let qty := Putaway.c_transfer_qty r in
  src <-- precondition_gate k dest ;;
  require (negb (JS.gt qty (Qtycommitsales src)))
    (InsufficientCommitted qty (Qtycommitsales src)) ;;;
  total <-- query (fun db => selected_total db k ids) ;;
  require (JS.lt (JS.Math_abs (qty - Qtycommitsales src)) tolerance
           || (negb (Nat.eqb (List.length ids) 0)
               && JS.lt (JS.Math_abs (total - qty)) tolerance))
    SelectionMismatch ;;;
  record_transfer k dest src qty (- qty) (Putaway.c_user_id r) clock.

Definition transferCommitted (r : Putaway.CommittedTransferRequest)
    (ids : list Z) (clock : Clock) (db : Database)
    : (ErrorKind + TransferResult) * Database :=
  transaction (transferCommitted_body r ids clock) db.

(** A request on either path, and a run of requests one after another. *)
Inductive Request :=
| Free (r : Putaway.BinTransferRequest)
| Committed (r : Putaway.CommittedTransferRequest) (ids : list Z).

Definition request_key (rq : Request) : LotKey :=
  match rq with
  | Free r => key_of r
  | Committed r _ => key_of_committed r
  end.

Definition request_dest (rq : Request) : string :=
  match rq with
  | Free r => JS.trim (Putaway.bin_to r)
  | Committed r _ => JS.trim (Putaway.to_bin r)
  end.

Definition request_qty (rq : Request) : Q :=
  match rq with
  | Free r => Putaway.transfer_qty r
  | Committed r _ => Putaway.c_transfer_qty r
  end.

(** What the source commitment moves by: up on the free path, down on
    the committed path. *)
Definition request_delta (rq : Request) : Q :=
  match rq with
  | Free r => Putaway.transfer_qty r
  | Committed r _ => (- Putaway.c_transfer_qty r)%Q
  end.

Definition request_user (rq : Request) : string :=
  match rq with
  | Free r => Putaway.user_id r
  | Committed r _ => Putaway.c_user_id r
  end.

Definition serve (rq : Request) (clock : Clock) (db : Database)
    : (ErrorKind + TransferResult) * Database :=
  match rq with
  | Free r => transfer r clock db
  | Committed r ids => transferCommitted r ids clock db
  end.

Fixpoint serve_all (rqs : list (Request * Clock)) (db : Database)
    : list (ErrorKind + TransferResult) * Database :=
  match rqs with
  | [] => ([], db)
  | (rq, clock) :: rest =>
    let '(res, db1) := serve rq clock db in
    let '(ress, db2) := serve_all rest db1 in
    (res :: ress, db2)
  end.

(** The document numbers of the transfers that succeeded, in order. *)
Definition issued_documents (ress : list (ErrorKind + TransferResult))
    : list string :=
  omap (fun res => match res with
                   | inr r => Some (document_no r)
                   | inl _ => None
                   end) ress.

(** The texts of the answers are a setting of the server. *)
Variable success_message : TransferResult -> string.
Variable error_name : ErrorKind -> string.
Variable error_message : ErrorKind -> string.

(** Modelled from the spec: the wire contract (section 6): the success
    body carries the document number, the time stamp and both lot
    statuses; a failure is answered by an error body with the kind, a
    message and the figures of the failure. *)
Definition respond (res : ErrorKind + TransferResult) : Putaway.BackendResult :=
  match res with
  | inr r =>
    Putaway.Responded
      {| Putaway.success := true;
         Putaway.document_no := document_no r;
         Putaway.message := success_message r;
         Putaway.timestamp := timestamp r;
         Putaway.source_lot_status := Some (source_lot_status r);
         Putaway.destination_lot_status := Some (destination_lot_status r) |}
  | inl e =>
    Putaway.Rejected
      {| Putaway.error := error_name e;
         Putaway.err_message := error_message e;
         Putaway.err_requested :=
           match e with
           | InsufficientQuantity q _ | InsufficientCommitted q _ => Some q
           | _ => None
           end;
         Putaway.err_available :=
           match e with
           | InsufficientQuantity _ a | InsufficientCommitted _ a => Some a
           | _ => None
           end |}
  end.

(** The two endpoints over a database, as the component calls them. *)
Definition executeBinTransfer (clock : Clock) (db : Database)
    (r : Putaway.BinTransferRequest) : Putaway.BackendResult :=
  respond (fst (transfer r clock db)).

Definition transferCommittedTransactions (ids : list Z) (clock : Clock)
    (db : Database) (r : Putaway.CommittedTransferRequest)
    : Putaway.BackendResult :=
  respond (fst (transferCommitted r ids clock db)).

End Settings.

End Engine.

(** ** The commitment, as the design document words it *)

Module AvailabilitySpec.
Import Legacy.

Definition issued (r : AuditRow) : Q :=
  match QtyIssued r with Some q => q | None => 0%Q end.

(** An active row ([processed] in {N, P}) of an outbound type, for the key. *)
Definition counted (k : LotKey) (r : AuditRow) : bool :=
  bool_decide (Processed r ∈ ["N"; "P"])
  && bool_decide (TransactionType r ∈ [2; 3; 5; 7; 9; 10; 12; 16; 17; 20; 21])
  && bool_decide (t_ItemKey r = k_ItemKey k /\ t_LocationKey r = k_LocationKey k
                  /\ t_LotNo r = k_LotNo k /\ t_BinNo r = k_BinNo k).

Definition sumQ (l : list Q) : Q := fold_right Qplus 0%Q l.

(** The sum of the issued quantities over the counted audit and QC-audit
    rows. *)
Definition pending_commit (db : Database) (k : LotKey) : Q :=
  sumQ (List.map issued
          (List.filter (counted k) (LotTransaction db ++ QCLotTransaction db))).

End AvailabilitySpec.

(** ** The layout of the receipt, as the design document words it *)

Module ReceiptSpec.

Definition is_digit (c : ascii) : bool :=
  (48 <=? nat_of_ascii c)%nat && (nat_of_ascii c <=? 57)%nat.

Fixpoint all_digits (s : string) : bool :=
  match s with
  | EmptyString => true
  | String c s' => is_digit c && all_digits s'
  end.

(** A number [n] of two digits. *)
Definition two_digits (n : Z) : string :=
  String (JS.digit (n / 10)) (String (JS.digit (n mod 10)) EmptyString).

(** The date [DD-MM-YY]. *)
Definition DD_MM_YY (day month year : Z) : string :=
  two_digits day +:+ "-" +:+ two_digits month +:+ "-" +:+ two_digits (year mod 100).

(** [s] writes [x] to exactly three decimals: an optional sign, the digits
    of the integer part, the point and three digits, the whole being the
    thousandth nearest to [x]. *)
Definition three_decimals (s : string) (x : Q) : Prop :=
  exists (sign int frac : string) (n : Z),
    s = sign +:+ int +:+ "." +:+ frac /\
    (sign = "" \/ sign = "-") /\
    all_digits int = true /\ int <> "" /\
    all_digits frac = true /\ String.length frac = 3%nat /\
    int = pretty (n / 1000) /\ frac = JS.slice 1 (pretty (1000 + n mod 1000)) /\
    (0 <= n) /\ (Qabs (inject_Z n / 1000 - Qabs x) <= 1 # 2000)%Q.

End ReceiptSpec.

(** ** The transfer of the transaction document, as data *)

Module Scenario.

(** Lot 2600107-1 of item INBC1403 at TFC1, in bin K0802-4B: 975 on hand,
    50 committed. *)
Definition lot : Putaway.LotDetails :=
  {| Putaway.lotNumber := "2600107-1";
     Putaway.binNumber := "K0802-4B";
     Putaway.itemKey := "INBC1403";
     Putaway.location := "TFC1";
     Putaway.uom := "KG";
     Putaway.qtyCommitSales := 50;
     Putaway.qtyOnHand := 975;
     Putaway.qtyAvail := 925;
     Putaway.expDate := "2027-05-07";
     Putaway.lotStatus := "P" |}.

(** The form with [qty] typed in and WHKON1 as destination. *)
Definition form (qty : option Q) : Putaway.FormValues :=
  {| Putaway.putawayQty := qty;
     Putaway.toBinNumber := Some "WHKON1";
     Putaway.printReport := true;
     Putaway.remarks := None;
     Putaway.referenced := None |}.

Definition state (qty : option Q) : Putaway.State :=
  {| Putaway.selectedLot := Some lot;
     Putaway.putawayForm := form qty;
     Putaway.targetTransferQty := 0;
     Putaway.isTransactionModalOpen := false;
     Putaway.currentError := None;
     Putaway.successMessage := "" |}.

(** The state once the modal is open for [target]. *)
Definition modal_open (target : Q) : Putaway.State :=
  Putaway.set_modal target true (state (Some target)).

(** The details of the free transfer of 500 under document BT-26112174. *)
Definition transactionDetails (dest : option string) : Putaway.TransactionDetails :=
  {| Putaway.td_document_no := "BT-26112174";
     Putaway.td_lot_no := "2600107-1";
     Putaway.td_transfer_qty := 500;
     Putaway.td_uom := "KG";
     Putaway.td_bin_from := "K0802-4B";
     Putaway.td_bin_to := "WHKON1";
     Putaway.td_timestamp := "2026-02-16T08:36:02.000Z";
     Putaway.should_print := true;
     Putaway.td_source_lot_status := Some "P";
     Putaway.td_destination_lot_status := dest |}.

Definition clock (day : Z) : Putaway.Date :=
  {| Putaway.getDate := day;
     Putaway.getMonth := 1;
     Putaway.getFullYear := 2026;
     Putaway.toISOString := "2026-02-16T08:36:02.000Z" |}.

(** The tables before the transfer: the lot in K0802-4B and in WHKON1,
    the counter at 26112173, and one pending sales issue of 50. *)
Definition lot_row (bin status : string) (on_hand committed : Q)
    : Legacy.LotMasterRow :=
  {| Legacy.LotNo := "2600107-1";
     Legacy.ItemKey := "INBC1403";
     Legacy.LocationKey := "TFC1";
     Legacy.BinNo := bin;
     Legacy.QtyOnHand := on_hand;
     Legacy.Qtycommitsales := committed;
     Legacy.QtyReserved := 0;
     Legacy.VendorKey := "NZSUS";
     Legacy.VendorlotNo := "07-05-25";
     Legacy.DateReceived := "2025-08-07 08:36:02";
     Legacy.DateExpiry := "2027-05-07 00:00:00";
     Legacy.LotStatus := status |}.

Definition sales_issue : Legacy.AuditRow :=
  {| Legacy.LotTranNo := 1;
     Legacy.t_LotNo := "2600107-1";
     Legacy.t_ItemKey := "INBC1403";
     Legacy.t_LocationKey := "TFC1";
     Legacy.t_DateReceived := None;
     Legacy.t_DateExpiry := None;
     Legacy.TransactionType := 3;
     Legacy.t_Vendorkey := None;
     Legacy.t_VendorlotNo := None;
     Legacy.CustomerKey := None;
     Legacy.IssueDocNo := Some "SO-1";
     Legacy.IssueDocLineNo := Some 1;
     Legacy.IssueDate := None;
     Legacy.QtyIssued := Some 50%Q;
     Legacy.ReceiptDocNo := None;
     Legacy.ReceiptDocLineNo := None;
     Legacy.QtyReceived := None;
     Legacy.RecUserid := None;
     Legacy.RecDate := None;
     Legacy.Processed := "N";
     Legacy.t_BinNo := "K0802-4B";
     Legacy.DateQuarantine := None |}.

Definition database : Legacy.Database :=
  {| Legacy.LotMaster := [lot_row "K0802-4B" "P" 975 50;
                          lot_row "WHKON1" "C" 3350 0];
     Legacy.inmast :=
       [{| Legacy.im_ItemKey := "INBC1403"; Legacy.Seriallotflg := "Y";
           Legacy.MultipleBinsreq := "Y"; Legacy.StockUomCode := "KG" |}];
     Legacy.BinMaster :=
       [{| Legacy.bm_BinNo := "K0802-4B"; Legacy.bm_Location := "TFC1";
           Legacy.Description := "" |};
        {| Legacy.bm_BinNo := "WHKON1"; Legacy.bm_Location := "TFC1";
           Legacy.Description := "" |}];
     Legacy.INLOC :=
       [{| Legacy.il_ItemKey := "INBC1403"; Legacy.il_Location := "TFC1";
           Legacy.Physinprogress := "N" |}];
     Legacy.DistributionParameter :=
       [{| Legacy.Default_Key := "Freeze_Inventory";
           Legacy.Default_Value := "N" |}];
     Legacy.SeqNum := {["BT" := 26112173]};
     Legacy.LotTransaction := [sales_issue];
     Legacy.QCLotTransaction := [] |}.

Definition truthy (s : string) : bool := String.eqb s "Y".

(** The server of the scenario: its flags and the texts of its answers. *)
Definition executeBinTransfer :=
  Engine.executeBinTransfer truthy (fun _ => "Transfer completed")
    (fun _ => "Validation error") (fun _ => "").

Definition transferCommittedTransactions :=
  Engine.transferCommittedTransactions truthy (fun _ => "Transfer completed")
    (fun _ => "Validation error") (fun _ => "").

Definition server_clock : Engine.Clock :=
  {| Engine.today := "2026-02-16 00:00:00";
     Engine.rfc3339 := "2026-02-16T08:36:02Z" |}.

(** Request of 500 from K0802-4B to WHKON1 by DECHAWAT. *)
Definition request (qty : Q) : Putaway.BinTransferRequest :=
  {| Putaway.lot_no := "2600107-1";
     Putaway.item_key := "INBC1403";
     Putaway.req_location := "TFC1";
     Putaway.bin_from := "K0802-4B";
     Putaway.bin_to := "WHKON1";
     Putaway.transfer_qty := qty;
     Putaway.user_id := "DECHAWAT";
     Putaway.req_remarks := "";
     Putaway.req_referenced := "" |}.

Definition committed_request (qty : Q) : Putaway.CommittedTransferRequest :=
  {| Putaway.c_lot_no := "2600107-1";
     Putaway.c_item_key := "INBC1403";
     Putaway.c_location := "TFC1";
     Putaway.source_bin := "K0802-4B";
     Putaway.to_bin := "WHKON1";
     Putaway.c_transfer_qty := qty;
     Putaway.c_user_id := "DECHAWAT";
     Putaway.c_remarks := "";
     Putaway.c_referenced := "" |}.

Definition source_key : Legacy.LotKey :=
  {| Legacy.k_ItemKey := "INBC1403"; Legacy.k_LocationKey := "TFC1";
     Legacy.k_LotNo := "2600107-1"; Legacy.k_BinNo := "K0802-4B" |}.

(** The free transfer of 500, and what it is expected to answer. *)
Definition free_transfer : (Engine.ErrorKind + Engine.TransferResult) * Legacy.Database :=
  Engine.serve truthy (Engine.Free (request 500)) server_clock database.

Definition free_result : Engine.TransferResult :=
  {| Engine.document_no := "BT-26112174";
     Engine.source_lot_status := "P";
     Engine.destination_lot_status := "C";
     Engine.timestamp := "2026-02-16T08:36:02Z" |}.

(** The committed transfer of the whole commitment of 50. *)
Definition committed_transfer : (Engine.ErrorKind + Engine.TransferResult) * Legacy.Database :=
  Engine.serve truthy (Engine.Committed (committed_request 50) []) server_clock
    database.

(** A commitment of 80 on the source bin from three pending rows of 30, 30
    and 20. *)
Definition issue (id : Z) (qty : Q) : Legacy.AuditRow :=
  Legacy.set_LotTranNo id
    {| Legacy.LotTranNo := 0;
       Legacy.t_LotNo := Legacy.t_LotNo sales_issue;
       Legacy.t_ItemKey := Legacy.t_ItemKey sales_issue;
       Legacy.t_LocationKey := Legacy.t_LocationKey sales_issue;
       Legacy.t_DateReceived := None;
       Legacy.t_DateExpiry := None;
       Legacy.TransactionType := 3;
       Legacy.t_Vendorkey := None;
       Legacy.t_VendorlotNo := None;
       Legacy.CustomerKey := None;
       Legacy.IssueDocNo := Some "SO-1";
       Legacy.IssueDocLineNo := Some id;
       Legacy.IssueDate := None;
       Legacy.QtyIssued := Some qty;
       Legacy.ReceiptDocNo := None;
       Legacy.ReceiptDocLineNo := None;
       Legacy.QtyReceived := None;
       Legacy.RecUserid := None;
       Legacy.RecDate := None;
       Legacy.Processed := "N";
       Legacy.t_BinNo := Legacy.t_BinNo sales_issue;
       Legacy.DateQuarantine := None |}.

Definition database_80 : Legacy.Database :=
  Legacy.set_LotTransaction [issue 1 30; issue 2 30; issue 3 20]
    (Legacy.set_LotMaster [lot_row "K0802-4B" "P" 975 80;
                           lot_row "WHKON1" "C" 3350 0] database).

Definition pending (id : Z) (qty : Q) : Modal.LotTransactionItem :=
  {| Modal.lot_tran_no := id;
     Modal.lot_no := "2600107-1";
     Modal.bin_no := "K0802-4B";
     Modal.doc_no := "SO-1";
     Modal.issue_doc_line_no := 1;
     Modal.qty := qty;
     Modal.tran_typ := "Sales Issue" |}.

End Scenario.

(** ** transaction-selection-modal.component.ts: the other members *)

Module ModalView.
Import Modal.

(** The signals and inputs of the component beside those of [Modal.State]. *)
Record View := {
  state : Modal.State;
  isOpen : bool;
  lotNo : string;
  binNo : string;
  isLoading : bool;
  errorMessage : string
}.

Definition areAllSelected (m : Modal.State) : bool :=
  (0 <? List.length (transactions m))%nat
  && forallb (fun t => isSelected m (lot_tran_no t)) (transactions m).

(** What [searchLotTransactions(..).toPromise()] comes back with: a list, an
    undefined value, or a rejection. *)
Inductive Response :=
| Results (items : list LotTransactionItem)
| NoResults
| Failure.

Definition loadTransactions (resp : Response) (v : View) : View :=
  {| state := {| transactions := match resp with
                                 | Results items => items
                                 | _ => []
                                 end;
                 selectedIds := ∅;
                 targetQty := targetQty (state v) |};
     isOpen := isOpen v;
     lotNo := lotNo v;
     binNo := binNo v;
     isLoading := false;
     errorMessage := match resp with
                     | Failure => "Failed to load transactions. Please try again."
                     | _ => ""
                     end |}.

(** The effect of the constructor, run when [isOpen], [lotNo] or [binNo]
    change. *)
Definition effect (resp : Response) (v : View) : View :=
  if isOpen v && negb (JS.falsy (Some (lotNo v))) && negb (JS.falsy (Some (binNo v)))
  then loadTransactions resp v
  else if negb (isOpen v) then
    {| state := {| transactions := transactions (state v);
                   selectedIds := ∅;
                   targetQty := targetQty (state v) |};
       isOpen := isOpen v;
       lotNo := lotNo v;
       binNo := binNo v;
       isLoading := isLoading v;
       errorMessage := "" |}
  else v.


End ModalView.

(** ** More JavaScript string primitives (ASCII) *)

Module JSString.

(** [hay.includes(needle)] *)
Fixpoint includes (needle hay : string) : bool :=
  String.prefix needle hay
  || match hay with
     | String _ hay' => includes needle hay'
     | EmptyString => false
     end.

Definition lower (c : ascii) : ascii :=
  let n := nat_of_ascii c in
  if (65 <=? n)%nat && (n <=? 90)%nat then ascii_of_nat (n + 32) else c.

Definition upper (c : ascii) : ascii :=
  let n := nat_of_ascii c in
  if (97 <=? n)%nat && (n <=? 122)%nat then ascii_of_nat (n - 32) else c.

Fixpoint map_chars (f : ascii -> ascii) (s : string) : string :=
  match s with
  | EmptyString => EmptyString
  | String c s' => String (f c) (map_chars f s')
  end.

Definition toLowerCase (s : string) : string := map_chars lower s.
Definition toUpperCase (s : string) : string := map_chars upper s.

(** [s.charAt(0)]: the first character, or the empty string. *)
Definition charAt0 (s : string) : string :=
  match s with
  | EmptyString => EmptyString
  | String c _ => String c EmptyString
  end.

(** [s.split(' ')]: the pieces between the spaces; always at least one. *)
Fixpoint split_spaces (s : string) : list string :=
  match s with
  | EmptyString => [EmptyString]
  | String c s' =>
    if Ascii.eqb c " " then EmptyString :: split_spaces s'
    else match split_spaces s' with
         | piece :: pieces => String c piece :: pieces
         | [] => [String c EmptyString]
         end
  end.

(** [s.substring(0, n)] *)
Fixpoint take (n : nat) (s : string) : string :=
  match n, s with
  | S n', String c s' => String c (take n' s')
  | _, _ => EmptyString
  end.

End JSString.

(** ** putaway.component.ts: the other members *)

Module PutawayView.
Import Putaway.

(** [LotSearchItem], as [onLotSelected] reads it; the three fields read
    through [||] may be missing. *)
Record LotSearchItem := {
  s_lot_no : string;
  current_bin : string;
  s_item_key : string;
  s_location : string;
  s_uom : string;
  qty_commit_sales : option Q;
  qty_on_hand : Q;
  qty_available : Q;
  expiry_date : option string;
  lot_status : option string
}.

Definition lotDetails_of (lotItem : LotSearchItem) : LotDetails :=
  {| lotNumber := s_lot_no lotItem;
     binNumber := current_bin lotItem;
     itemKey := s_item_key lotItem;
     location := s_location lotItem;
     uom := s_uom lotItem;
     qtyCommitSales := match qty_commit_sales lotItem with
                       | Some q => q
                       | None => 0%Q
                       end;
     qtyOnHand := qty_on_hand lotItem;
     qtyAvail := qty_available lotItem;
     expDate := or_else (expiry_date lotItem) "";
     lotStatus := or_else (lot_status lotItem) "" |}.

(** [onLotSelected] with [populateReadonlyFields], on the signals of
    [Putaway.State]: the lot is set, the quantity control is emptied, the
    error message is cleared; the other controls keep their values.  (The
    read-only display controls and the flag of the lot modal are not part of
    [Putaway.State].) *)
Definition onLotSelected (lotItem : LotSearchItem) (st : State) : State :=
  {| selectedLot := Some (lotDetails_of lotItem);
     putawayForm :=
       {| putawayQty := None;
          toBinNumber := toBinNumber (putawayForm st);
          printReport := printReport (putawayForm st);
          remarks := remarks (putawayForm st);
          referenced := referenced (putawayForm st) |};
     targetTransferQty := targetTransferQty st;
     isTransactionModalOpen := isTransactionModalOpen st;
     currentError := None;
     successMessage := successMessage st |}.

(** The classification of [getErrorTitle] over the text of the error
    message. *)
Definition getErrorTitle (errorMessage : string) : string :=
  let message := JSString.toLowerCase errorMessage in
  if JSString.includes "insufficient" message || JSString.includes "only" message
  then "⚠️ Insufficient Quantity"
  else if JSString.includes "invalid" message && JSString.includes "bin" message
  then "🚫 Invalid Bin"
  else if JSString.includes "not found" message || JSString.includes "lot" message
  then "❓ Lot Not Found"
  else if JSString.includes "authentication" message
          || JSString.includes "login" message
  then "🔐 Authentication Required"
  else if JSString.includes "validation" message
  then "📋 Validation Error"
  else if JSString.includes "system" message || JSString.includes "database" message
          || JSString.includes "transaction" message
  then "💾 System Error"
  else if JSString.includes "network" message || JSString.includes "connection" message
  then "🌐 Connection Error"
  else "❌ Operation Failed".

Definition getErrorGuidance (errorMessage : string) : string :=
  let message := JSString.toLowerCase errorMessage in
  if JSString.includes "insufficient" message || JSString.includes "only" message
  then "Reduce the transfer quantity to match available inventory or check if lot has been moved."
  else if JSString.includes "invalid" message && JSString.includes "bin" message
  then "Verify the destination bin number exists in this location and try again."
  else if JSString.includes "not found" message || JSString.includes "lot" message
  then "Double-check the lot number or use the search button to find available lots."
  else if JSString.includes "authentication" message
          || JSString.includes "login" message
  then "Please log in again to continue with the transfer operation."
  else if JSString.includes "validation" message
  then "Check all required fields are filled correctly and quantities are valid."
  else if JSString.includes "system" message || JSString.includes "database" message
          || JSString.includes "transaction" message
  then "Wait a moment and try again. Contact IT support if the problem persists."
  else if JSString.includes "network" message || JSString.includes "connection" message
  then "Check your network connection and try again."
  else "Review the transfer details and try again or contact support for assistance.".

(** The pairs of title and guidance that belong together. *)
Definition advice : list (string * string) :=
  [ ("⚠️ Insufficient Quantity",
     "Reduce the transfer quantity to match available inventory or check if lot has been moved.");
    ("🚫 Invalid Bin",
     "Verify the destination bin number exists in this location and try again.");
    ("❓ Lot Not Found",
     "Double-check the lot number or use the search button to find available lots.");
    ("🔐 Authentication Required",
     "Please log in again to continue with the transfer operation.");
    ("📋 Validation Error",
     "Check all required fields are filled correctly and quantities are valid.");
    ("💾 System Error",
     "Wait a moment and try again. Contact IT support if the problem persists.");
    ("🌐 Connection Error",
     "Check your network connection and try again.");
    ("❌ Operation Failed",
     "Review the transfer details and try again or contact support for assistance.") ].

End PutawayView.

(** ** Docs/Putaway-Bme-Transaction.md: the columns of query 1.4 *)

Module LegacyView.
Import Legacy.

(** [Case TransactionType When 1 Then 'Purchase Receipt' .. end]: a CASE
    without ELSE gives NULL for a value that no WHEN names. *)
Definition TranTyp (t : Z) : option string :=
  match t with
  | 1 => Some "Purchase Receipt"
  | 2 => Some "Purchase Return"
  | 3 => Some "Sales Issue"
  | 4 => Some "Sales Return"
  | 5 => Some "Mfg. Issue"
  | 6 => Some "Mfg. Return"
  | 7 => Some "Inventory Transfer"
  | 8 => Some "Inventory Adj. Positive"
  | 9 => Some "Inventory Adj. Negative"
  | 10 => Some "Damaged"
  | 11 => Some "Warehouse Move In"
  | 12 => Some "Warehouse Move Out"
  | 14 => Some "Physical Count"
  | 15 => Some "Transfer In"
  | 16 => Some "Transfer Out"
  | 17 => Some "Move"
  | 18 => Some "Mfg. Receipt"
  | 21 => Some "Sales Provisional"
  | _ => None
  end.

Record PendingRow := {
  p_LotNo : string;
  p_BinNo : string;
  p_IssueDocNo : option string;
  p_IssueDocLineNo : option Z;
  p_QtyIssued : option Q;
  p_LotTranNo : Z;
  p_TranTyp : option string
}.

(** The first SELECT of query 1.4, on [LotTransaction]. *)
Definition pending_rows (db : Database) (k : LotKey) : list PendingRow :=
  List.map
    (fun r => {| p_LotNo := t_LotNo r;
                 p_BinNo := t_BinNo r;
                 p_IssueDocNo := IssueDocNo r;
                 p_IssueDocLineNo := IssueDocLineNo r;
                 p_QtyIssued := QtyIssued r;
                 p_LotTranNo := LotTranNo r;
                 p_TranTyp := TranTyp (TransactionType r) |})
    (List.filter (pending_where k) (LotTransaction db)).

End LegacyView.

(** ** dashboard.component.ts *)

Module Dashboard.

(** [name.split(' ').map(n => n.charAt(0)).join('').toUpperCase()
    .substring(0, 2)], on ASCII names. *)
Definition getInitials (name : string) : string :=
  JSString.take 2
    (JSString.toUpperCase
       (String.concat "" (List.map JSString.charAt0 (JSString.split_spaces name)))).

End Dashboard.

(** ** environments/load-env.js *)

Module LoadEnv.

(** [process.env] once [dotenv] has loaded the file: each variable is a
    string or is missing. *)
Record Env := {
  API_BASE_URL : option string;
  DOCKER_HOST_IP : option string;
  FRONTEND_HOST : option string;
  FRONTEND_PORT : option string;
  NG_ENVIRONMENT : option string;
  ENABLE_DEBUG : option string;
  VERBOSE_LOGGING : option string;
  DEFAULT_PAGE_SIZE : option string;
  APP_TITLE : option string;
  COMPANY_NAME : option string;
  ENABLE_MOCK_DATA : option string;
  ENABLE_INVENTORY_ALERTS : option string;
  SERVER_PORT : option string
}.

Definition apiBaseUrl (env : Env) : string :=
  Putaway.or_else (API_BASE_URL env) "http://localhost:8080".

Definition apiUrl (env : Env) : string := apiBaseUrl env +:+ "/api".

(** [[^:]+] at the head of a string: the longest run of characters other
    than the colon, and what follows it. *)
Fixpoint span_not_colon (s : string) : string * string :=
  match s with
  | EmptyString => (EmptyString, EmptyString)
  | String c s' =>
    if Ascii.eqb c ":" then (EmptyString, s)
    else let (run, rest) := span_not_colon s' in (String c run, rest)
  end.

Fixpoint drop (n : nat) (s : string) : string :=
  match n, s with
  | S n', String _ s' => drop n' s'
  | _, _ => s
  end.

(** [/http:\/\/([^:]+):/] tried at the head of a string.  The run matched by
    [[^:]+] is the longest one, and no shorter run is followed by a colon. *)
Definition match_here (s : string) : option string :=
  if String.prefix "http://" s then
    let (run, rest) := span_not_colon (drop 7 s) in
    if negb (String.eqb run "") && String.prefix ":" rest then Some run else None
  else None.

(** [s.match(/http:\/\/([^:]+):/)]: the first capture group of the leftmost
    match, if any. *)
Fixpoint apiHostMatch (s : string) : option string :=
  match match_here s with
  | Some host => Some host
  | None =>
    match s with
    | EmptyString => None
    | String _ s' => apiHostMatch s'
    end
  end.

Definition apiHost (env : Env) : string :=
  match apiHostMatch (apiBaseUrl env) with
  | Some host => host
  | None => Putaway.or_else (DOCKER_HOST_IP env) "localhost"
  end.

Definition frontendPort (env : Env) : string :=
  Putaway.or_else (FRONTEND_PORT env) "4200".

Record EnvVars := {
  v_API_URL : string;
  v_API_BASE_URL : string;
  v_FRONTEND_HOST : string;
  v_FRONTEND_PORT : string;
  v_PRODUCTION : string;
  v_DEBUG : string;
  v_VERBOSE_LOGGING : string;
  v_DEFAULT_PAGE_SIZE : string;
  v_APP_TITLE : string;
  v_COMPANY_NAME : string;
  v_ENABLE_MOCK_DATA : string;
  v_ENABLE_INVENTORY_ALERTS : string;
  v_CSP_API_HOST : string;
  v_CSP_API_PORT : string;
  v_CSP_NETWORK_HOST : string;
  v_CSP_NETWORK_PORT : string;
  v_CSP_WS_PORT : string
}.

Definition envVars (env : Env) : EnvVars :=
  {| v_API_URL := apiUrl env;
     v_API_BASE_URL := apiBaseUrl env;
     v_FRONTEND_HOST := Putaway.or_else (FRONTEND_HOST env) "0.0.0.0";
     v_FRONTEND_PORT := frontendPort env;
     v_PRODUCTION :=
       match NG_ENVIRONMENT env with
       | Some e => if String.eqb e "production" then "true" else "false"
       | None => "false"
       end;
     v_DEBUG := Putaway.or_else (ENABLE_DEBUG env) "false";
     v_VERBOSE_LOGGING := Putaway.or_else (VERBOSE_LOGGING env) "false";
     v_DEFAULT_PAGE_SIZE := Putaway.or_else (DEFAULT_PAGE_SIZE env) "25";
     v_APP_TITLE := Putaway.or_else (APP_TITLE env) "Putaway System";
     v_COMPANY_NAME := Putaway.or_else (COMPANY_NAME env) "NWFTH";
     v_ENABLE_MOCK_DATA := Putaway.or_else (ENABLE_MOCK_DATA env) "false";
     v_ENABLE_INVENTORY_ALERTS :=
       Putaway.or_else (ENABLE_INVENTORY_ALERTS env) "false";
     v_CSP_API_HOST := apiHost env;
     v_CSP_API_PORT := Putaway.or_else (SERVER_PORT env) "4400";
     v_CSP_NETWORK_HOST := apiHost env;
     v_CSP_NETWORK_PORT := Putaway.or_else (SERVER_PORT env) "4400";
     v_CSP_WS_PORT := frontendPort env |}.

(** The value of [connectSrc] in the generated [csp-config.ts]. *)
Definition connectSrc (env : Env) : string :=
  let vars := envVars env in
  "self http://" +:+ v_CSP_API_HOST vars +:+ ":" +:+ v_CSP_API_PORT vars
  +:+ " http://" +:+ v_CSP_NETWORK_HOST vars +:+ ":" +:+ v_CSP_NETWORK_PORT vars
  +:+ " ws://localhost:" +:+ v_CSP_WS_PORT vars.

(** A string without colon. *)
Fixpoint no_colon (s : string) : bool :=
  match s with
  | EmptyString => true
  | String c s' => negb (Ascii.eqb c ":") && no_colon s'
  end.

End LoadEnv.

Module LegacyScenario.

(** A pending row of type 20 on the lot of the scenario. *)
Definition transfer_out : Legacy.AuditRow :=
  {| Legacy.LotTranNo := 2;
     Legacy.t_LotNo := "2600107-1";
     Legacy.t_ItemKey := "INBC1403";
     Legacy.t_LocationKey := "TFC1";
     Legacy.t_DateReceived := None;
     Legacy.t_DateExpiry := None;
     Legacy.TransactionType := 20;
     Legacy.t_Vendorkey := None;
     Legacy.t_VendorlotNo := None;
     Legacy.CustomerKey := None;
     Legacy.IssueDocNo := Some "TO-7";
     Legacy.IssueDocLineNo := Some 1;
     Legacy.IssueDate := None;
     Legacy.QtyIssued := Some 25%Q;
     Legacy.ReceiptDocNo := None;
     Legacy.ReceiptDocLineNo := None;
     Legacy.QtyReceived := None;
     Legacy.RecUserid := None;
     Legacy.RecDate := None;
     Legacy.Processed := "P";
     Legacy.t_BinNo := "K0802-4B";
     Legacy.DateQuarantine := None |}.

Definition database : Legacy.Database :=
  Legacy.set_LotTransaction [Scenario.sales_issue; transfer_out] Scenario.database.

End LegacyScenario.

Module LegacyTrace.
Import Legacy.

(** The value of query 1.3, a NULL sum read as 0. *)
Definition commitment_or_0 (db : Database) (k : LotKey) : Q :=
  match commitment_query db k with Some c => c | None => 0%Q end.

(** The writes of the trace after the document number is taken: the UPDATE
    4.3 and the INSERTs 5.1 and 5.2, in that order. *)
Definition transfer_writes (k : LotKey) (src : LotMasterRow)
    (bin_to doc : string) (qty : Q) (user today : string) (db : Database)
    : Database :=
  insert_LotTransaction (destination_transaction k src bin_to doc qty user today)
    (insert_LotTransaction (source_transaction k src doc qty user today)
       (update_commitsales k qty db)).

End LegacyTrace.

Module LoadEnvScenario.

(** An environment that sets the API base URL and the host of the
    container, and nothing else. *)
Definition env (url host : option string) : LoadEnv.Env :=
  {| LoadEnv.API_BASE_URL := url;
     LoadEnv.DOCKER_HOST_IP := host; LoadEnv.FRONTEND_HOST := None;
     LoadEnv.FRONTEND_PORT := None; LoadEnv.NG_ENVIRONMENT := None;
     LoadEnv.ENABLE_DEBUG := None; LoadEnv.VERBOSE_LOGGING := None;
     LoadEnv.DEFAULT_PAGE_SIZE := None; LoadEnv.APP_TITLE := None;
     LoadEnv.COMPANY_NAME := None; LoadEnv.ENABLE_MOCK_DATA := None;
     LoadEnv.ENABLE_INVENTORY_ALERTS := None;
     LoadEnv.SERVER_PORT := None |}.

End LoadEnvScenario.

(** ** Numbers as the code computes them: IEEE 754 binary64

    A JavaScript number is a binary64 value, and [+], [-], [*], [/] round to
    the nearest value, ties to even.  The operations are those of the
    Standard Library's specification of floating-point arithmetic
    ([SpecFloat]) at precision 53 and maximal exponent 1024.  The
    comparisons are exact; with a NaN operand they are false. *)

Module Binary64.
Import SpecFloat.

Definition prec : Z := 53.
Definition emax : Z := 1024.

Definition number : Type := spec_float.

Definition zero : number := S754_zero false.

Definition add (a b : number) : number := SFadd prec emax a b.
Definition sub (a b : number) : number := SFsub prec emax a b.
Definition mul (a b : number) : number := SFmul prec emax a b.
Definition div (a b : number) : number := SFdiv prec emax a b.

Definition lt (a b : number) : bool := SFltb a b.
Definition le (a b : number) : bool := SFleb a b.
Definition gt (a b : number) : bool := SFltb b a.

Definition Math_abs (x : number) : number := SFabs x.

(** The number of an integer; exact below 2^53. *)
Definition of_Z (n : Z) : number := binary_normalize prec emax n 0 false.

(** The number that the decimal literal [n * 10^-places] denotes: the
    binary64 value nearest to it ([n] and [10^places] below 2^53, which the
    division then rounds once). *)
Definition decimal (n places : Z) : number := div (of_Z n) (of_Z (10 ^ places)).

(** [Number.EPSILON] = 2^-52. *)
Definition Number_EPSILON : number := S754_finite false 4503599627370496 (-104).

(** [Math.round]: an integral value, an infinity or NaN is returned as it
    is; otherwise the nearest integer, the one towards +infinity on a tie,
    and a zero of the sign of the argument when that integer is 0. *)
Definition Math_round (x : number) : number :=
  match x with
  | S754_finite s m e =>
    if 0 <=? e then x
    else
      let n := Z.shiftr (2 * cond_Zopp s (Zpos m) + 2 ^ (- e)) (- e + 1) in
      if n =? 0 then S754_zero s else of_Z n
  | _ => x
  end.

(** [x] as a condition: 0, -0 and NaN are falsy. *)
Definition truthy (x : number) : bool :=
  match x with
  | S754_zero _ | S754_nan => false
  | _ => true
  end.

(** [parseFloat(v) || 0] on the value of a numeric form control: an empty
    control gives NaN, which [||] replaces by 0, as it does a zero. *)
Definition parseFloat_or_0 (v : option number) : number :=
  match v with
  | Some x => if truthy x then x else zero
  | None => zero
  end.

(** The exact value of a finite number, as a rational. *)
Definition value (x : number) : Q :=
  match x with
  | S754_finite s m e => (inject_Z (cond_Zopp s (Zpos m)) * 2 ^ e)%Q
  | _ => 0%Q
  end.

End Binary64.

(** The literal [0.001] of the quantity comparisons, as a number. *)
Definition tolerance64 : Binary64.number := Binary64.decimal 1 3.

(** ** Strings held in UTF-8: [String.prototype.trim]

    [trim] removes the white space and the line terminators of ECMAScript
    from both ends: TAB, LF, VT, FF, CR, SP, U+00A0, U+1680, U+2000 to
    U+200A, U+2028, U+2029, U+202F, U+205F, U+3000 and U+FEFF. *)

Module Utf8.

Definition byte (c : ascii) : nat := nat_of_ascii c.

Definition white1 (a : ascii) : bool :=
  match byte a with
  | 9%nat | 10%nat | 11%nat | 12%nat | 13%nat | 32%nat => true
  | _ => false
  end.

(** U+00A0 is C2 A0. *)
Definition white2 (a b : ascii) : bool :=
  Nat.eqb (byte a) 194 && Nat.eqb (byte b) 160.

(** The white space of three bytes: U+1680 (E1 9A 80), U+2000 to U+200A
    (E2 80 80 to E2 80 8A), U+2028, U+2029 (E2 80 A8, A9), U+202F (E2 80 AF),
    U+205F (E2 81 9F), U+3000 (E3 80 80) and U+FEFF (EF BB BF). *)
Definition white3 (a b c : ascii) : bool :=
  let x := byte a in
  let y := byte b in
  let z := byte c in
  (Nat.eqb x 225 && Nat.eqb y 154 && Nat.eqb z 128)
  || (Nat.eqb x 226 && Nat.eqb y 128
      && ((128 <=? z)%nat && (z <=? 138)%nat
          || Nat.eqb z 168 || Nat.eqb z 169 || Nat.eqb z 175))
  || (Nat.eqb x 226 && Nat.eqb y 129 && Nat.eqb z 159)
  || (Nat.eqb x 227 && Nat.eqb y 128 && Nat.eqb z 128)
  || (Nat.eqb x 239 && Nat.eqb y 187 && Nat.eqb z 191).

Fixpoint trimStart (s : string) : string :=
  match s with
  | EmptyString => EmptyString
  | String a s1 =>
    if white1 a then trimStart s1
    else
      match s1 with
      | String b s2 =>
        if white2 a b then trimStart s2
        else
          match s2 with
          | String c s3 => if white3 a b c then trimStart s3 else s
          | EmptyString => s
          end
      | EmptyString => s
      end
  end.

(** The same from the end, on the reversed string. *)
Fixpoint trimStart_reversed (s : string) : string :=
  match s with
  | EmptyString => EmptyString
  | String c s1 =>
    if white1 c then trimStart_reversed s1
    else
      match s1 with
      | String b s2 =>
        if white2 b c then trimStart_reversed s2
        else
          match s2 with
          | String a s3 => if white3 a b c then trimStart_reversed s3 else s
          | EmptyString => s
          end
      | EmptyString => s
      end
  end.

Definition trim (s : string) : string :=
  String.rev (trimStart_reversed (String.rev (trimStart s))).

End Utf8.

(** ** transaction-selection-modal.component.ts, in binary64 *)

Module Modal64.
Import Binary64.

Record LotTransactionItem := {
  lot_tran_no : Z;
  lot_no : string;
  bin_no : string;
  doc_no : string;
  issue_doc_line_no : Z;
  qty : number;
  tran_typ : string
}.

Record State := {
  transactions : list LotTransactionItem;
  selectedIds : gset Z;
  targetQty : number
}.

Definition selectedCount (m : State) : nat := size (selectedIds m).

Definition isSelected (m : State) (id : Z) : bool :=
  bool_decide (id ∈ selectedIds m).

(** [txs.filter(t => selected.has(t.lot_tran_no)).reduce((sum, t) => sum + t.qty, 0)]:
    the additions are made, and rounded, in the order of the list. *)
Definition selectedTotalQty (m : State) : number :=
  fold_left (fun sum t => add sum (qty t))
    (List.filter (fun t => isSelected m (lot_tran_no t)) (transactions m)) zero.

Definition isQtyMatched (m : State) : bool :=
  let target := targetQty m in
  if le target zero then (0 <? selectedCount m)%nat
  else lt (Math_abs (sub (selectedTotalQty m) target)) tolerance64.

Definition canConfirm (m : State) : bool :=
  (0 <? selectedCount m)%nat && isQtyMatched m.

(** [onConfirm] emits the selected total; the Confirm button is bound to
    [[disabled]="!canConfirm()"]. *)
Definition onConfirm (m : State) : number := selectedTotalQty m.

Definition clickConfirm (m : State) : option number :=
  if canConfirm m then Some (onConfirm m) else None.

End Modal64.

(** ** putaway.component.ts, in binary64

    The component once more, with its quantities as numbers of [Binary64],
    the destination bin trimmed as [Utf8.trim] does, and the error message as
    the one signal it is in the code: a message that is empty or missing is
    the cleared state, and the template shows no error for it. *)

Module Putaway64.
Import Binary64.

Record LotDetails := {
  lotNumber : string;
  binNumber : string;
  itemKey : string;
  location : string;
  uom : string;
  qtyCommitSales : number;
  qtyOnHand : number;
  qtyAvail : number;
  expDate : string;
  lotStatus : string
}.

Record FormValues := {
  putawayQty : option number;
  toBinNumber : option string;
  printReport : bool;
  remarks : option string;
  referenced : option string
}.

Definition form_reset : FormValues :=
  {| putawayQty := None; toBinNumber := None; printReport := false;
     remarks := None; referenced := None |}.

Record BinTransferRequest := {
  lot_no : string;
  item_key : string;
  req_location : string;
  bin_from : string;
  bin_to : string;
  transfer_qty : number;
  user_id : string;
  req_remarks : string;
  req_referenced : string
}.

Record CommittedTransferRequest := {
  c_lot_no : string;
  c_item_key : string;
  c_location : string;
  source_bin : string;
  to_bin : string;
  c_transfer_qty : number;
  c_user_id : string;
  c_remarks : string;
  c_referenced : string
}.

(** The body of a rejected HTTP call ([error.error]), as
    [parseErrorResponse] reads it; a field may be missing. *)
Record ErrorBody := {
  kind : option string;
  body_message : option string;
  requested : option number;
  available : option number;
  body_bin_no : option string;
  body_location : option string;
  body_lot_no : option string
}.

(** What a rejected call throws: an [HttpErrorResponse] with its own
    [message] and, when the server sent one, the body. *)
Record HttpError := {
  http_message : string;
  body : option ErrorBody
}.

Inductive BackendResult :=
| Responded (r : Putaway.TransactionResponse)
| Rejected (e : HttpError).

(** The value of the signal [errorMessage]: a text, a missing text (an
    absent [message] handed to [setError]), or one of the template literals
    of the component, which keep what they interpolate instead of its
    rendering. *)
Inductive Message :=
| Literal (s : string)
| Missing
| CannotTransferMoreThanCommitted (committed input : number)
| QuantityMismatch (selected target : number)
| ErrorTransferringCommitted (e : HttpError)
| TransferFailed (e : HttpError).

(** [*ngIf="errorMessage()"]: the error block is shown for a message that
    is truthy; every template literal has text of its own. *)
Definition shown (m : Message) : bool :=
  match m with
  | Literal s => negb (String.eqb s "")
  | Missing => false
  | _ => true
  end.

Inductive Details :=
| NoDetails
| RequestedAvailable (requested available : option number)
| FieldRequired (field message : string)
| BinLocation (bin_no location : option string)
| LotNo (lot_no : option string)
| Response (r : Putaway.TransactionResponse).

(** The signals of the component. *)
Record State := {
  selectedLot : option LotDetails;
  putawayForm : FormValues;
  targetTransferQty : number;
  isTransactionModalOpen : bool;
  errorMessage : Message;
  errorDetails : Details;
  successMessage : string
}.

Definition setError (msg : Message) (d : Details) (st : State) : State :=
  {| selectedLot := selectedLot st;
     putawayForm := putawayForm st;
     targetTransferQty := targetTransferQty st;
     isTransactionModalOpen := isTransactionModalOpen st;
     errorMessage := msg;
     errorDetails := d;
     successMessage := "" |}.

Definition clearMessages (st : State) : State :=
  {| selectedLot := selectedLot st;
     putawayForm := putawayForm st;
     targetTransferQty := targetTransferQty st;
     isTransactionModalOpen := isTransactionModalOpen st;
     errorMessage := Literal "";
     errorDetails := NoDetails;
     successMessage := "" |}.

Definition clearForm (st : State) : State :=
  clearMessages
    {| selectedLot := None;
       putawayForm := form_reset;
       targetTransferQty := targetTransferQty st;
       isTransactionModalOpen := isTransactionModalOpen st;
       errorMessage := errorMessage st;
       errorDetails := errorDetails st;
       successMessage := successMessage st |}.

Definition set_successMessage (s : string) (st : State) : State :=
  {| selectedLot := selectedLot st;
     putawayForm := putawayForm st;
     targetTransferQty := targetTransferQty st;
     isTransactionModalOpen := isTransactionModalOpen st;
     errorMessage := errorMessage st;
     errorDetails := errorDetails st;
     successMessage := s |}.

Definition set_modal (target : number) (open : bool) (st : State) : State :=
  {| selectedLot := selectedLot st;
     putawayForm := putawayForm st;
     targetTransferQty := target;
     isTransactionModalOpen := open;
     errorMessage := errorMessage st;
     errorDetails := errorDetails st;
     successMessage := successMessage st |}.

(** [!toBin || toBin.trim() === ''] *)
Definition blank (toBin : option string) : bool :=
  match toBin with
  | None => true
  | Some s => String.eqb s "" || String.eqb (Utf8.trim s) ""
  end.

(** [a || b] on two possibly missing strings. *)
Definition or_option (a b : option string) : option string :=
  if JS.falsy a then b else a.

Inductive Call :=
| NoCall
| Call_executeCommittedTransfer (transferQty : number).

Definition openTransactionModal (st : State) : State * Call :=
  match selectedLot st with
  | None => (st, NoCall)
  | Some lot =>
    if blank (toBinNumber (putawayForm st)) then
      (setError
         (Literal "Please enter a destination bin before transferring committed items")
         NoDetails st, NoCall)
    else
      let putawayQty := parseFloat_or_0 (putawayQty (putawayForm st)) in
      let qtyCommitSales := qtyCommitSales lot in
      if gt putawayQty qtyCommitSales then
        (setError (CannotTransferMoreThanCommitted qtyCommitSales putawayQty)
           (RequestedAvailable (Some putawayQty) (Some qtyCommitSales)) st,
         NoCall)
      else if lt (Math_abs (sub putawayQty qtyCommitSales)) tolerance64 then
        (st, Call_executeCommittedTransfer putawayQty)
      else
        (set_modal putawayQty true (clearMessages st), NoCall)
  end.

Definition onTransactionModalClosed (st : State) : State :=
  set_modal zero false st.

(** [onTransactionsSelected] up to its call of [executeCommittedTransfer]. *)
Definition onTransactionsSelected (selectedTotalQty : number) (st : State)
    : State * Call :=
  let transferQty := targetTransferQty st in
  if gt (Math_abs (sub selectedTotalQty transferQty)) tolerance64 then
    (setError (QuantityMismatch selectedTotalQty transferQty) NoDetails st,
     NoCall)
  else (st, Call_executeCommittedTransfer transferQty).

(** [Math.round((value + Number.EPSILON) * factor) / factor] with
    [factor = Math.pow(10, decimalPlaces)], which is exact for the places
    from 0 to 22. *)
Definition roundToDecimalPlaces (value : number) (decimalPlaces : Z) : number :=
  let factor := of_Z (10 ^ decimalPlaces) in
  div (Math_round (mul (add value Number_EPSILON) factor)) factor.

(** [this.selectedLot()?.qtyAvail ?? 0], rounded to three places. *)
Definition maxQuantity (st : State) : number :=
  roundToDecimalPlaces
    (match selectedLot st with Some lot => qtyAvail lot | None => zero end) 3.

(** The validity of the [putawayQty] control under [Validators.required]
    and [Validators.min(0.001)], as Angular defines them: an empty control is
    invalid, a number is valid unless it is below the minimum. *)
Definition putawayQtyValid (st : State) : bool :=
  match putawayQty (putawayForm st) with
  | None => false
  | Some v => negb (lt v tolerance64)
  end.

Definition isFormValid (st : State) : bool :=
  let putawayQtyValue := parseFloat_or_0 (putawayQty (putawayForm st)) in
  let maxQty := maxQuantity st in
  match selectedLot st with
  | None => false
  | Some _ =>
    putawayQtyValid st && gt putawayQtyValue zero && le putawayQtyValue maxQty
  end.

(** The modal bound to the component. *)
Definition modal_of (transactions : list Modal64.LotTransactionItem)
    (pick : gset Z) (st : State) : Modal64.State :=
  {| Modal64.transactions := transactions;
     Modal64.selectedIds := pick;
     Modal64.targetQty := targetTransferQty st |}.

(** A click on Confirm with the rows [pick] selected: [onConfirm] emits the
    total, [onTransactionsSelected] checks it, and [onClose] closes the
    modal. *)
Definition modalConfirm (transactions : list Modal64.LotTransactionItem)
    (pick : gset Z) (st : State) : State * Call :=
  match Modal64.clickConfirm (modal_of transactions pick st) with
  | None => (st, NoCall)
  | Some selectedTotalQty =>
    let c := onTransactionsSelected selectedTotalQty st in
    (onTransactionModalClosed (fst c), snd c)
  end.

(** What a run of [executeCommittedTransfer] or [onSubmit] leaves behind:
    the signals, the request sent to the backend (if any), whether the
    transfer succeeded and whether the receipt was printed. *)
Record Outcome (Request : Type) := {
  final : State;
  sent : option Request;
  succeeded : bool;
  printed : bool
}.
Arguments final {Request}.
Arguments sent {Request}.
Arguments succeeded {Request}.
Arguments printed {Request}.

Definition stopped {Request : Type} (st : State) : Outcome Request :=
  {| final := st; sent := None; succeeded := false; printed := false |}.

Definition parseErrorResponse (e : HttpError) (st : State) : State :=
  match body e with
  | Some errorResponse =>
    let message := match body_message errorResponse with
                   | Some s => Literal s
                   | None => Missing
                   end in
    let has_kind k := match kind errorResponse with
                      | Some s => String.eqb s k
                      | None => false
                      end in
    if has_kind "Insufficient quantity" then
      setError message
        (RequestedAvailable (requested errorResponse) (available errorResponse)) st
    else if has_kind "Invalid bin" then
      setError message
        (BinLocation
           (or_option (body_bin_no errorResponse) (toBinNumber (putawayForm st)))
           (or_option (body_location errorResponse)
              (option_map location (selectedLot st)))) st
    else if has_kind "Lot not found" then
      setError message
        (LotNo (or_option (body_lot_no errorResponse)
                  (option_map lotNumber (selectedLot st)))) st
    else if has_kind "Validation error" then
      setError message NoDetails st
    else if has_kind "Transaction error" || has_kind "Database error" then
      setError
        (Literal "System error occurred. Please try again or contact support.")
        NoDetails st
    else
      setError
        (Literal (Putaway.or_else (body_message errorResponse)
                    "An unexpected error occurred"))
        NoDetails st
  | None => setError (TransferFailed e) NoDetails st
  end.

Section Backend.

Variable transferCommittedTransactions : CommittedTransferRequest -> BackendResult.
Variable executeBinTransfer : BinTransferRequest -> BackendResult.
Variable currentUser : option string.

Definition executeCommittedTransfer (transferQty : number) (st : State)
    : Outcome CommittedTransferRequest :=
  match selectedLot st with
  | None => stopped st
  | Some lot =>
    match toBinNumber (putawayForm st) with
    | None =>
      stopped (setError
                 (Literal "Please enter a destination bin before transferring committed items")
                 NoDetails st)
    | Some toBin =>
      if blank (Some toBin) then
        stopped (setError
                   (Literal "Please enter a destination bin before transferring committed items")
                   NoDetails st)
      else
        let st1 := clearMessages st in
        let formValues := putawayForm st in
        let request :=
          {| c_lot_no := lotNumber lot;
             c_item_key := itemKey lot;
             c_location := location lot;
             source_bin := binNumber lot;
             to_bin := toBin;
             c_transfer_qty := transferQty;
             c_user_id := Putaway.or_else currentUser "unknown";
             c_remarks := Putaway.or_else (remarks formValues) "";
             c_referenced := Putaway.or_else (referenced formValues) "" |} in
        match transferCommittedTransactions request with
        | Responded result =>
          if Putaway.success result then
            {| final := clearForm
                          (set_successMessage (Putaway.message result) st1);
               sent := Some request;
               succeeded := true;
               printed := printReport formValues |}
          else
            {| final := setError
                          (Literal (Putaway.or_else
                                      (Some (Putaway.message result))
                                      "Transfer failed"))
                          NoDetails st1;
               sent := Some request; succeeded := false; printed := false |}
        | Rejected e =>
          {| final := setError (ErrorTransferringCommitted e) NoDetails st1;
             sent := Some request; succeeded := false; printed := false |}
        end
    end
  end.

Definition onSubmit (st : State) : Outcome BinTransferRequest :=
  if negb (isFormValid st) then stopped st
  else
    match selectedLot st, putawayQty (putawayForm st) with
    | Some lot, Some transferQty =>
      let formValues := putawayForm st in
      if JS.falsy (option_map Utf8.trim (toBinNumber formValues)) then
        stopped (setError (Literal "Please select a destination bin (To Bin #)")
                   (FieldRequired "toBinNumber" "Destination bin is required")
                   st)
      else
        match currentUser with
        | None =>
          stopped (setError
                     (Literal "User not authenticated. Please login again.")
                     NoDetails st)
        | Some userId =>
          let st1 := clearMessages st in
          let request :=
            {| lot_no := lotNumber lot;
               item_key := itemKey lot;
               req_location := location lot;
               bin_from := binNumber lot;
               bin_to := Putaway.or_else (toBinNumber formValues) "";
               transfer_qty := transferQty;
               user_id := userId;
               req_remarks := Putaway.or_else (remarks formValues) "";
               req_referenced := Putaway.or_else (referenced formValues) "" |} in
          match executeBinTransfer request with
          | Responded result =>
            if Putaway.success result then
              {| final := set_successMessage "Transfer Successful" st1;
                 sent := Some request;
                 succeeded := true;
                 printed := printReport formValues |}
            else
              {| final := setError
                            (Literal (Putaway.or_else
                                        (Some (Putaway.message result))
                                        "Transfer failed"))
                            (Response result) st1;
                 sent := Some request; succeeded := false; printed := false |}
          | Rejected e =>
            {| final := parseErrorResponse e st1;
               sent := Some request; succeeded := false; printed := false |}
          end
        end
    | _, _ => stopped st
    end.

Definition run_call (c : State * Call) : Outcome CommittedTransferRequest :=
  match snd c with
  | NoCall => stopped (fst c)
  | Call_executeCommittedTransfer q => executeCommittedTransfer q (fst c)
  end.

Definition confirmSelection (transactions : list Modal64.LotTransactionItem)
    (pick : gset Z) (st : State) : Outcome CommittedTransferRequest :=
  run_call (modalConfirm transactions pick st).

End Backend.

End Putaway64.

(** ** The scenario of the transaction document, in binary64 *)

Module Scenario64.
Import Binary64.

Definition lot : Putaway64.LotDetails :=
  {| Putaway64.lotNumber := "2600107-1";
     Putaway64.binNumber := "K0802-4B";
     Putaway64.itemKey := "INBC1403";
     Putaway64.location := "TFC1";
     Putaway64.uom := "KG";
     Putaway64.qtyCommitSales := of_Z 50;
     Putaway64.qtyOnHand := of_Z 975;
     Putaway64.qtyAvail := of_Z 925;
     Putaway64.expDate := "";
     Putaway64.lotStatus := "P" |}.

Definition form (qty : option number) : Putaway64.FormValues :=
  {| Putaway64.putawayQty := qty;
     Putaway64.toBinNumber := Some "WHKON1";
     Putaway64.printReport := true;
     Putaway64.remarks := None;
     Putaway64.referenced := None |}.

(** The component with the lot selected and a quantity typed in. *)
Definition state (qty : option number) : Putaway64.State :=
  {| Putaway64.selectedLot := Some lot;
     Putaway64.putawayForm := form qty;
     Putaway64.targetTransferQty := zero;
     Putaway64.isTransactionModalOpen := false;
     Putaway64.errorMessage := Putaway64.Literal "";
     Putaway64.errorDetails := Putaway64.NoDetails;
     Putaway64.successMessage := "" |}.

(** A pending row of the lot. *)
Definition pending (id : Z) (qty : number) : Modal64.LotTransactionItem :=
  {| Modal64.lot_tran_no := id;
     Modal64.lot_no := "2600107-1";
     Modal64.bin_no := "K0802-4B";
     Modal64.doc_no := "SO-1";
     Modal64.issue_doc_line_no := 1;
     Modal64.qty := qty;
     Modal64.tran_typ := "Sales Issue" |}.

(** The requests of the component for a quantity, with DECHAWAT signed in. *)
Definition request (qty : number) : Putaway64.BinTransferRequest :=
  {| Putaway64.lot_no := "2600107-1";
     Putaway64.item_key := "INBC1403";
     Putaway64.req_location := "TFC1";
     Putaway64.bin_from := "K0802-4B";
     Putaway64.bin_to := "WHKON1";
     Putaway64.transfer_qty := qty;
     Putaway64.user_id := "DECHAWAT";
     Putaway64.req_remarks := "";
     Putaway64.req_referenced := "" |}.

Definition committed_request (qty : number)
    : Putaway64.CommittedTransferRequest :=
  {| Putaway64.c_lot_no := "2600107-1";
     Putaway64.c_item_key := "INBC1403";
     Putaway64.c_location := "TFC1";
     Putaway64.source_bin := "K0802-4B";
     Putaway64.to_bin := "WHKON1";
     Putaway64.c_transfer_qty := qty;
     Putaway64.c_user_id := "DECHAWAT";
     Putaway64.c_remarks := "";
     Putaway64.c_referenced := "" |}.

(** A backend that accepts whatever it is sent, and one that rejects it
    with a given error. *)
Definition accepted : Putaway.TransactionResponse :=
  {| Putaway.success := true;
     Putaway.document_no := "BT-26112174";
     Putaway.message := "Transfer completed";
     Putaway.timestamp := "2026-01-16T09:30:00Z";
     Putaway.source_lot_status := Some "P";
     Putaway.destination_lot_status := Some "C" |}.

Definition accepting {Request : Type} (_ : Request) : Putaway64.BackendResult :=
  Putaway64.Responded accepted.

Definition rejection (kind : string) (message : option string)
    : Putaway64.HttpError :=
  {| Putaway64.http_message := "Http failure response: 400 Bad Request";
     Putaway64.body :=
       Some {| Putaway64.kind := Some kind;
               Putaway64.body_message := message;
               Putaway64.requested := None;
               Putaway64.available := None;
               Putaway64.body_bin_no := None;
               Putaway64.body_location := None;
               Putaway64.body_lot_no := None |} |}.

Definition rejecting {Request : Type} (e : Putaway64.HttpError) (_ : Request)
    : Putaway64.BackendResult :=
  Putaway64.Rejected e.

(** The modal open for a target of 0.0003, its one row of 0.0013 selected. *)
Definition modal_0003 : Modal64.State :=
  {| Modal64.transactions := [pending 1 (Binary64.decimal 13 4)];
     Modal64.selectedIds := {[1]};
     Modal64.targetQty := Binary64.decimal 3 4 |}.

End Scenario64.

(** ** Sessions allocating document numbers under the row lock *)

Module SeqNumLock.
Import Legacy.

(** What a session transfers once it has its document number. *)
Record Job := {
  job_key : LotKey;
  job_source : LotMasterRow;
  job_bin_to : string;
  job_qty : Q;
  job_user : string;
  job_today : string
}.






End SeqNumLock.

(** * Properties *)

(** ** Comparisons *)

Lemma lt_true (a b : Q) : JS.lt a b = true <-> (a < b)%Q.
Proof.
  unfold JS.lt. rewrite negb_true_iff.
  split; intros H.
  - apply Qnot_le_lt. intros Hle. apply Qle_bool_iff in Hle. congruence.
  - destruct (Qle_bool b a) eqn:E; [|reflexivity].
    apply Qle_bool_iff in E. exfalso. apply (Qlt_not_le _ _ H E).
Qed.

Lemma lt_false (a b : Q) : JS.lt a b = false <-> (b <= a)%Q.
Proof.
  unfold JS.lt. rewrite negb_false_iff. apply Qle_bool_iff.
Qed.

Lemma le_true (a b : Q) : JS.le a b = true <-> (a <= b)%Q.
Proof. apply Qle_bool_iff. Qed.

Lemma le_false (a b : Q) : JS.le a b = false <-> (b < a)%Q.
Proof.
  rewrite <- lt_true. unfold JS.lt, JS.le.
  destruct (Qle_bool a b); simpl; split; congruence.
Qed.

Lemma gt_true (a b : Q) : JS.gt a b = true <-> (b < a)%Q.
Proof. apply lt_true. Qed.


Lemma abs_lt (x e : Q) : (Qabs x < e)%Q <-> (- e < x /\ x < e)%Q.
Proof. apply Qabs_Qlt_condition. Qed.

Lemma abs_le (x e : Q) : (Qabs x <= e)%Q <-> (- e <= x /\ x <= e)%Q.
Proof. apply Qabs_Qle_condition. Qed.

Lemma selected_nonempty (s : gset Z) : (0 <? size s)%nat = true <-> s <> ∅.
Proof.
  rewrite Nat.ltb_lt. split.
  - intros H ->. rewrite size_empty in H. lia.
  - intros H. destruct (size s) eqn:E; [|lia].
    apply size_empty_iff in E. exfalso. apply H. apply leibniz_equiv, E.
Qed.

(** ** The receipt *)

Lemma check_range (P : Z -> bool) (lo len : Z) :
  forallb P (seqZ lo len) = true ->
  forall z, lo <= z < lo + len -> P z = true.
Proof.
  intros H z Hz. rewrite forallb_forall in H. apply H.
  apply list_elem_of_In, elem_of_seqZ. lia.
Qed.

Lemma padStart_two_digits (n : Z) :
  0 <= n <= 99 ->
  JS.padStart (JS.String_of_int n) 2 "0" = ReceiptSpec.two_digits n.
Proof.
  intros Hn.
  pose proof (check_range
    (fun z => String.eqb (JS.padStart (JS.String_of_int z) 2 "0")
                (ReceiptSpec.two_digits z)) 0 100) as H.
  apply String.eqb_eq, H; [vm_compute; reflexivity|lia].
Qed.

Lemma slice_year (y : Z) :
  1000 <= y <= 9999 ->
  JS.slice 2 (JS.String_of_int y) = ReceiptSpec.two_digits (y mod 100).
Proof.
  intros Hy.
  pose proof (check_range
    (fun z => String.eqb (JS.slice 2 (JS.String_of_int z))
                (ReceiptSpec.two_digits (z mod 100))) 1000 9000) as H.
  apply String.eqb_eq, H; [vm_compute; reflexivity|lia].
Qed.

Lemma formattedDate_DD_MM_YY (now : Putaway.Date) :
  1 <= Putaway.getDate now <= 31 ->
  0 <= Putaway.getMonth now <= 11 ->
  1000 <= Putaway.getFullYear now <= 9999 ->
  Putaway.formattedDate now =
  ReceiptSpec.DD_MM_YY (Putaway.getDate now) (Putaway.getMonth now + 1)
    (Putaway.getFullYear now).
Proof.
  intros Hd Hm Hy. unfold Putaway.formattedDate, ReceiptSpec.DD_MM_YY.
  rewrite !padStart_two_digits by lia. rewrite slice_year by lia. reflexivity.
Qed.

Lemma pretty_N_char_is_digit (x : N) :
  ReceiptSpec.is_digit (pretty_N_char x) = true.
Proof. unfold pretty_N_char. repeat case_match; reflexivity. Qed.

Lemma pretty_N_go_all_digits (x : N) (s : string) :
  ReceiptSpec.all_digits s = true ->
  ReceiptSpec.all_digits (pretty_N_go x s) = true.
Proof.
  revert s. induction (N.lt_wf_0 x) as [x _ IH]. intros s Hs.
  destruct (decide (x = 0%N)) as [->|Hx].
  - rewrite pretty_N_go_0. exact Hs.
  - rewrite pretty_N_go_step by lia. apply IH.
    + apply N.div_lt; lia.
    + simpl. rewrite pretty_N_char_is_digit. exact Hs.
Qed.

Lemma pretty_N_go_nonempty (x : N) (s : string) :
  s <> "" -> pretty_N_go x s <> "".
Proof.
  revert s. induction (N.lt_wf_0 x) as [x _ IH]. intros s Hs.
  destruct (decide (x = 0%N)) as [->|Hx].
  - rewrite pretty_N_go_0. exact Hs.
  - rewrite pretty_N_go_step by lia. apply IH; [apply N.div_lt; lia|discriminate].
Qed.

Lemma pretty_nonneg_digits (z : Z) :
  0 <= z ->
  ReceiptSpec.all_digits (pretty z) = true /\ pretty z <> "".
Proof.
  intros Hz. destruct z as [|p|p]; [split; [reflexivity|discriminate]| |lia].
  change (pretty (Z.pos p)) with (pretty_N_go (N.pos p) "").
  split.
  - apply pretty_N_go_all_digits. reflexivity.
  - rewrite pretty_N_go_step by lia. apply pretty_N_go_nonempty. discriminate.
Qed.

Lemma last_three_digits (n : Z) :
  0 <= n ->
  String (JS.digit (n / 100 mod 10))
    (String (JS.digit (n / 10 mod 10)) (String (JS.digit (n mod 10)) EmptyString))
  = JS.slice 1 (pretty (1000 + n mod 1000)) /\
  ReceiptSpec.all_digits (JS.slice 1 (pretty (1000 + n mod 1000))) = true /\
  String.length (JS.slice 1 (pretty (1000 + n mod 1000))) = 3%nat.
Proof.
  intros Hn.
  assert (E1 : n / 100 mod 10 = (n mod 1000) / 100) by
    (Z.to_euclidean_division_equations; lia).
  assert (E2 : n / 10 mod 10 = (n mod 1000) / 10 mod 10) by
    (Z.to_euclidean_division_equations; lia).
  assert (E3 : n mod 10 = (n mod 1000) mod 10) by
    (Z.to_euclidean_division_equations; lia).
  rewrite E1, E2, E3.
  assert (Hm : 0 <= n mod 1000 < 0 + 1000) by (apply Z.mod_pos_bound; lia).
  pose proof (check_range
    (fun m =>
       String.eqb
         (String (JS.digit (m / 100))
            (String (JS.digit (m / 10 mod 10))
               (String (JS.digit (m mod 10)) EmptyString)))
         (JS.slice 1 (pretty (1000 + m)))
       && ReceiptSpec.all_digits (JS.slice 1 (pretty (1000 + m)))
       && Nat.eqb (String.length (JS.slice 1 (pretty (1000 + m)))) 3) 0 1000) as H.
  specialize (H ltac:(vm_compute; reflexivity) (n mod 1000) Hm).
  rewrite !andb_true_iff, String.eqb_eq, Nat.eqb_eq in H.
  destruct H as [[H1 H2] H3]. auto.
Qed.

(** [toFixed(3)] writes its argument to exactly three decimals. *)
Lemma toFixed3_three_decimals (x : Q) :
  ReceiptSpec.three_decimals (JS.toFixed3 x) x.
Proof.
  unfold ReceiptSpec.three_decimals, JS.toFixed3, JS.String_of_int.
  set (n := Qfloor (Qabs x * 1000 + (1 # 2))).
  pose proof (Qfloor_le (Qabs x * 1000 + (1 # 2))) as Hlo.
  pose proof (Qlt_floor (Qabs x * 1000 + (1 # 2))) as Hhi.
  fold n in Hlo, Hhi. rewrite inject_Z_plus in Hhi.
  change (inject_Z 1) with 1%Q in Hhi.
  pose proof (Qabs_nonneg x) as Hx.
  assert (Hn : 0 <= n).
  { assert (A : (inject_Z (-1) < inject_Z n)%Q).
    { change (inject_Z (-1)) with (-1)%Q. lra. }
    rewrite <- Zlt_Qlt in A. lia. }
  destruct (last_three_digits n Hn) as [E [Hd Hl]].
  destruct (pretty_nonneg_digits (n / 1000)) as [Hi Hne].
  { apply Z.div_pos; lia. }
  exists (if JS.lt x 0 then "-" else ""), (pretty (n / 1000)),
         (JS.slice 1 (pretty (1000 + n mod 1000))), n.
  rewrite E. repeat split; try assumption; try reflexivity.
  - destruct (JS.lt x 0); auto.
  - apply abs_le. unfold Qdiv. change (/ 1000)%Q with (1 # 1000)%Q.
    split; lra.
Qed.

Lemma formatLotStatus_single (src : string) (dest : option string) :
  JS.falsy dest = true \/ dest = Some src ->
  Putaway.formatLotStatus src dest =
  if String.eqb src "" then "N/A" else src.
Proof.
  unfold Putaway.formatLotStatus. intros [H| ->].
  - destruct dest as [d|]; [|reflexivity]. rewrite H. reflexivity.
  - rewrite String.eqb_refl, orb_true_r. reflexivity.
Qed.

Lemma formatLotStatus_both (src d : string) :
  d <> "" -> d <> src ->
  Putaway.formatLotStatus src (Some d) = src +:+ " - " +:+ d.
Proof.
  intros H1 H2. unfold Putaway.formatLotStatus, JS.falsy.
  apply String.eqb_neq in H1. rewrite H1.
  assert (E : String.eqb src d = false) by (apply String.eqb_neq; congruence).
  rewrite E. reflexivity.
Qed.

(** C8, as amended: the receipt is a function of the transaction details,
    the lot, the form values and the clock at the time of printing.  Its
    first line carries the date of that clock as DD-MM-YY (for a year of
    four digits); its tenth line carries the transfer quantity written to
    exactly three decimals (for a quantity below 10^21, where [toFixed]
    keeps the positional notation) and the lot status: the source status
    (N/A when that is empty) when the destination status is absent, empty or
    the same, and "<source> - <destination>" when the two differ. *)
Theorem printTransferReceipt_layout (now : Putaway.Date)
    (td : Putaway.TransactionDetails) (lot : Putaway.LotDetails)
    (fv : Putaway.FormValues) :
  1 <= Putaway.getDate now <= 31 ->
  0 <= Putaway.getMonth now <= 11 ->
  1000 <= Putaway.getFullYear now <= 9999 ->
  (Qabs (Putaway.td_transfer_qty td) < inject_Z (10 ^ 21))%Q ->
  let qty := JS.toFixed3 (Putaway.td_transfer_qty td) in
  let status := Putaway.formatLotStatus (Putaway.lotStatus lot)
                  (Putaway.td_destination_lot_status td) in
  Putaway.printTransferReceipt now (Some td) (Some lot) fv =
  Some (String.concat Putaway.newline (Putaway.reportLines now td lot fv)) /\
  Putaway.reportLines now td lot fv !! 0%nat =
  Some ("Bin Transfer Report                    Date:" +:+
        ReceiptSpec.DD_MM_YY (Putaway.getDate now) (Putaway.getMonth now + 1)
          (Putaway.getFullYear now)) /\
  Putaway.reportLines now td lot fv !! 9%nat =
  Some (JS.padEnd (Putaway.td_lot_no td) 16 +:+
        JS.padEnd (Putaway.td_bin_from td) 17 +:+
        JS.padEnd (Putaway.td_bin_to td) 16 +:+
        JS.padStart (JS.toFixed3 (Putaway.qtyOnHand lot)) 12 " " +:+ " " +:+
        JS.padStart qty 11 " " +:+ "  " +:+ JS.padEnd status 11) /\
  ReceiptSpec.three_decimals qty (Putaway.td_transfer_qty td) /\
  (JS.falsy (Putaway.td_destination_lot_status td) = true \/
   Putaway.td_destination_lot_status td = Some (Putaway.lotStatus lot) ->
   status = if String.eqb (Putaway.lotStatus lot) "" then "N/A"
            else Putaway.lotStatus lot) /\
  (forall d, Putaway.td_destination_lot_status td = Some d ->
             d <> "" -> d <> Putaway.lotStatus lot ->
             status = Putaway.lotStatus lot +:+ " - " +:+ d).
Proof.
  intros Hd Hm Hy _ qty status.
  split; [reflexivity|]. split.
  { unfold Putaway.reportLines. cbn [lookup list_lookup].
    rewrite formattedDate_DD_MM_YY by assumption. reflexivity. }
  split; [reflexivity|]. split; [apply toFixed3_three_decimals|]. split.
  - apply formatLotStatus_single.
  - intros d Hdest H1 H2. unfold status. rewrite Hdest.
    apply formatLotStatus_both; assumption.
Qed.

(** A lot without status and no destination status prints N/A, which is not
    the source status; and the same transfer printed a day later gives
    another receipt. *)
Lemma printTransferReceipt_status_and_clock :
  Putaway.formatLotStatus "" None <> "" /\
  Putaway.printTransferReceipt (Scenario.clock 16)
    (Some (Scenario.transactionDetails None)) (Some Scenario.lot)
    (Scenario.form (Some 500%Q)) <>
  Putaway.printTransferReceipt (Scenario.clock 17)
    (Some (Scenario.transactionDetails None)) (Some Scenario.lot)
    (Scenario.form (Some 500%Q)).
Proof.
  split; [discriminate|]. vm_compute. discriminate.
Qed.

Lemma printTransferReceipt_layout_witness :
  Putaway.reportLines (Scenario.clock 16) (Scenario.transactionDetails (Some "C"))
    Scenario.lot (Scenario.form (Some 500%Q)) !! 0%nat =
  Some "Bin Transfer Report                    Date:16-02-26" /\
  Putaway.formatLotStatus "P" (Some "C") = "P - C".
Proof.
  destruct (printTransferReceipt_layout (Scenario.clock 16)
              (Scenario.transactionDetails (Some "C")) Scenario.lot
              (Scenario.form (Some 500%Q)))
    as [_ [H0 [_ [_ [_ Hs]]]]]; [simpl; lia..|vm_compute; reflexivity|].
  split; [exact H0|].
  exact (Hs "C" eq_refl ltac:(discriminate) ltac:(discriminate)).
Defined.

(** ** The transfer engine *)

(** Case analysis on every test of a hypothesis that states the success of
    a transaction body; the failing branches are dismissed. *)
Ltac if_cases H :=
  repeat match type of H with
         | context [if ?b then _ else _] => destruct b eqn:?; try discriminate
         end.

Section EngineFacts.
Import Legacy Engine.

Variable truthy : string -> bool.

Lemma precondition_gate_success (k : LotKey) (dest : string) (db db1 : Database)
    (src : LotMasterRow) :
  precondition_gate truthy k dest db = inr (src, db1) ->
  db1 = db /\ select_lot db k = Some src /\
  dest <> k_BinNo k /\ bin_exists db (k_LocationKey k) dest = true.
Proof.
  unfold precondition_gate, bind, require, query, some_or, ret, fail.
  intros H.
  if_cases H.
  destruct (select_lot db k) as [r|] eqn:Esel; [|discriminate].
  injection H as -> ->.
  repeat split; try reflexivity; try assumption.
  match goal with
  | E : (_ && negb (String.eqb dest (k_BinNo k)))%bool = true |- _ =>
    apply andb_true_iff in E; destruct E as [_ E];
    apply negb_true_iff, String.eqb_neq in E; exact E
  end.
Qed.

(** The write phase fails only for want of the counter row. *)
Lemma record_transfer_run (k : LotKey) (dest : string) (src : LotMasterRow)
    (qty delta : Q) (user : string) (clock : Clock) (db : Database) :
  record_transfer k dest src qty delta user clock db =
  match next_document_no db with
  | None => inl SystemError
  | Some (doc, db1) =>
    inr ({| document_no := doc;
            source_lot_status := LotStatus src;
            destination_lot_status := resolve_destination_status db k dest src;
            timestamp := rfc3339 clock |},
         insert_LotTransaction
           (destination_transaction k src dest doc qty user (today clock))
           (insert_LotTransaction
              (source_transaction k src doc qty user (today clock))
              (update_commitsales k delta db1)))
  end.
Proof.
  unfold record_transfer, bind, query, exec, ret.
  destruct (next_document_no db) as [[doc db1]|]; reflexivity.
Qed.

(** A transfer that succeeds has passed the gate and run the write phase
    on the database it started from. *)
Lemma serve_success (rq : Request) (clock : Clock) (db db' : Database)
    (res : TransferResult) :
  serve truthy rq clock db = (inr res, db') ->
  exists src,
    select_lot db (request_key rq) = Some src /\
    request_dest rq <> k_BinNo (request_key rq) /\
    record_transfer (request_key rq) (request_dest rq) src (request_qty rq)
      (request_delta rq) (request_user rq) clock db = inr (res, db').
Proof.
  destruct rq as [r|r ids]; unfold serve, transfer, transferCommitted, transaction.
  - destruct (transfer_body truthy r clock db) as [e|[res0 db0]] eqn:E;
      [discriminate|]. intros H. injection H as -> ->.
    unfold transfer_body, bind in E.
    destruct (require (valid_qty _) _ db) as [?|[u d0]] eqn:E0; [discriminate|].
    unfold require, ret, fail in E0. destruct (valid_qty _); [|discriminate].
    injection E0 as _ <-.
    destruct (precondition_gate truthy _ _ db) as [?|[src d1]] eqn:Eg;
      [discriminate|].
    apply precondition_gate_success in Eg. destruct Eg as [-> [Hsel [Hne _]]].
    unfold require, ret, fail in E.
    if_cases E.
    exists src. repeat split; assumption.
  - destruct (transferCommitted_body truthy r ids clock db) as [e|[res0 db0]] eqn:E;
      [discriminate|]. intros H. injection H as -> ->.
    unfold transferCommitted_body, bind in E.
    destruct (precondition_gate truthy _ _ db) as [?|[src d1]] eqn:Eg;
      [discriminate|].
    apply precondition_gate_success in Eg. destruct Eg as [-> [Hsel [Hne _]]].
    unfold require, query, ret, fail in E.
    if_cases E.
    exists src. repeat split; assumption.
Qed.


End EngineFacts.

Lemma serve_written (truthy : string -> bool) (rq : Engine.Request)
    (clock : Engine.Clock) (db db' : Legacy.Database) (res : Engine.TransferResult) :
  Engine.serve truthy rq clock db = (inr res, db') ->
  exists src n,
    Legacy.select_lot db (Engine.request_key rq) = Some src /\
    Legacy.SeqNum db !! "BT" = Some n /\
    Engine.request_dest rq <> Legacy.k_BinNo (Engine.request_key rq) /\
    res = {| Engine.document_no := Legacy.BT (n + 1);
             Engine.source_lot_status := Legacy.LotStatus src;
             Engine.destination_lot_status :=
               Engine.resolve_destination_status db (Engine.request_key rq)
                 (Engine.request_dest rq) src;
             Engine.timestamp := Engine.rfc3339 clock |} /\
    db' = Legacy.insert_LotTransaction
            (Legacy.destination_transaction (Engine.request_key rq) src
               (Engine.request_dest rq) (Legacy.BT (n + 1))
               (Engine.request_qty rq) (Engine.request_user rq)
               (Engine.today clock))
            (Legacy.insert_LotTransaction
               (Legacy.source_transaction (Engine.request_key rq) src
                  (Legacy.BT (n + 1)) (Engine.request_qty rq)
                  (Engine.request_user rq) (Engine.today clock))
               (Legacy.update_commitsales (Engine.request_key rq)
                  (Engine.request_delta rq)
                  (Legacy.set_SeqNum (<["BT" := n + 1]> (Legacy.SeqNum db)) db))).
Proof.
  intros H. apply serve_success in H. destruct H as [src [Hsel [Hne H]]].
  rewrite record_transfer_run in H. unfold Legacy.next_document_no in H.
  destruct (Legacy.SeqNum db !! "BT") as [n|] eqn:En; [|discriminate].
  injection H as <- <-. exists src, n. repeat split; assumption.
Qed.

(** C5: a transfer that commits, on either path, appends exactly two rows to
    the audit table, both under the document number of the result, a BT
    number: one of type 9 at the source bin with the quantity issued, one of
    type 8 at the destination bin with the same quantity received, both with
    processed = 'N'; the rows that were there stay as they were, and the QC
    audit table is untouched. *)
Theorem transfer_appends_paired_rows (truthy : string -> bool)
    (rq : Engine.Request) (clock : Engine.Clock) (db db' : Legacy.Database)
    (res : Engine.TransferResult) :
  Engine.serve truthy rq clock db = (inr res, db') ->
  exists (out inn : Legacy.AuditRow) (n : Z),
    Legacy.LotTransaction db' = Legacy.LotTransaction db ++ [out; inn] /\
    Legacy.QCLotTransaction db' = Legacy.QCLotTransaction db /\
    Engine.document_no res = "BT-" +:+ pretty n /\
    (Legacy.TransactionType out = 9 /\
     Legacy.t_BinNo out = Legacy.k_BinNo (Engine.request_key rq) /\
     Legacy.IssueDocNo out = Some (Engine.document_no res) /\
     Legacy.QtyIssued out = Some (Engine.request_qty rq) /\
     Legacy.Processed out = "N") /\
    (Legacy.TransactionType inn = 8 /\
     Legacy.t_BinNo inn = Engine.request_dest rq /\
     Legacy.ReceiptDocNo inn = Some (Engine.document_no res) /\
     Legacy.QtyReceived inn = Some (Engine.request_qty rq) /\
     Legacy.Processed inn = "N") /\
    Legacy.t_BinNo out <> Legacy.t_BinNo inn.
Proof.
  intros H. apply serve_written in H.
  destruct H as [src [n [_ [_ [Hne [-> ->]]]]]].
  eexists _, _, (n + 1).
  split.
  { unfold Legacy.insert_LotTransaction at 1. cbn [Legacy.LotTransaction
      Legacy.set_LotTransaction Legacy.insert_LotTransaction].
    rewrite <- app_assoc. reflexivity. }
  repeat split. cbn. congruence.
Qed.

(** C6: a transfer that commits leaves every lot row in place and changes
    nothing in it but the committed quantity of the rows of the source key;
    on-hand is unchanged in every row, the destination's included.  The
    committed quantity of the source goes up by the quantity on the free
    path and down by it on the committed path. *)
Theorem transfer_touches_commitment_only (truthy : string -> bool)
    (rq : Engine.Request) (clock : Engine.Clock) (db db' : Legacy.Database)
    (res : Engine.TransferResult) :
  Engine.serve truthy rq clock db = (inr res, db') ->
  let delta := match rq with
               | Engine.Free r => Putaway.transfer_qty r
               | Engine.Committed r _ => (- Putaway.c_transfer_qty r)%Q
               end in
  (exists src, Legacy.select_lot db (Engine.request_key rq) = Some src) /\
  List.length (Legacy.LotMaster db') = List.length (Legacy.LotMaster db) /\
  forall (i : nat) (r : Legacy.LotMasterRow),
    Legacy.LotMaster db !! i = Some r ->
    exists r',
      Legacy.LotMaster db' !! i = Some r' /\
      Legacy.QtyOnHand r' = Legacy.QtyOnHand r /\
      r' = Legacy.set_Qtycommitsales (Legacy.Qtycommitsales r') r /\
      (Legacy.lot_at (Engine.request_key rq) r = true ->
       Legacy.Qtycommitsales r' = (Legacy.Qtycommitsales r + delta)%Q) /\
      (Legacy.lot_at (Engine.request_key rq) r = false -> r' = r).
Proof.
  intros H delta. apply serve_written in H.
  destruct H as [src [n [Hsel [_ [_ [_ ->]]]]]].
  assert (Hd : Engine.request_delta rq = delta) by (destruct rq; reflexivity).
  cbn [Legacy.insert_LotTransaction Legacy.set_LotTransaction Legacy.LotMaster
       Legacy.update_commitsales Legacy.set_LotMaster Legacy.set_SeqNum].
  rewrite Hd. split; [eauto|]. split; [apply length_map|].
  intros i r Hi.
  change (List.map ?f ?l) with (f <$> l). rewrite list_lookup_fmap, Hi.
  cbn [fmap option_fmap option_map].
  destruct (Legacy.lot_at (Engine.request_key rq) r) eqn:E.
  - eexists. split; [reflexivity|]. repeat split. discriminate.
  - exists r. split; [reflexivity|]. repeat split; [|discriminate].
    destruct r; reflexivity.
Qed.

Lemma free_transfer_commits :
  Scenario.free_transfer = (inr Scenario.free_result, snd Scenario.free_transfer).
Proof. vm_compute. reflexivity. Qed.

Lemma transfer_appends_paired_rows_witness :
  exists out inn : Legacy.AuditRow,
    Legacy.LotTransaction (snd Scenario.free_transfer) =
    [Scenario.sales_issue; out; inn] /\
    Legacy.IssueDocNo out = Some "BT-26112174" /\
    Legacy.ReceiptDocNo inn = Some "BT-26112174".
Proof.
  destruct (transfer_appends_paired_rows _ _ _ _ _ _ free_transfer_commits)
    as [out [inn [n [H [_ [_ [[_ [_ [Ho _]]] [[_ [_ [Hi _]]] _]]]]]]]].
  exists out, inn. split; [exact H|]. split; [exact Ho|exact Hi].
Defined.

Lemma transfer_touches_commitment_only_witness :
  exists r',
    Legacy.LotMaster (snd Scenario.free_transfer) !! 0%nat = Some r' /\
    Legacy.QtyOnHand r' = 975%Q /\
    Legacy.Qtycommitsales r' = (50 + 500)%Q.
Proof.
  destruct (transfer_touches_commitment_only _ _ _ _ _ _ free_transfer_commits)
    as [_ [_ H]].
  destruct (H 0%nat (Scenario.lot_row "K0802-4B" "P" 975 50) eq_refl)
    as [r' [H1 [H2 [_ [H3 _]]]]].
  exists r'. split; [exact H1|]. split; [exact H2|]. exact (H3 eq_refl).
Defined.

(** ** The availability calculator *)

Lemma fold_left_Qplus (vs : list Q) (v : Q) :
  (fold_left Qplus vs v == v + AvailabilitySpec.sumQ vs)%Q.
Proof.
  unfold AvailabilitySpec.sumQ.
  revert v. induction vs as [|w vs IH]; intros v; cbn [fold_left fold_right].
  - ring.
  - rewrite IH. ring.
Qed.

Lemma sql_sum_total (col : list (option Q)) :
  (match Legacy.sql_sum col with Some c => c | None => 0 end ==
   AvailabilitySpec.sumQ
     (List.map (fun o => match o with Some q => q | None => 0 end) col))%Q.
Proof.
  unfold Legacy.sql_sum.
  assert (E : (AvailabilitySpec.sumQ
                 (List.map (fun o : option Q => match o with Some q => q | None => 0 end) col)
               == AvailabilitySpec.sumQ (omap id col))%Q).
  { unfold AvailabilitySpec.sumQ.
    induction col as [|[q|] col IH]; cbn [List.map fold_right omap list_omap id].
    - reflexivity.
    - rewrite IH. reflexivity.
    - rewrite IH. ring. }
  rewrite E. destruct (omap id col) as [|v vs].
  - reflexivity.
  - rewrite fold_left_Qplus. reflexivity.
Qed.

Lemma pending_where_counted (k : Legacy.LotKey) (r : Legacy.AuditRow) :
  Legacy.pending_where k r = AvailabilitySpec.counted k r.
Proof.
  unfold Legacy.pending_where, AvailabilitySpec.counted, Legacy.audit_at,
    Legacy.outbound_types.
  f_equal; [f_equal|].
  - destruct (String.eqb_spec (Legacy.Processed r) "N") as [E|E1]; simpl.
    + symmetry. apply bool_decide_eq_true. rewrite E.
      apply list_elem_of_In. simpl. auto.
    + destruct (String.eqb_spec (Legacy.Processed r) "P") as [E|E2]; symmetry.
      * apply bool_decide_eq_true. rewrite E. apply list_elem_of_In. simpl. auto.
      * apply bool_decide_eq_false. intros Hin. apply list_elem_of_In in Hin.
        simpl in Hin. destruct Hin as [Hin|[Hin|[]]]; congruence.
  - destruct (existsb _ _) eqn:E; symmetry.
    + apply bool_decide_eq_true. apply existsb_exists in E.
      destruct E as [x [Hin Hx]]. apply Z.eqb_eq in Hx. rewrite Hx.
      apply list_elem_of_In, Hin.
    + apply bool_decide_eq_false. intros Hin. apply list_elem_of_In in Hin.
      assert (existsb (Z.eqb (Legacy.TransactionType r))
                [2; 3; 5; 7; 9; 10; 12; 16; 17; 20; 21] = true) as E'.
      { apply existsb_exists. eexists. split; [exact Hin|apply Z.eqb_refl]. }
      congruence.
  - repeat match goal with
           | |- context [String.eqb ?a ?b] =>
             destruct (String.eqb_spec a b); simpl
           end;
    symmetry;
    first [ apply bool_decide_eq_true; tauto
          | apply bool_decide_eq_false; tauto ].
Qed.

Lemma commitment_query_total (db : Legacy.Database) (k : Legacy.LotKey) :
  (match Legacy.commitment_query db k with Some c => c | None => 0 end ==
   AvailabilitySpec.pending_commit db k)%Q.
Proof.
  unfold Legacy.commitment_query, AvailabilitySpec.pending_commit.
  rewrite sql_sum_total, List.map_app, !List.map_map, List.filter_app,
    List.map_app.
  rewrite !(List.filter_ext _ _ (pending_where_counted k)).
  reflexivity.
Qed.

Lemma select_lot_first (db : Legacy.Database) (k : Legacy.LotKey)
    (r : Legacy.LotMasterRow) :
  In r (Legacy.LotMaster db) -> Legacy.lot_at k r = true ->
  exists (i : nat) (r0 : Legacy.LotMasterRow),
    Legacy.LotMaster db !! i = Some r0 /\
    Legacy.lot_at k r0 = true /\
    (forall (j : nat) (r' : Legacy.LotMasterRow),
       (j < i)%nat -> Legacy.LotMaster db !! j = Some r' ->
       Legacy.lot_at k r' = false) /\
    Legacy.select_lot db k = Some r0.
Proof.
  unfold Legacy.select_lot.
  induction (Legacy.LotMaster db) as [|a l IH]; intros Hin Hr; [destruct Hin|].
  cbn [List.find]. destruct (Legacy.lot_at k a) eqn:Ea.
  - exists 0%nat, a. repeat split; [exact Ea|]. intros j r' Hj. lia.
  - destruct Hin as [->|Hin]; [congruence|].
    destruct (IH Hin Hr) as (i & r0 & Hi & H0 & Hbefore & Hsel).
    exists (S i), r0. repeat split; [exact Hi|exact H0| |exact Hsel].
    intros [|j] r' Hj Hl.
    + cbn in Hl. injection Hl as <-. exact Ea.
    + cbn in Hl. apply (Hbefore j r'); [lia|exact Hl].
Qed.

(** C4: for every key that has a lot row, the availability calculation
    answers from the first such row of the lot table: with a view whose
    on-hand and committed quantities are those of the row, whose available
    quantity is on-hand less committed, and whose pending commitment is the
    sum of the issued quantities over the audit and QC-audit rows of that
    key with processed in {N, P} and a transaction type in
    {2,3,5,7,9,10,12,16,17,20,21}; unless on-hand less committed is
    negative, which it reports as a violated invariant. *)
Theorem searchAvailability_view (db : Legacy.Database) (k : Legacy.LotKey)
    (r : Legacy.LotMasterRow) :
  In r (Legacy.LotMaster db) -> Legacy.lot_at k r = true ->
  exists (i : nat) (r0 : Legacy.LotMasterRow),
    Legacy.LotMaster db !! i = Some r0 /\
    Legacy.lot_at k r0 = true /\
    (forall (j : nat) (r' : Legacy.LotMasterRow),
       (j < i)%nat -> Legacy.LotMaster db !! j = Some r' ->
       Legacy.lot_at k r' = false) /\
    ((Legacy.QtyOnHand r0 - Legacy.Qtycommitsales r0 < 0)%Q ->
     Engine.searchAvailability db k = inl Engine.InvariantViolation) /\
    ((0 <= Legacy.QtyOnHand r0 - Legacy.Qtycommitsales r0)%Q ->
     exists v,
       Engine.searchAvailability db k = inr v /\
       Engine.on_hand v = Legacy.QtyOnHand r0 /\
       Engine.committed_sales v = Legacy.Qtycommitsales r0 /\
       Engine.available v
       = (Legacy.QtyOnHand r0 - Legacy.Qtycommitsales r0)%Q /\
       (Engine.pending_commit v == AvailabilitySpec.pending_commit db k)%Q).
Proof.
  intros Hin Hr.
  destruct (select_lot_first db k r Hin Hr) as (i & r0 & Hi & H0 & Hbefore & Hsel).
  exists i, r0. repeat split; try assumption.
  - intros Hneg. unfold Engine.searchAvailability, Legacy.available_qty.
    rewrite Hsel, (proj2 (lt_true _ _) Hneg). reflexivity.
  - intros Hpos. unfold Engine.searchAvailability, Legacy.available_qty.
    rewrite Hsel, (proj2 (lt_false _ _) Hpos).
    eexists. split; [reflexivity|].
    cbn [Engine.on_hand Engine.committed_sales Engine.available
         Engine.pending_commit].
    repeat split. apply commitment_query_total.
Qed.

Lemma searchAvailability_not_found (db : Legacy.Database) (k : Legacy.LotKey) :
  (forall r, In r (Legacy.LotMaster db) -> Legacy.lot_at k r = false) ->
  Engine.searchAvailability db k = inl Engine.LotNotFound.
Proof.
  intros H. unfold Engine.searchAvailability, Legacy.select_lot.
  destruct (List.find (Legacy.lot_at k) (Legacy.LotMaster db)) as [r|] eqn:E;
    [|reflexivity].
  apply List.find_some in E. destruct E as [Hin Hr].
  rewrite (H r Hin) in Hr. discriminate.
Qed.

Lemma searchAvailability_view_witness :
  exists v,
    Engine.searchAvailability Scenario.database Scenario.source_key = inr v /\
    Engine.on_hand v = 975%Q /\
    Engine.committed_sales v = 50%Q /\
    Engine.available v = (975 - 50)%Q /\
    (Engine.pending_commit v
     == AvailabilitySpec.pending_commit Scenario.database Scenario.source_key)%Q.
Proof.
  destruct (searchAvailability_view Scenario.database Scenario.source_key
              (Scenario.lot_row "K0802-4B" "P" 975 50)
              (or_introl eq_refl) eq_refl)
    as (i & r0 & Hi & H0 & _ & _ & Hview).
  destruct i as [|[|i]]; cbn in Hi; [| |discriminate Hi];
    injection Hi as <-; [|discriminate H0].
  destruct (Hview ltac:(vm_compute; discriminate)) as (v & Hv & H1 & H2 & H3 & H4).
  exists v. repeat split; assumption.
Defined.

Example searchAvailability_scenario :
  Engine.searchAvailability Scenario.database Scenario.source_key =
  inr {| Engine.on_hand := 975; Engine.committed_sales := 50;
         Engine.available := 975 - 50; Engine.pending_commit := 50 |}.
Proof. reflexivity. Qed.

(** ** The lot statuses of a transfer *)







(** ** Document numbers *)

Import Legacy (BT).













Example served_in_a_row :
  Engine.issued_documents
    (fst (Engine.serve_all Scenario.truthy
            [(Engine.Free (Scenario.request 500), Scenario.server_clock);
             (Engine.Free (Scenario.request 950), Scenario.server_clock);
             (Engine.Committed (Scenario.committed_request 550) [],
              Scenario.server_clock)]
            Scenario.database))
  = ["BT-26112174"; "BT-26112175"].
Proof. vm_compute. reflexivity. Qed.

(** ** The scenarios of the design document *)

(** S1: the free transfer of 500 answers with document BT-26112174, leaves
    975 on hand and 550 committed on the source, and appends the two rows. *)
Example scenario_free_transfer :
  fst Scenario.free_transfer = inr Scenario.free_result /\
  List.map (fun r => (Legacy.BinNo r, Legacy.QtyOnHand r, Legacy.Qtycommitsales r))
    (Legacy.LotMaster (snd Scenario.free_transfer)) =
  [("K0802-4B", 975%Q, (50 + 500)%Q); ("WHKON1", 3350%Q, 0%Q)] /\
  List.map (fun r => (Legacy.TransactionType r, Legacy.t_BinNo r,
                      Legacy.IssueDocNo r, Legacy.ReceiptDocNo r,
                      Legacy.Processed r))
    (Legacy.LotTransaction (snd Scenario.free_transfer)) =
  [(3, "K0802-4B", Some "SO-1", None, "N");
   (9, "K0802-4B", Some "BT-26112174", None, "N");
   (8, "WHKON1", None, Some "BT-26112174", "N")].
Proof. vm_compute. repeat split. Qed.

(** S2: 950 asked against 925 available fails and writes nothing. *)
Example scenario_insufficient_quantity :
  Engine.serve Scenario.truthy (Engine.Free (Scenario.request 950))
    Scenario.server_clock Scenario.database =
  (inl (Engine.InsufficientQuantity 950 (975 - 50)), Scenario.database).
Proof. vm_compute. reflexivity. Qed.

(** S3: the source bin as destination is an invalid bin. *)
Example scenario_invalid_bin :
  fst (Engine.transferCommitted Scenario.truthy
         {| Putaway.c_lot_no := "2600107-1"; Putaway.c_item_key := "INBC1403";
            Putaway.c_location := "TFC1"; Putaway.source_bin := "K0802-4B";
            Putaway.to_bin := " K0802-4B "; Putaway.c_transfer_qty := 50;
            Putaway.c_user_id := "DECHAWAT"; Putaway.c_remarks := "";
            Putaway.c_referenced := "" |}
         [] Scenario.server_clock Scenario.database) =
  inl Engine.InvalidBin.
Proof. vm_compute. reflexivity. Qed.

(** S4: the committed transfer of the whole commitment of 50 leaves none
    committed; the pending row stays. *)
Example scenario_full_commitment :
  List.map Legacy.Qtycommitsales
    (Legacy.LotMaster (snd Scenario.committed_transfer)) = [(50 + - 50)%Q; 0%Q] /\
  List.map Legacy.TransactionType
    (Legacy.LotTransaction (snd Scenario.committed_transfer)) = [3; 9; 8].
Proof. vm_compute. repeat split. Qed.

(** S5: of a commitment of 80, the rows 1 and 2 make up the 60 asked; the
    same 60 without a selection, or with rows that total 50, is refused. *)
Example scenario_subset :
  (exists res db',
     Engine.transferCommitted Scenario.truthy (Scenario.committed_request 60)
       [1; 2] Scenario.server_clock Scenario.database_80 = (inr res, db') /\
     List.map Legacy.Qtycommitsales (Legacy.LotMaster db') = [(80 + - 60)%Q; 0%Q]) /\
  fst (Engine.transferCommitted Scenario.truthy (Scenario.committed_request 60)
         [] Scenario.server_clock Scenario.database_80) =
  inl Engine.SelectionMismatch /\
  fst (Engine.transferCommitted Scenario.truthy (Scenario.committed_request 60)
         [1; 3] Scenario.server_clock Scenario.database_80) =
  inl Engine.SelectionMismatch.
Proof.
  split; [|split; vm_compute; reflexivity].
  eexists _, _. split; vm_compute; reflexivity.
Qed.

(** * Further properties of the code *)

Set Warnings "-clear-no-such-hyp".

(** ** The selection modal *)

Lemma selectedTotalQty_sum (m : Modal.State) :
  (Modal.selectedTotalQty m ==
   AvailabilitySpec.sumQ
     (List.map Modal.qty
        (List.filter (fun t => Modal.isSelected m (Modal.lot_tran_no t))
           (Modal.transactions m))))%Q.
Proof.
  unfold Modal.selectedTotalQty.
  generalize (List.filter (fun t => Modal.isSelected m (Modal.lot_tran_no t))
                (Modal.transactions m)) as l.
  assert (H : forall l a,
            (fold_left (fun sum t => sum + Modal.qty t) l a ==
             a + AvailabilitySpec.sumQ (List.map Modal.qty l))%Q).
  { unfold AvailabilitySpec.sumQ.
    induction l as [|t l IH]; intros a; cbn [fold_left List.map fold_right].
    - ring.
    - rewrite IH. ring. }
  intros l. rewrite H. ring.
Qed.

Lemma isSelected_true (m : Modal.State) (id : Z) :
  Modal.isSelected m id = true <-> id ∈ Modal.selectedIds m.
Proof. unfold Modal.isSelected. apply bool_decide_eq_true. Qed.

Lemma toggleSelection_flips (id : Z) (m : Modal.State) :
  Modal.isSelected (Modal.toggleSelection id m) id = negb (Modal.isSelected m id) /\
  forall other, other <> id ->
    Modal.isSelected (Modal.toggleSelection id m) other = Modal.isSelected m other.
Proof.
  destruct m as [txs s t].
  unfold Modal.toggleSelection, Modal.isSelected.
  cbn [Modal.transactions Modal.selectedIds Modal.targetQty].
  destruct (decide (id ∈ s)) as [Hin|Hout].
  - rewrite (bool_decide_eq_true_2 _ Hin).
    assert (E : bool_decide (id ∈ s ∖ {[id]}) = false)
      by (apply bool_decide_eq_false; set_solver).
    rewrite E. split; [reflexivity|].
    intros other Hne. apply bool_decide_ext. set_solver.
  - rewrite (bool_decide_eq_false_2 _ Hout).
    assert (E : bool_decide (id ∈ s ∪ {[id]}) = true)
      by (apply bool_decide_eq_true; set_solver).
    rewrite E. split; [reflexivity|].
    intros other Hne. apply bool_decide_ext. set_solver.
Qed.

(** X1: ticking a row's box twice leaves the selection as it was, and one
    tick flips the row's own state and no other row's. *)
Theorem toggleSelection_involutive (id : Z) (m : Modal.State) :
  Modal.toggleSelection id (Modal.toggleSelection id m) = m /\
  Modal.isSelected (Modal.toggleSelection id m) id = negb (Modal.isSelected m id) /\
  forall other, other <> id ->
    Modal.isSelected (Modal.toggleSelection id m) other = Modal.isSelected m other.
Proof.
  split; [|apply toggleSelection_flips].
  destruct m as [txs s t].
  unfold Modal.toggleSelection, Modal.isSelected.
  cbn [Modal.transactions Modal.selectedIds Modal.targetQty].
  destruct (decide (id ∈ s)) as [Hin|Hout].
  - rewrite (bool_decide_eq_true_2 _ Hin).
    assert (E : bool_decide (id ∈ s ∖ {[id]}) = false)
      by (apply bool_decide_eq_false; set_solver).
    rewrite E. f_equal. apply set_eq. intros x.
    destruct (decide (x = id)) as [->|]; set_solver.
  - rewrite (bool_decide_eq_false_2 _ Hout).
    assert (E : bool_decide (id ∈ s ∪ {[id]}) = true)
      by (apply bool_decide_eq_true; set_solver).
    rewrite E. f_equal. set_solver.
Qed.

Lemma filter_all {A} (f : A -> bool) (l : list A) :
  (forall x, In x l -> f x = true) -> List.filter f l = l.
Proof.
  induction l as [|a l IH]; intros H; cbn [List.filter]; [reflexivity|].
  rewrite (H a (or_introl eq_refl)). f_equal. apply IH.
  intros x Hx. apply H. right. exact Hx.
Qed.

Lemma filter_none {A} (f : A -> bool) (l : list A) :
  (forall x, In x l -> f x = false) -> List.filter f l = [].
Proof.
  induction l as [|a l IH]; intros H; cbn [List.filter]; [reflexivity|].
  rewrite (H a (or_introl eq_refl)). apply IH.
  intros x Hx. apply H. right. exact Hx.
Qed.

Lemma nothing_selected (m : Modal.State) :
  Modal.selectedIds m = ∅ ->
  Modal.selectedTotalQty m = 0%Q /\ Modal.canConfirm m = false /\
  Modal.selectedCount m = 0%nat.
Proof.
  intros H. unfold Modal.selectedTotalQty, Modal.canConfirm, Modal.selectedCount.
  rewrite filter_none.
  - rewrite H, size_empty. repeat split.
  - intros x _. unfold Modal.isSelected. rewrite H.
    apply bool_decide_eq_false. set_solver.
Qed.

(** X2: the header box ticked selects every listed row, so the selected
    total is the total of the list and "all selected" holds as soon as the
    list is not empty; unticked it selects nothing: the total is 0 and
    Confirm is disabled. *)
Theorem toggleAll_selects_all_or_none (m : Modal.State) :
  (forall t, In t (Modal.transactions m) ->
     Modal.isSelected (Modal.toggleAll true m) (Modal.lot_tran_no t) = true) /\
  (Modal.selectedTotalQty (Modal.toggleAll true m) ==
   AvailabilitySpec.sumQ (List.map Modal.qty (Modal.transactions m)))%Q /\
  ModalView.areAllSelected (Modal.toggleAll true m) =
  negb (Nat.eqb (List.length (Modal.transactions m)) 0) /\
  Modal.selectedTotalQty (Modal.toggleAll false m) = 0%Q /\
  Modal.canConfirm (Modal.toggleAll false m) = false /\
  ModalView.areAllSelected (Modal.toggleAll false m) = false.
Proof.
  assert (Hall : forall t, In t (Modal.transactions m) ->
            Modal.isSelected (Modal.toggleAll true m) (Modal.lot_tran_no t) = true).
  { intros t Ht. apply isSelected_true. cbn [Modal.toggleAll Modal.selectedIds].
    apply elem_of_list_to_set, list_elem_of_In, in_map, Ht. }
  split; [exact Hall|]. split; [|split].
  - rewrite selectedTotalQty_sum.
    change (Modal.transactions (Modal.toggleAll true m)) with (Modal.transactions m).
    rewrite (filter_all _ _ Hall). reflexivity.
  - unfold ModalView.areAllSelected.
    change (Modal.transactions (Modal.toggleAll true m)) with (Modal.transactions m).
    rewrite (proj2 (forallb_forall _ _) Hall), andb_true_r.
    destruct (Modal.transactions m); reflexivity.
  - destruct (nothing_selected (Modal.toggleAll false m) eq_refl) as [H1 [H2 _]].
    split; [exact H1|]. split; [exact H2|].
    unfold ModalView.areAllSelected.
    change (Modal.transactions (Modal.toggleAll false m)) with (Modal.transactions m).
    destruct (Modal.transactions m) as [|t l]; [reflexivity|].
    assert (E : Modal.isSelected (Modal.toggleAll false m) (Modal.lot_tran_no t)
                = false) by (apply bool_decide_eq_false; cbn; set_solver).
    cbn [forallb]. rewrite E. apply andb_false_r.
Qed.

(** X3: the mismatch warning is shown exactly when rows are selected, the
    target is positive and Confirm is disabled; it is never shown together
    with an enabled Confirm, and never for a target that is zero or
    negative. *)
Theorem showQtyMismatchWarning_iff (m : Modal.State) :
  Modal.showQtyMismatchWarning m = true <->
  Modal.selectedIds m <> ∅ /\ (0 < Modal.targetQty m)%Q /\
  Modal.canConfirm m = false.
Proof.
  unfold Modal.showQtyMismatchWarning, Modal.canConfirm, Modal.selectedCount.
  rewrite !andb_true_iff, selected_nonempty, gt_true, negb_true_iff.
  split.
  - intros [[Hne Hm] Ht]. repeat split; try assumption.
    rewrite Hm. apply andb_false_r.
  - intros [Hne [Ht Hc]]. repeat split; try assumption.
    apply selected_nonempty in Hne. unfold Modal.selectedCount in Hc.
    rewrite Hne in Hc. exact Hc.
Qed.

(** X4: "quantity matched" is shown although Confirm is disabled exactly
    when nothing is selected and the target lies strictly between 0 and
    0.001; in every other case the green mark and the enabled button go
    together. *)
Theorem isQtyMatched_without_confirm (m : Modal.State) :
  (Modal.canConfirm m = true -> Modal.isQtyMatched m = true) /\
  (Modal.isQtyMatched m = true /\ Modal.canConfirm m = false <->
   Modal.selectedIds m = ∅ /\ (0 < Modal.targetQty m < tolerance)%Q).
Proof.
  split.
  - unfold Modal.canConfirm. intros H. apply andb_true_iff in H. tauto.
  - split.
    + intros [Hm Hc].
      assert (He : Modal.selectedIds m = ∅).
      { destruct (decide (Modal.selectedIds m = ∅)) as [E|E]; [exact E|].
        apply selected_nonempty in E. unfold Modal.canConfirm, Modal.selectedCount in Hc.
        rewrite E, Hm in Hc. discriminate. }
      split; [exact He|].
      destruct (nothing_selected m He) as [Ht [_ Hn]].
      unfold Modal.isQtyMatched in Hm. rewrite Hn, Ht in Hm.
      destruct (JS.le (Modal.targetQty m) 0) eqn:E; [discriminate|].
      apply le_false in E. apply lt_true in Hm. unfold JS.Math_abs in Hm.
      apply abs_lt in Hm. unfold tolerance in *. split; lra.
    + intros [He [Hlo Hhi]].
      destruct (nothing_selected m He) as [Ht [Hc Hn]].
      split; [|exact Hc]. unfold Modal.isQtyMatched. rewrite Ht.
      rewrite (proj2 (le_false _ _) Hlo). apply lt_true. unfold JS.Math_abs.
      apply abs_lt. unfold tolerance in *. split; lra.
Qed.

Lemma isQtyMatched_without_confirm_witness :
  let m := {| Modal.transactions := [Scenario.pending 1 30];
              Modal.selectedIds := ∅;
              Modal.targetQty := 1 # 2000 |} in
  Modal.isQtyMatched m = true /\ Modal.canConfirm m = false.
Proof.
  apply (proj2 (proj2 (isQtyMatched_without_confirm _))).
  split; [reflexivity|]. unfold tolerance. simpl. split; lra.
Defined.


(** X6: whenever the modal is opened for a lot and a bin, or is closed, the
    selection is emptied, whatever the answer of the server: no row ticked
    for one lot stays ticked for the next, and Confirm starts disabled. *)
Theorem effect_resets_selection (resp : ModalView.Response) (v : ModalView.View) :
  ModalView.isOpen v = false \/
  (ModalView.lotNo v <> "" /\ ModalView.binNo v <> "") ->
  Modal.selectedIds (ModalView.state (ModalView.effect resp v)) = ∅ /\
  Modal.canConfirm (ModalView.state (ModalView.effect resp v)) = false /\
  Modal.targetQty (ModalView.state (ModalView.effect resp v)) =
  Modal.targetQty (ModalView.state v).
Proof.
  intros H.
  assert (E : Modal.selectedIds (ModalView.state (ModalView.effect resp v)) = ∅ /\
              Modal.targetQty (ModalView.state (ModalView.effect resp v)) =
              Modal.targetQty (ModalView.state v)).
  { unfold ModalView.effect, JS.falsy.
    destruct (ModalView.isOpen v) eqn:Eo; cbn [andb negb].
    - destruct H as [H|[H1 H2]]; [discriminate|].
      apply String.eqb_neq in H1, H2. rewrite H1, H2. cbn. split; reflexivity.
    - cbn. split; reflexivity. }
  destruct E as [E1 E2]. split; [exact E1|]. split; [|exact E2].
  apply nothing_selected, E1.
Qed.

Lemma effect_resets_selection_witness :
  Modal.canConfirm
    (ModalView.state
       (ModalView.effect (ModalView.Results [Scenario.pending 1 30])
          {| ModalView.state :=
               Putaway.modal_of [Scenario.pending 7 60] {[7]} (Scenario.modal_open 60);
             ModalView.isOpen := true;
             ModalView.lotNo := "2600107-1";
             ModalView.binNo := "K0802-4B";
             ModalView.isLoading := false;
             ModalView.errorMessage := "" |})) = false.
Proof.
  refine (proj1 (proj2 (effect_resets_selection _ _ _))).
  right. split; discriminate.
Defined.

(** ** The component *)


(** X7: selecting a lot empties the quantity, so the form is not valid and
    [onSubmit] sends nothing until a quantity is typed in; the destination
    bin already typed in is kept, and a lot that comes without a committed
    quantity is taken as having none. *)
Theorem onLotSelected_requires_quantity (lotItem : PutawayView.LotSearchItem)
    (st : Putaway.State) :
  let st' := PutawayView.onLotSelected lotItem st in
  Putaway.isFormValid st' = false /\
  (forall executeBinTransfer currentUser now,
     Putaway.sent (Putaway.onSubmit executeBinTransfer currentUser now st') = None) /\
  Putaway.toBinNumber (Putaway.putawayForm st') =
  Putaway.toBinNumber (Putaway.putawayForm st) /\
  (PutawayView.qty_commit_sales lotItem = None ->
   exists lot, Putaway.selectedLot st' = Some lot /\
               Putaway.qtyCommitSales lot = 0%Q).
Proof.
  intros st'.
  assert (Hv : Putaway.isFormValid st' = false) by reflexivity.
  split; [exact Hv|]. split; [|split].
  - intros backend user now. unfold Putaway.onSubmit. rewrite Hv. reflexivity.
  - reflexivity.
  - intros H. eexists. split; [reflexivity|].
    cbn [PutawayView.lotDetails_of Putaway.qtyCommitSales]. rewrite H. reflexivity.
Qed.






Lemma no_lot_nothing_sent (st : Putaway.State) :
  Putaway.selectedLot st = None ->
  Putaway.openTransactionModal st = (st, Putaway.NoCall) /\
  (forall backend user now q,
     Putaway.executeCommittedTransfer backend user now q st = Putaway.stopped st) /\
  (forall backend user now, Putaway.onSubmit backend user now st = Putaway.stopped st).
Proof.
  intros H. unfold Putaway.openTransactionModal, Putaway.executeCommittedTransfer,
    Putaway.onSubmit, Putaway.isFormValid.
  rewrite H. repeat split.
Qed.

(** X12: a committed transfer that succeeds resets the component at once:
    no lot is selected, the form is empty and no message is left, the
    message of success included; a further click on either button then sends
    nothing, so the transfer cannot be repeated by accident. *)
Theorem committed_success_resets
    (backend : Putaway.CommittedTransferRequest -> Putaway.BackendResult)
    (user : option string) (now : Putaway.Date) (q : Q) (st : Putaway.State)
    (td : Putaway.TransactionDetails) :
  Putaway.details (Putaway.executeCommittedTransfer backend user now q st) = Some td ->
  let st' := Putaway.final (Putaway.executeCommittedTransfer backend user now q st) in
  Putaway.selectedLot st' = None /\
  Putaway.putawayForm st' = Putaway.form_reset /\
  Putaway.successMessage st' = "" /\
  Putaway.currentError st' = None /\
  Putaway.openTransactionModal st' = (st', Putaway.NoCall) /\
  (forall backend' user' now' q',
     Putaway.sent (Putaway.executeCommittedTransfer backend' user' now' q' st') = None) /\
  (forall backend' user' now',
     Putaway.sent (Putaway.onSubmit backend' user' now' st') = None).
Proof.
  intros H st'.
  assert (Hst : Putaway.selectedLot st' = None /\
                Putaway.putawayForm st' = Putaway.form_reset /\
                Putaway.successMessage st' = "" /\
                Putaway.currentError st' = None).
  { unfold st'. revert H. unfold Putaway.executeCommittedTransfer.
    destruct (Putaway.selectedLot st) as [lot|]; [|discriminate].
    destruct (Putaway.toBinNumber (Putaway.putawayForm st)) as [toBin|];
      [|discriminate].
    destruct (Putaway.blank (Some toBin)); [discriminate|].
    destruct (backend _) as [result|e]; [|discriminate].
    destruct (Putaway.success result); [|discriminate].
    intros _. repeat split. }
  destruct Hst as [H1 [H2 [H3 H4]]].
  destruct (no_lot_nothing_sent st' H1) as [Ha [Hb Hc]].
  repeat split; try assumption.
  - intros b u n q'. rewrite Hb. reflexivity.
  - intros b u n. rewrite Hc. reflexivity.
Qed.

Lemma committed_success_resets_witness :
  Putaway.selectedLot
    (Putaway.final
       (Putaway.executeCommittedTransfer
          (Scenario.transferCommittedTransactions [] Scenario.server_clock
             Scenario.database)
          (Some "DECHAWAT") (Scenario.clock 16) 50 (Scenario.state (Some 50%Q))))
  = None.
Proof.
  refine (proj1 (committed_success_resets _ _ _ _ _ _ _)).
  vm_compute. reflexivity.
Defined.

(** X14: the title and the guidance shown for an error message always
    belong together: whatever the message, the pair is one of the eight of
    [advice]. *)
Theorem error_title_matches_guidance (errorMessage : string) :
  In (PutawayView.getErrorTitle errorMessage,
      PutawayView.getErrorGuidance errorMessage) PutawayView.advice.
Proof.
  unfold PutawayView.getErrorTitle, PutawayView.getErrorGuidance,
    PutawayView.advice.
  cbv zeta.
  repeat match goal with
         | |- context [if ?b then _ else _] => destruct b
         end;
    cbn [In]; repeat (first [left; reflexivity | right]).
Qed.

(** X15: a message that mentions a lot is never given one of the five later
    titles: it is shown as insufficient quantity, invalid bin or lot not
    found, whatever else it says. *)
Theorem error_title_of_lot_message (errorMessage : string) :
  JSString.includes "lot" (JSString.toLowerCase errorMessage) = true ->
  In (PutawayView.getErrorTitle errorMessage)
     (List.map fst (firstn 3 PutawayView.advice)).
Proof.
  intros H. unfold PutawayView.getErrorTitle. cbv zeta. rewrite H.
  rewrite orb_true_r.
  repeat match goal with
         | |- context [if ?b then _ else _] => destruct b
         end;
    cbn [In firstn List.map fst PutawayView.advice];
    repeat (first [left; reflexivity | right]).
Qed.

Lemma error_title_of_lot_message_witness :
  In (PutawayView.getErrorTitle "Database error while reading lot 2600107-1")
     (List.map fst (firstn 3 PutawayView.advice)).
Proof.
  apply error_title_of_lot_message. vm_compute. reflexivity.
Defined.

(** ** The legacy statements *)

(** X17: in the list of pending transactions (query 1.4) the column TranTyp
    is NULL for the rows of type 20: the query lets the type through and its
    CASE does not name it; every other row that is listed has a name. *)
Theorem pending_rows_type_20 (db : Legacy.Database) (k : Legacy.LotKey)
    (row : LegacyView.PendingRow) :
  In row (LegacyView.pending_rows db k) ->
  exists r,
    In r (Legacy.LotTransaction db) /\
    Legacy.pending_where k r = true /\
    LegacyView.p_LotTranNo row = Legacy.LotTranNo r /\
    LegacyView.p_QtyIssued row = Legacy.QtyIssued r /\
    (LegacyView.p_TranTyp row = None <-> Legacy.TransactionType r = 20).
Proof.
  unfold LegacyView.pending_rows. intros H.
  apply in_map_iff in H. destruct H as [r [<- H]].
  apply filter_In in H. destruct H as [Hin Hw].
  exists r. repeat split; try assumption;
    cbn [LegacyView.p_TranTyp];
    unfold Legacy.pending_where in Hw;
    rewrite !andb_true_iff in Hw; destruct Hw as [[_ Ht] _];
    apply existsb_exists in Ht; destruct Ht as [t [Ht E]];
    apply Z.eqb_eq in E; rewrite E;
    unfold Legacy.outbound_types in Ht; cbn [In] in Ht;
    repeat (destruct Ht as [<-|Ht]; [cbn; try discriminate; try reflexivity; try lia|]);
    try contradiction.
Qed.

Lemma pending_rows_type_20_witness :
  exists r,
    In r (Legacy.LotTransaction LegacyScenario.database) /\
    Legacy.LotTranNo r = 2 /\
    Legacy.TransactionType r = 20.
Proof.
  destruct (pending_rows_type_20 LegacyScenario.database Scenario.source_key
              {| LegacyView.p_LotNo := "2600107-1";
                 LegacyView.p_BinNo := "K0802-4B";
                 LegacyView.p_IssueDocNo := Some "TO-7";
                 LegacyView.p_IssueDocLineNo := Some 1;
                 LegacyView.p_QtyIssued := Some 25%Q;
                 LegacyView.p_LotTranNo := 2;
                 LegacyView.p_TranTyp := None |}
              (or_intror (or_introl eq_refl)))
    as (r & Hin & _ & Hn & _ & Ht).
  exists r. split; [exact Hin|]. split; [symmetry; exact Hn|].
  apply Ht. reflexivity.
Defined.


Lemma sumQ_app (a b : list Q) :
  (AvailabilitySpec.sumQ (a ++ b)
   == AvailabilitySpec.sumQ a + AvailabilitySpec.sumQ b)%Q.
Proof.
  unfold AvailabilitySpec.sumQ.
  induction a as [|x a IH]; cbn [app fold_right].
  - ring.
  - rewrite IH. ring.
Qed.

Lemma commitment_after_insert (db db' : Legacy.Database)
    (rows : list Legacy.AuditRow) (k : Legacy.LotKey) :
  Legacy.LotTransaction db' = Legacy.LotTransaction db ++ rows ->
  Legacy.QCLotTransaction db' = Legacy.QCLotTransaction db ->
  (LegacyTrace.commitment_or_0 db' k ==
   LegacyTrace.commitment_or_0 db k
   + AvailabilitySpec.sumQ
       (List.map AvailabilitySpec.issued
          (List.filter (Legacy.pending_where k) rows)))%Q.
Proof.
  intros H1 H2. unfold LegacyTrace.commitment_or_0, Legacy.commitment_query.
  rewrite H1, H2, List.filter_app, List.map_app.
  rewrite !sql_sum_total, !List.map_app, !sumQ_app, !List.map_map.
  change (fun x : Legacy.AuditRow =>
            match Legacy.QtyIssued x with Some q => q | None => 0%Q end)
    with AvailabilitySpec.issued.
  ring.
Qed.

Lemma audit_at_same (k : Legacy.LotKey) (r : Legacy.AuditRow) :
  Legacy.t_ItemKey r = Legacy.k_ItemKey k ->
  Legacy.t_LocationKey r = Legacy.k_LocationKey k ->
  Legacy.t_LotNo r = Legacy.k_LotNo k ->
  Legacy.t_BinNo r = Legacy.k_BinNo k ->
  Legacy.audit_at k r = true.
Proof.
  intros E1 E2 E3 E4. unfold Legacy.audit_at. rewrite E1, E2, E3, E4.
  rewrite !String.eqb_refl. reflexivity.
Qed.

Lemma audit_at_other (k k' : Legacy.LotKey) (r : Legacy.AuditRow) :
  Legacy.t_ItemKey r = Legacy.k_ItemKey k ->
  Legacy.t_LocationKey r = Legacy.k_LocationKey k ->
  Legacy.t_LotNo r = Legacy.k_LotNo k ->
  Legacy.t_BinNo r = Legacy.k_BinNo k ->
  k' <> k -> Legacy.audit_at k' r = false.
Proof.
  intros E1 E2 E3 E4 Hk. unfold Legacy.audit_at. rewrite E1, E2, E3, E4.
  destruct k as [a b c d], k' as [a' b' c' d']. cbn.
  destruct (String.eqb_spec a a'), (String.eqb_spec b b'),
    (String.eqb_spec c c'), (String.eqb_spec d d'); cbn;
    try reflexivity.
  exfalso. apply Hk. congruence.
Qed.

Lemma transfer_writes_tables (k : Legacy.LotKey) (src : Legacy.LotMasterRow)
    (bin_to doc : string) (q : Q) (user today : string) (db : Legacy.Database) :
  let db' := LegacyTrace.transfer_writes k src bin_to doc q user today db in
  (exists n n',
     Legacy.LotTransaction db' =
     Legacy.LotTransaction db
     ++ [Legacy.set_LotTranNo n (Legacy.source_transaction k src doc q user today);
         Legacy.set_LotTranNo n'
           (Legacy.destination_transaction k src bin_to doc q user today)]) /\
  Legacy.QCLotTransaction db' = Legacy.QCLotTransaction db /\
  Legacy.LotMaster db' =
  (fun r => if Legacy.lot_at k r
            then Legacy.set_Qtycommitsales (Legacy.Qtycommitsales r + q)%Q r
            else r) <$> Legacy.LotMaster db.
Proof.
  cbv zeta. split; [|split; reflexivity].
  eexists _, _. unfold LegacyTrace.transfer_writes, Legacy.insert_LotTransaction.
  cbn [Legacy.LotTransaction Legacy.set_LotTransaction Legacy.update_commitsales
       Legacy.set_LotMaster].
  rewrite <- app_assoc. reflexivity.
Qed.

(** X18: the writes of a legacy transfer keep the two accounts of the
    commitment in step: the pending sum of query 1.3 for the source key and
    the column Qtycommitsales of its rows both rise by the quantity moved
    (the IN row of type 8 is not counted); the sum for every other key, the
    rows of other keys and the on-hand quantities stay as they were. *)
Theorem transfer_writes_keep_balance (k : Legacy.LotKey)
    (src : Legacy.LotMasterRow) (bin_to doc : string) (q : Q)
    (user today : string) (db : Legacy.Database) :
  let db' := LegacyTrace.transfer_writes k src bin_to doc q user today db in
  (LegacyTrace.commitment_or_0 db' k == LegacyTrace.commitment_or_0 db k + q)%Q /\
  (forall k', k' <> k ->
     Legacy.commitment_query db' k' = Legacy.commitment_query db k') /\
  (forall (i : nat) (r : Legacy.LotMasterRow),
     Legacy.LotMaster db !! i = Some r ->
     if Legacy.lot_at k r then
       exists r',
         Legacy.LotMaster db' !! i = Some r' /\
         Legacy.lot_at k r' = true /\
         Legacy.QtyOnHand r' = Legacy.QtyOnHand r /\
         (Legacy.Qtycommitsales r' - LegacyTrace.commitment_or_0 db' k
          == Legacy.Qtycommitsales r - LegacyTrace.commitment_or_0 db k)%Q
     else Legacy.LotMaster db' !! i = Some r).
Proof.
  intros db'.
  destruct (transfer_writes_tables k src bin_to doc q user today db)
    as ([n [n' Ht]] & Hqc & Hm).
  fold db' in Ht, Hqc, Hm.
  set (out := Legacy.set_LotTranNo n
                (Legacy.source_transaction k src doc q user today)) in *.
  set (inn := Legacy.set_LotTranNo n'
                (Legacy.destination_transaction k src bin_to doc q user today)) in *.
  assert (Hinn : forall k', Legacy.pending_where k' inn = false).
  { intros k'. unfold Legacy.pending_where. reflexivity. }
  assert (Hout : Legacy.pending_where k out = true).
  { unfold Legacy.pending_where.
    rewrite (audit_at_same k out); reflexivity. }
  assert (Hk : (LegacyTrace.commitment_or_0 db' k
                == LegacyTrace.commitment_or_0 db k + q)%Q).
  { rewrite (commitment_after_insert db db' [out; inn] k Ht Hqc).
    cbn [List.filter]. rewrite Hout, Hinn.
    unfold AvailabilitySpec.sumQ, AvailabilitySpec.issued.
    cbn [List.map fold_right]. cbn. ring. }
  split; [exact Hk|]. split.
  - intros k' Hne. unfold Legacy.commitment_query.
    rewrite Ht, Hqc, List.filter_app. cbn [List.filter].
    rewrite Hinn. unfold Legacy.pending_where at 2.
    rewrite (audit_at_other k k' out); try reflexivity; [|exact Hne].
    rewrite andb_false_r, app_nil_r. reflexivity.
  - intros i r Hi. rewrite Hm, list_lookup_fmap, Hi. cbn [fmap option_fmap option_map].
    destruct (Legacy.lot_at k r) eqn:Ea; [|reflexivity].
    eexists. split; [reflexivity|]. split; [exact Ea|]. split; [reflexivity|].
    cbn [Legacy.Qtycommitsales Legacy.set_Qtycommitsales]. rewrite Hk. ring.
Qed.


Lemma lot_at_set_Qtycommitsales (k : Legacy.LotKey) (q : Q)
    (r : Legacy.LotMasterRow) :
  Legacy.lot_at k (Legacy.set_Qtycommitsales q r) = Legacy.lot_at k r.
Proof. reflexivity. Qed.

(** X19: the UPDATE of the commitment (4.3) never moves a row to or from a
    key: the count of query 4.4 is the same after it for every key; that
    count is zero exactly when the SELECT of the lot finds no row; and on a
    key without rows the UPDATE changes nothing at all. *)
Theorem update_commitsales_frame (db : Legacy.Database) (k : Legacy.LotKey)
    (q : Q) :
  (forall k', Legacy.count_lot (Legacy.update_commitsales k q db) k'
              = Legacy.count_lot db k') /\
  (Legacy.count_lot db k = 0%nat <-> Legacy.select_lot db k = None) /\
  (Legacy.count_lot db k = 0%nat -> Legacy.update_commitsales k q db = db).
Proof.
  unfold Legacy.count_lot, Legacy.select_lot, Legacy.update_commitsales.
  cbn [Legacy.LotMaster Legacy.set_LotMaster].
  split; [|split].
  - intros k'. induction (Legacy.LotMaster db) as [|r l IH]; [reflexivity|].
    cbn [List.map List.filter].
    assert (E : Legacy.lot_at k'
                  (if Legacy.lot_at k r
                   then Legacy.set_Qtycommitsales (Legacy.Qtycommitsales r + q)%Q r
                   else r) = Legacy.lot_at k' r)
      by (destruct (Legacy.lot_at k r); reflexivity).
    rewrite E. destruct (Legacy.lot_at k' r); cbn [List.length]; rewrite IH;
      reflexivity.
  - induction (Legacy.LotMaster db) as [|r l IH]; [split; reflexivity|].
    cbn [List.filter List.find].
    destruct (Legacy.lot_at k r); cbn [List.length]; [split; discriminate|].
    exact IH.
  - intros H.
    assert (E : List.map
                  (fun r => if Legacy.lot_at k r
                            then Legacy.set_Qtycommitsales
                                   (Legacy.Qtycommitsales r + q)%Q r
                            else r) (Legacy.LotMaster db) = Legacy.LotMaster db).
    { induction (Legacy.LotMaster db) as [|r l IH]; [reflexivity|].
      cbn [List.filter List.map] in H |- *.
      destruct (Legacy.lot_at k r); [discriminate|].
      rewrite (IH H). reflexivity. }
    rewrite E. destruct db. reflexivity.
Qed.


(** ** load-env.js *)

Lemma span_not_colon_run (h rest : string) :
  LoadEnv.no_colon h = true ->
  LoadEnv.span_not_colon (h +:+ ":" +:+ rest) = (h, ":" +:+ rest).
Proof.
  induction h as [|c h IH]; intros H.
  - reflexivity.
  - cbn [LoadEnv.no_colon] in H. apply andb_true_iff in H. destruct H as [Hc Hh].
    change (String c h +:+ ":" +:+ rest) with (String c (h +:+ ":" +:+ rest)).
    cbn [LoadEnv.span_not_colon].
    apply negb_true_iff in Hc. rewrite Hc, (IH Hh). reflexivity.
Qed.

Lemma prefix_append (s t : string) : String.prefix s (s +:+ t) = true.
Proof.
  induction s as [|a s IH].
  - destruct t; reflexivity.
  - change (String a s +:+ t) with (String a (s +:+ t)). cbn [String.prefix].
    destruct (ascii_dec a a) as [_|N]; [exact IH|contradiction].
Qed.

Lemma prefix_no_colon (p s : string) :
  String.prefix p s = true -> LoadEnv.no_colon s = true ->
  LoadEnv.no_colon p = true.
Proof.
  revert s. induction p as [|a p IH]; intros s Hp Hs; [reflexivity|].
  destruct s as [|b s]; [discriminate Hp|].
  cbn [String.prefix] in Hp. destruct (ascii_dec a b) as [->|_]; [|discriminate Hp].
  cbn [LoadEnv.no_colon] in Hs |- *. apply andb_true_iff in Hs.
  destruct Hs as [Hb Hs]. rewrite Hb, (IH s Hp Hs). reflexivity.
Qed.

Lemma apiHostMatch_unfold (s : string) :
  LoadEnv.apiHostMatch s =
  match LoadEnv.match_here s with
  | Some host => Some host
  | None => match s with
            | EmptyString => None
            | String _ s' => LoadEnv.apiHostMatch s'
            end
  end.
Proof. destruct s; reflexivity. Qed.

Lemma span_not_colon_all (s : string) :
  LoadEnv.no_colon s = true -> LoadEnv.span_not_colon s = (s, "").
Proof.
  induction s as [|c s IH]; intros H; [reflexivity|].
  cbn [LoadEnv.no_colon] in H. apply andb_true_iff in H.
  destruct H as [Hc Hs]. cbn [LoadEnv.span_not_colon].
  apply negb_true_iff in Hc. rewrite Hc, (IH Hs). reflexivity.
Qed.

Lemma apiHostMatch_here (s host : string) :
  LoadEnv.match_here s = Some host -> LoadEnv.apiHostMatch s = Some host.
Proof.
  intros H. destruct s; cbn [LoadEnv.apiHostMatch]; rewrite H; reflexivity.
Qed.

Lemma match_here_no_colon (s : string) :
  LoadEnv.no_colon s = true -> LoadEnv.apiHostMatch s = None.
Proof.
  induction s as [|c s IH]; intros H; [reflexivity|].
  rewrite apiHostMatch_unfold.
  assert (E : LoadEnv.match_here (String c s) = None).
  { unfold LoadEnv.match_here.
    destruct (String.prefix "http://" (String c s)) eqn:Ep; [|reflexivity].
    pose proof (prefix_no_colon _ _ Ep H) as Hn. discriminate Hn. }
  rewrite E. apply IH.
  cbn [LoadEnv.no_colon] in H. apply andb_true_iff in H. exact (proj2 H).
Qed.

Lemma apiHostMatch_needs_http (s : string) :
  JSString.includes "http://" s = false -> LoadEnv.apiHostMatch s = None.
Proof.
  induction s as [|c s IH]; intros H.
  - reflexivity.
  - cbn [JSString.includes] in H. apply orb_false_iff in H. destruct H as [Hp Hs].
    cbn [LoadEnv.apiHostMatch]. unfold LoadEnv.match_here. rewrite Hp.
    exact (IH Hs).
Qed.

(** X20: for an API base URL of the form http://HOST:REST the host written
    to the CSP is HOST, that is everything between the scheme and the first
    colon after it; the port of the URL is not used: the two origins of
    [connectSrc] carry SERVER_PORT, or 4400. *)
Theorem apiHost_of_http_url (env : LoadEnv.Env) (h rest : string) :
  LoadEnv.apiBaseUrl env = "http://" +:+ h +:+ ":" +:+ rest ->
  h <> "" -> LoadEnv.no_colon h = true ->
  LoadEnv.apiHost env = h /\
  LoadEnv.connectSrc env =
  "self http://" +:+ h +:+ ":" +:+ Putaway.or_else (LoadEnv.SERVER_PORT env) "4400"
  +:+ " http://" +:+ h +:+ ":" +:+ Putaway.or_else (LoadEnv.SERVER_PORT env) "4400"
  +:+ " ws://localhost:" +:+ Putaway.or_else (LoadEnv.FRONTEND_PORT env) "4200".
Proof.
  intros Hu Hne Hc.
  assert (E : LoadEnv.apiHost env = h).
  { unfold LoadEnv.apiHost. rewrite Hu.
    rewrite (apiHostMatch_here _ h); [reflexivity|].
    unfold LoadEnv.match_here.
    rewrite (prefix_append "http://" (h +:+ ":" +:+ rest)).
    change (LoadEnv.drop 7 ("http://" +:+ h +:+ ":" +:+ rest))
      with (h +:+ ":" +:+ rest).
    rewrite (span_not_colon_run h rest Hc).
    destruct (String.eqb_spec h "") as [->|_]; [contradiction|].
    rewrite (prefix_append ":" rest). reflexivity. }
  split; [exact E|].
  unfold LoadEnv.connectSrc, LoadEnv.envVars. cbv zeta.
  cbn [LoadEnv.v_CSP_API_HOST LoadEnv.v_CSP_API_PORT LoadEnv.v_CSP_NETWORK_HOST
       LoadEnv.v_CSP_NETWORK_PORT LoadEnv.v_CSP_WS_PORT].
  rewrite E. reflexivity.
Qed.

Lemma apiHost_of_http_url_witness :
  LoadEnv.apiHost (LoadEnvScenario.env (Some "http://192.168.0.86:7075") None)
  = "192.168.0.86" /\
  LoadEnv.connectSrc (LoadEnvScenario.env (Some "http://192.168.0.86:7075") None)
  = "self http://192.168.0.86:4400 http://192.168.0.86:4400 ws://localhost:4200".
Proof.
  refine (apiHost_of_http_url
            (LoadEnvScenario.env (Some "http://192.168.0.86:7075") None)
            "192.168.0.86" "7075" eq_refl _ eq_refl).
  discriminate.
Defined.

(** X21: when the API base URL has no "http://" in it (an https URL, say),
    or is an http URL without a colon after the scheme (no port), the host
    of the URL is not used: the CSP gets DOCKER_HOST_IP, or localhost. *)
Theorem apiHost_fallback (env : LoadEnv.Env) :
  JSString.includes "http://" (LoadEnv.apiBaseUrl env) = false \/
  (exists h, LoadEnv.apiBaseUrl env = "http://" +:+ h /\
             LoadEnv.no_colon h = true) ->
  LoadEnv.apiHost env = Putaway.or_else (LoadEnv.DOCKER_HOST_IP env) "localhost".
Proof.
  intros [H|[h [Hu Hc]]]; unfold LoadEnv.apiHost.
  - rewrite (apiHostMatch_needs_http _ H). reflexivity.
  - rewrite Hu.
    assert (E : LoadEnv.apiHostMatch ("http://" +:+ h) = None).
    { rewrite apiHostMatch_unfold. unfold LoadEnv.match_here at 1.
      rewrite (prefix_append "http://" h).
      change (LoadEnv.drop 7 ("http://" +:+ h)) with h.
      rewrite (span_not_colon_all h Hc), andb_false_r.
      change ("http://" +:+ h)
        with (String "h" (String "t" (String "t" (String "p" (String ":"
                (String "/" (String "/" h))))))).
      cbv iota.
      do 6 (rewrite apiHostMatch_unfold; unfold LoadEnv.match_here at 1;
            cbn [String.prefix];
            match goal with
            | |- context [ascii_dec ?a ?b] =>
              destruct (ascii_dec a b) as [E|_]; [discriminate E|]
            end).
      exact (match_here_no_colon h Hc). }
    rewrite E. reflexivity.
Qed.

Lemma apiHost_fallback_witness :
  LoadEnv.apiHost
    (LoadEnvScenario.env (Some "https://putaway.example.com:8443")
       (Some "10.0.0.5")) = "10.0.0.5".
Proof.
  refine (apiHost_fallback
            (LoadEnvScenario.env (Some "https://putaway.example.com:8443")
               (Some "10.0.0.5")) (or_introl _)).
  vm_compute. reflexivity.
Defined.


(** ** dashboard.component.ts *)

Lemma includes_space_cons (c : ascii) (s : string) :
  JSString.includes " " (String c s) = false ->
  Ascii.eqb c " " = false /\ JSString.includes " " s = false.
Proof.
  cbn [JSString.includes String.prefix]. intros H.
  apply orb_false_iff in H. destruct H as [Hp Hs]. split; [|exact Hs].
  destruct (ascii_dec " " c) as [<-|N].
  - destruct s; discriminate Hp.
  - apply Ascii.eqb_neq. congruence.
Qed.

Lemma split_spaces_word (s : string) :
  JSString.includes " " s = false -> JSString.split_spaces s = [s].
Proof.
  induction s as [|c s IH]; intros H; [reflexivity|].
  apply includes_space_cons in H. destruct H as [Hc Hs].
  cbn [JSString.split_spaces]. rewrite Hc, (IH Hs). reflexivity.
Qed.

Lemma split_spaces_first (w r : string) :
  JSString.includes " " w = false ->
  JSString.split_spaces (w +:+ " " +:+ r) = w :: JSString.split_spaces r.
Proof.
  induction w as [|c w IH]; intros H; [reflexivity|].
  apply includes_space_cons in H. destruct H as [Hc Hs].
  change (String c w +:+ " " +:+ r) with (String c (w +:+ " " +:+ r)).
  cbn [JSString.split_spaces]. rewrite Hc, (IH Hs). reflexivity.
Qed.

Lemma split_spaces_head (c : ascii) (s : string) :
  Ascii.eqb c " " = false ->
  exists piece pieces,
    JSString.split_spaces (String c s) = String c piece :: pieces.
Proof.
  intros Hc. cbn [JSString.split_spaces]. rewrite Hc.
  destruct (JSString.split_spaces s) as [|piece pieces]; eexists _, _; reflexivity.
Qed.

Lemma take_length (n : nat) (s : string) :
  (String.length (JSString.take n s) <= n)%nat.
Proof.
  revert s. induction n as [|n IH]; intros [|c s]; cbn [JSString.take String.length];
    try lia.
  specialize (IH s). lia.
Qed.

(** X22: the initials have at most two characters; a name of one word
    gives the upper-case form of its first letter, and a name whose first
    word is followed by one space and a second word gives the upper-case
    first letters of the two, whatever follows (ASCII names). *)
Theorem getInitials_of_words (name : string) :
  (String.length (Dashboard.getInitials name) <= 2)%nat /\
  (forall c t,
     name = String c t -> JSString.includes " " name = false ->
     Dashboard.getInitials name = String (JSString.upper c) "") /\
  (forall c1 t1 c2 rest,
     name = String c1 t1 +:+ " " +:+ String c2 rest ->
     JSString.includes " " (String c1 t1) = false -> c2 <> " "%char ->
     Dashboard.getInitials name
     = String (JSString.upper c1) (String (JSString.upper c2) "")).
Proof.
  split; [apply take_length|]. split.
  - intros c t -> H. unfold Dashboard.getInitials.
    rewrite (split_spaces_word _ H). reflexivity.
  - intros c1 t1 c2 rest -> H Hc2. unfold Dashboard.getInitials.
    rewrite (split_spaces_first _ _ H).
    apply Ascii.eqb_neq in Hc2.
    destruct (split_spaces_head c2 rest Hc2) as (piece & pieces & ->).
    cbn [List.map JSString.charAt0].
    destruct (List.map JSString.charAt0 pieces); reflexivity.
Qed.

(** * The component in binary64 *)

(** ** Comparisons of numbers *)

Lemma SFcompare_antisym (x y : Binary64.number) :
  SpecFloat.SFcompare y x = option_map CompOpp (SpecFloat.SFcompare x y).
Proof.
  destruct x as [sx|sx| |sx mx ex], y as [sy|sy| |sy my ey];
    try reflexivity;
    try (destruct sx; reflexivity); try (destruct sy; reflexivity);
    try (destruct sx, sy; reflexivity).
  cbn [SpecFloat.SFcompare option_map].
  destruct sx, sy; try reflexivity; f_equal;
    rewrite (Z.compare_antisym ex ey);
    destruct (ex ?= ey); cbn [CompOpp]; try reflexivity;
    rewrite (Pos.compare_cont_antisym mx my Eq); reflexivity.
Qed.

(** [a <= b] is [a < b] or [a == b]; for numbers that compare, it is the
    negation of [a > b]. *)
Lemma le_not_gt (a b : Binary64.number) :
  Binary64.le a b = true <->
  Binary64.gt a b = false /\ SpecFloat.SFcompare a b <> None.
Proof.
  unfold Binary64.le, Binary64.gt, SpecFloat.SFleb, SpecFloat.SFltb.
  rewrite (SFcompare_antisym a b).
  destruct (SpecFloat.SFcompare a b) as [[| |]|]; cbn [option_map CompOpp];
    (split;
     [intros H; first [discriminate H|split; [reflexivity|discriminate]]
     |intros [H1 H2]; first [reflexivity|discriminate H1|congruence]]).
Qed.

Lemma tolerance64_bits :
  tolerance64 = SpecFloat.S754_finite false 4611686018427388 (-62).
Proof. vm_compute. reflexivity. Qed.

(** [v >= 0.001] is what the form asks of a quantity by [v > 0] and the
    validator [min(0.001)]. *)
Lemma at_least_tolerance (v : Binary64.number) :
  Binary64.le tolerance64 v = true <->
  Binary64.lt v tolerance64 = false /\ Binary64.gt v Binary64.zero = true.
Proof.
  rewrite le_not_gt. unfold Binary64.gt, Binary64.lt, Binary64.zero.
  rewrite tolerance64_bits.
  destruct v as [s|s| |s m e]; try destruct s;
    unfold SpecFloat.SFltb; cbn [SpecFloat.SFcompare];
    (split; intros [H1 H2];
     first [discriminate H1|discriminate H2|congruence
           |split; first [exact H1|reflexivity|discriminate]]).
Qed.

(** ** The selection modal *)

Lemma canConfirm64_true (m : Modal64.State) :
  Modal64.canConfirm m = true <->
  Modal64.selectedIds m <> ∅ /\
  (Binary64.le (Modal64.targetQty m) Binary64.zero = false ->
   Binary64.lt
     (Binary64.Math_abs
        (Binary64.sub (Modal64.selectedTotalQty m) (Modal64.targetQty m)))
     tolerance64 = true).
Proof.
  unfold Modal64.canConfirm, Modal64.isQtyMatched, Modal64.selectedCount.
  rewrite andb_true_iff, selected_nonempty.
  destruct (Binary64.le (Modal64.targetQty m) Binary64.zero) eqn:E.
  - rewrite selected_nonempty. split.
    + intros [H _]. split; [exact H|]. discriminate.
    + intros [H _]. split; exact H.
  - split.
    + intros [H1 H2]. split; [exact H1|]. intros _. exact H2.
    + intros [H1 H2]. split; [exact H1|]. apply H2. reflexivity.
Qed.

(** C10, as amended: in the selection modal, for a target quantity that is
    zero or negative Confirm is enabled by any non-empty selection, whatever
    its total; for any other target it is enabled exactly when the selection
    is not empty and the difference between the selected total and the
    target, both taken and subtracted in binary64, is in absolute value
    below the number 0.001. *)
Theorem canConfirm_by_target (m : Modal64.State) :
  (Binary64.le (Modal64.targetQty m) Binary64.zero = true ->
   (Modal64.canConfirm m = true <-> Modal64.selectedIds m <> ∅)) /\
  (Binary64.le (Modal64.targetQty m) Binary64.zero = false ->
   (Modal64.canConfirm m = true <->
    Modal64.selectedIds m <> ∅ /\
    Binary64.lt
      (Binary64.Math_abs
         (Binary64.sub (Modal64.selectedTotalQty m) (Modal64.targetQty m)))
      tolerance64 = true)).
Proof.
  split; intros Ht; rewrite canConfirm64_true, Ht.
  - split; [intros [H _]; exact H|]. intros H. split; [exact H|discriminate].
  - split; intros [H1 H2]; (split; [exact H1|]); auto.
Qed.

(** The claim as it is stated fails: against a target of 0.0003 a single
    selected row of 0.0013 does not enable Confirm, although the two
    quantities, taken exactly, differ by less than 1/1000: the subtraction
    rounds the difference up to the number 0.001. *)
Lemma canConfirm_rounds_the_difference :
  Modal64.canConfirm Scenario64.modal_0003 = false /\
  Modal64.selectedIds Scenario64.modal_0003 <> ∅ /\
  Binary64.gt (Modal64.targetQty Scenario64.modal_0003) Binary64.zero = true /\
  (Qabs (Binary64.value (Modal64.selectedTotalQty Scenario64.modal_0003)
         - Binary64.value (Modal64.targetQty Scenario64.modal_0003))
   < 1 # 1000)%Q.
Proof.
  split; [vm_compute; reflexivity|].
  split; [vm_compute; discriminate|].
  split; vm_compute; reflexivity.
Qed.

Lemma canConfirm_by_target_witness :
  Modal64.canConfirm
    {| Modal64.transactions :=
         [Scenario64.pending 1 (Binary64.of_Z 30);
          Scenario64.pending 2 (Binary64.of_Z 30);
          Scenario64.pending 3 (Binary64.of_Z 20)];
       Modal64.selectedIds := {[1; 2]};
       Modal64.targetQty := Binary64.of_Z 60 |} = true /\
  Modal64.canConfirm
    {| Modal64.transactions :=
         [Scenario64.pending 1 (Binary64.of_Z 30);
          Scenario64.pending 2 (Binary64.of_Z 30);
          Scenario64.pending 3 (Binary64.of_Z 20)];
       Modal64.selectedIds := {[3]};
       Modal64.targetQty := Binary64.zero |} = true.
Proof.
  split.
  - refine (proj2 (proj2 (canConfirm_by_target _) _) _).
    + reflexivity.
    + split; [vm_compute; discriminate|vm_compute; reflexivity].
  - refine (proj2 (proj1 (canConfirm_by_target _) _) _).
    + reflexivity.
    + vm_compute. discriminate.
Defined.

(** ** The committed path *)

Lemma openTransactionModal64_with_lot (st : Putaway64.State)
    (lot : Putaway64.LotDetails) :
  Putaway64.selectedLot st = Some lot ->
  Putaway64.blank (Putaway64.toBinNumber (Putaway64.putawayForm st)) = false ->
  Putaway64.openTransactionModal st =
  let qty := Binary64.parseFloat_or_0
               (Putaway64.putawayQty (Putaway64.putawayForm st)) in
  let committed := Putaway64.qtyCommitSales lot in
  if Binary64.gt qty committed then
    (Putaway64.setError
       (Putaway64.CannotTransferMoreThanCommitted committed qty)
       (Putaway64.RequestedAvailable (Some qty) (Some committed)) st,
     Putaway64.NoCall)
  else if Binary64.lt (Binary64.Math_abs (Binary64.sub qty committed)) tolerance64
  then (st, Putaway64.Call_executeCommittedTransfer qty)
  else (Putaway64.set_modal qty true (Putaway64.clearMessages st),
        Putaway64.NoCall).
Proof.
  intros Hlot Hbin. unfold Putaway64.openTransactionModal.
  rewrite Hlot, Hbin. reflexivity.
Qed.

Lemma executeCommittedTransfer64_sends
    (backend : Putaway64.CommittedTransferRequest -> Putaway64.BackendResult)
    (user : option string) (q : Binary64.number) (st : Putaway64.State)
    (r : Putaway64.CommittedTransferRequest) :
  Putaway64.sent (Putaway64.executeCommittedTransfer backend user q st) = Some r <->
  exists lot toBin,
    Putaway64.selectedLot st = Some lot /\
    Putaway64.toBinNumber (Putaway64.putawayForm st) = Some toBin /\
    Putaway64.blank (Some toBin) = false /\
    r = {| Putaway64.c_lot_no := Putaway64.lotNumber lot;
           Putaway64.c_item_key := Putaway64.itemKey lot;
           Putaway64.c_location := Putaway64.location lot;
           Putaway64.source_bin := Putaway64.binNumber lot;
           Putaway64.to_bin := toBin;
           Putaway64.c_transfer_qty := q;
           Putaway64.c_user_id := Putaway.or_else user "unknown";
           Putaway64.c_remarks :=
             Putaway.or_else (Putaway64.remarks (Putaway64.putawayForm st)) "";
           Putaway64.c_referenced :=
             Putaway.or_else (Putaway64.referenced (Putaway64.putawayForm st)) "" |}.
Proof.
  unfold Putaway64.executeCommittedTransfer.
  destruct (Putaway64.selectedLot st) as [lot|].
  2: { split; [discriminate|]. intros (l & t & H & _). discriminate H. }
  destruct (Putaway64.toBinNumber (Putaway64.putawayForm st)) as [toBin|].
  2: { split; [discriminate|]. intros (l & t & _ & H & _). discriminate H. }
  destruct (Putaway64.blank (Some toBin)) eqn:Eb.
  { split; [discriminate|]. intros (l & t & _ & H & Hb & _).
    injection H as <-. congruence. }
  match goal with |- context [backend ?x] => set (req := x) end.
  destruct (backend req) as [result|e]; [destruct (Putaway.success result)|];
    cbn [Putaway64.sent];
    (split;
     [ intros H; injection H as <-; exists lot, toBin; repeat split; exact Eb
     | intros (lot' & toBin' & H1 & H2 & _ & ->);
       injection H1 as <-; injection H2 as <-; reflexivity ]).
Qed.

Lemma run_call64_sends
    (backend : Putaway64.CommittedTransferRequest -> Putaway64.BackendResult)
    (user : option string) (c : Putaway64.State * Putaway64.Call)
    (r : Putaway64.CommittedTransferRequest) :
  Putaway64.sent (Putaway64.run_call backend user c) = Some r ->
  exists q, snd c = Putaway64.Call_executeCommittedTransfer q /\
            Putaway64.c_transfer_qty r = q.
Proof.
  unfold Putaway64.run_call. destruct (snd c) as [|q]; [discriminate|].
  intros H. apply executeCommittedTransfer64_sends in H.
  destruct H as (lot & toBin & _ & _ & _ & ->). exists q. split; reflexivity.
Qed.

Lemma modalConfirm64_call (txs : list Modal64.LotTransactionItem) (pick : gset Z)
    (st : Putaway64.State) :
  snd (Putaway64.modalConfirm txs pick st) =
  if Modal64.canConfirm (Putaway64.modal_of txs pick st)
     && negb (Binary64.gt
                (Binary64.Math_abs
                   (Binary64.sub
                      (Modal64.selectedTotalQty (Putaway64.modal_of txs pick st))
                      (Putaway64.targetTransferQty st)))
                tolerance64)
  then Putaway64.Call_executeCommittedTransfer (Putaway64.targetTransferQty st)
  else Putaway64.NoCall.
Proof.
  unfold Putaway64.modalConfirm, Modal64.clickConfirm, Modal64.onConfirm,
    Putaway64.onTransactionsSelected.
  destruct (Modal64.canConfirm (Putaway64.modal_of txs pick st)); [|reflexivity].
  cbv zeta. destruct (Binary64.gt _ tolerance64); reflexivity.
Qed.

(** C1, as amended: with a lot selected and a destination bin typed in,
    [openTransactionModal] compares the quantity with the committed quantity
    of the bin in three exclusive cases: above it, by any amount, it sets
    the error carrying both figures and nothing is sent; otherwise, when the
    difference of the two, subtracted in binary64, is in absolute value
    below the number 0.001, it executes the committed transfer at once, and
    the request for the quantity goes to the backend; otherwise it opens the
    selection modal with the quantity as target, and nothing is sent yet. *)
Theorem openTransactionModal_cases
    (backend : Putaway64.CommittedTransferRequest -> Putaway64.BackendResult)
    (user : option string) (st : Putaway64.State) (lot : Putaway64.LotDetails) :
  Putaway64.selectedLot st = Some lot ->
  Putaway64.blank (Putaway64.toBinNumber (Putaway64.putawayForm st)) = false ->
  let qty := Binary64.parseFloat_or_0
               (Putaway64.putawayQty (Putaway64.putawayForm st)) in
  let committed := Putaway64.qtyCommitSales lot in
  let out := Putaway64.run_call backend user (Putaway64.openTransactionModal st) in
  (Binary64.gt qty committed = true ->
   Putaway64.openTransactionModal st =
   (Putaway64.setError
      (Putaway64.CannotTransferMoreThanCommitted committed qty)
      (Putaway64.RequestedAvailable (Some qty) (Some committed)) st,
    Putaway64.NoCall) /\
   Putaway64.sent out = None) /\
  (Binary64.gt qty committed = false ->
   Binary64.lt (Binary64.Math_abs (Binary64.sub qty committed)) tolerance64 = true ->
   Putaway64.openTransactionModal st
   = (st, Putaway64.Call_executeCommittedTransfer qty) /\
   exists r,
     Putaway64.sent out = Some r /\
     Putaway64.c_transfer_qty r = qty /\
     Putaway64.c_lot_no r = Putaway64.lotNumber lot /\
     Putaway64.source_bin r = Putaway64.binNumber lot) /\
  (Binary64.gt qty committed = false ->
   Binary64.lt (Binary64.Math_abs (Binary64.sub qty committed)) tolerance64 = false ->
   Putaway64.openTransactionModal st
   = (Putaway64.set_modal qty true (Putaway64.clearMessages st),
      Putaway64.NoCall) /\
   Putaway64.sent out = None).
Proof.
  intros Hlot Hbin qty committed out. unfold out.
  rewrite (openTransactionModal64_with_lot st lot Hlot Hbin). cbv zeta.
  fold qty committed.
  split; [|split].
  - intros Hg. rewrite Hg. split; reflexivity.
  - intros Hg Hl. rewrite Hg, Hl. split; [reflexivity|].
    unfold Putaway64.run_call. cbn [fst snd].
    destruct (Putaway64.toBinNumber (Putaway64.putawayForm st)) as [toBin|] eqn:Et;
      [|discriminate Hbin].
    eexists. split.
    + apply executeCommittedTransfer64_sends. exists lot, toBin.
      repeat split; assumption.
    + repeat split.
  - intros Hg Hl. rewrite Hg, Hl. split; reflexivity.
Qed.

(** The claim as it is stated fails above the committed quantity: with 50
    committed, a quantity of 50.0005 sets the error and sends nothing,
    although it exceeds the committed quantity by less than 0.001. *)
Lemma openTransactionModal_above_committed :
  (Qabs (Binary64.value (Binary64.decimal 500005 4)
         - Binary64.value (Putaway64.qtyCommitSales Scenario64.lot)) < 1 # 1000)%Q /\
  snd (Putaway64.openTransactionModal
         (Scenario64.state (Some (Binary64.decimal 500005 4))))
  = Putaway64.NoCall /\
  Putaway64.errorMessage
    (fst (Putaway64.openTransactionModal
            (Scenario64.state (Some (Binary64.decimal 500005 4)))))
  = Putaway64.CannotTransferMoreThanCommitted
      (Binary64.of_Z 50) (Binary64.decimal 500005 4) /\
  Putaway64.sent
    (Putaway64.run_call Scenario64.accepting (Some "DECHAWAT")
       (Putaway64.openTransactionModal
          (Scenario64.state (Some (Binary64.decimal 500005 4))))) = None.
Proof. repeat split; vm_compute; reflexivity. Qed.

Lemma openTransactionModal_cases_witness :
  exists r,
    Putaway64.sent
      (Putaway64.run_call Scenario64.accepting (Some "DECHAWAT")
         (Putaway64.openTransactionModal
            (Scenario64.state (Some (Binary64.decimal 49999 3))))) = Some r /\
    Putaway64.c_transfer_qty r = Binary64.decimal 49999 3.
Proof.
  destruct (proj1 (proj2 (openTransactionModal_cases Scenario64.accepting
                            (Some "DECHAWAT")
                            (Scenario64.state (Some (Binary64.decimal 49999 3)))
                            Scenario64.lot eq_refl eq_refl))
              ltac:(vm_compute; reflexivity) ltac:(vm_compute; reflexivity))
    as (_ & r & H1 & H2 & _).
  exists r. split; [exact H1|].
  rewrite H2. vm_compute. reflexivity.
Defined.

(** The boundary in binary64: typed against 50 committed, 49.999 executes
    at once, the computed difference being just below the number 0.001, and
    so does 1 against 1.001; 0.0003 against 0.0013 opens the modal, the
    computed difference being the number 0.001 itself. *)
Example openTransactionModal_at_the_boundary :
  let committed c := {| Putaway64.lotNumber := "2600107-1";
                        Putaway64.binNumber := "K0802-4B";
                        Putaway64.itemKey := "INBC1403";
                        Putaway64.location := "TFC1";
                        Putaway64.uom := "KG";
                        Putaway64.qtyCommitSales := c;
                        Putaway64.qtyOnHand := Binary64.of_Z 975;
                        Putaway64.qtyAvail := Binary64.of_Z 925;
                        Putaway64.expDate := "";
                        Putaway64.lotStatus := "P" |} in
  let st c q := {| Putaway64.selectedLot := Some (committed c);
                   Putaway64.putawayForm := Scenario64.form (Some q);
                   Putaway64.targetTransferQty := Binary64.zero;
                   Putaway64.isTransactionModalOpen := false;
                   Putaway64.errorMessage := Putaway64.Literal "";
                   Putaway64.errorDetails := Putaway64.NoDetails;
                   Putaway64.successMessage := "" |} in
  snd (Putaway64.openTransactionModal
         (st (Binary64.of_Z 50) (Binary64.decimal 49999 3)))
  = Putaway64.Call_executeCommittedTransfer (Binary64.decimal 49999 3) /\
  snd (Putaway64.openTransactionModal
         (st (Binary64.decimal 1001 3) (Binary64.of_Z 1)))
  = Putaway64.Call_executeCommittedTransfer (Binary64.of_Z 1) /\
  Putaway64.isTransactionModalOpen
    (fst (Putaway64.openTransactionModal
            (st (Binary64.decimal 13 4) (Binary64.decimal 3 4)))) = true /\
  Binary64.sub (Binary64.decimal 13 4) (Binary64.decimal 3 4) = tolerance64.
Proof. cbv zeta. repeat split; vm_compute; reflexivity. Qed.

(** C3, where the code departs from it: with 50 committed and the quantity
    left empty, the committed transfer opens the modal with target 0; one
    pending row of 0.001 selected, whose number is above 10^-3, Confirm is
    enabled, the component's re-check lets the difference of 0.001 pass,
    and the transfer of quantity 0 is sent to the backend.  For the target
    0.001 the same difference of 0.001 (one row of 0.002) leaves Confirm
    disabled, and nothing is sent. *)
Theorem selection_at_zero_target
    (backend : Putaway64.CommittedTransferRequest -> Putaway64.BackendResult)
    (user : option string) :
  let opened := fst (Putaway64.openTransactionModal (Scenario64.state None)) in
  let sibling :=
    fst (Putaway64.openTransactionModal
           (Scenario64.state (Some (Binary64.decimal 1 3)))) in
  (Putaway64.isTransactionModalOpen opened = true /\
   Putaway64.targetTransferQty opened = Binary64.zero /\
   Binary64.sub
     (Modal64.selectedTotalQty
        (Putaway64.modal_of [Scenario64.pending 1 (Binary64.decimal 1 3)]
           {[1]} opened))
     (Putaway64.targetTransferQty opened) = tolerance64 /\
   (1 # 1000 < Binary64.value tolerance64)%Q /\
   Modal64.canConfirm
     (Putaway64.modal_of [Scenario64.pending 1 (Binary64.decimal 1 3)]
        {[1]} opened) = true /\
   exists r,
     Putaway64.sent
       (Putaway64.confirmSelection backend user
          [Scenario64.pending 1 (Binary64.decimal 1 3)] {[1]} opened) = Some r /\
     Putaway64.c_transfer_qty r = Binary64.zero /\
     Putaway64.c_lot_no r = "2600107-1") /\
  (Putaway64.isTransactionModalOpen sibling = true /\
   Putaway64.targetTransferQty sibling = tolerance64 /\
   Binary64.sub
     (Modal64.selectedTotalQty
        (Putaway64.modal_of [Scenario64.pending 1 (Binary64.decimal 2 3)]
           {[1]} sibling))
     (Putaway64.targetTransferQty sibling) = tolerance64 /\
   Modal64.canConfirm
     (Putaway64.modal_of [Scenario64.pending 1 (Binary64.decimal 2 3)]
        {[1]} sibling) = false /\
   Putaway64.sent
     (Putaway64.confirmSelection backend user
        [Scenario64.pending 1 (Binary64.decimal 2 3)] {[1]} sibling) = None).
Proof.
  cbv zeta. split.
  - split; [vm_compute; reflexivity|]. split; [vm_compute; reflexivity|].
    split; [vm_compute; reflexivity|]. split; [vm_compute; reflexivity|].
    split; [vm_compute; reflexivity|].
    unfold Putaway64.confirmSelection, Putaway64.run_call.
    rewrite modalConfirm64_call.
    match goal with
    | |- context [if ?b then _ else _] =>
      replace b with true by (vm_compute; reflexivity)
    end.
    cbn [snd]. eexists. split.
    + apply executeCommittedTransfer64_sends.
      exists Scenario64.lot, "WHKON1". repeat split; vm_compute; reflexivity.
    + split; vm_compute; reflexivity.
  - split; [vm_compute; reflexivity|]. split; [vm_compute; reflexivity|].
    split; [vm_compute; reflexivity|]. split; [vm_compute; reflexivity|].
    unfold Putaway64.confirmSelection, Putaway64.run_call.
    rewrite modalConfirm64_call.
    match goal with
    | |- context [if ?b then _ else _] =>
      replace b with false by (vm_compute; reflexivity)
    end.
    reflexivity.
Qed.

(** X9: the committed path never asks the backend for more than the
    committed quantity of the selected lot: a request sent straight from the
    click carries a quantity that is not above it and whose binary64
    difference to it is below the number 0.001; a request sent from the
    modal that the click opened carries a quantity that is not above it
    either, for a selection that is not empty and whose total does not
    differ from that quantity, in binary64, by more than the number 0.001. *)
Theorem committed_requests_within_commitment
    (backend : Putaway64.CommittedTransferRequest -> Putaway64.BackendResult)
    (user : option string) (st : Putaway64.State)
    (lot : Putaway64.LotDetails) (txs : list Modal64.LotTransactionItem)
    (pick : gset Z) (r : Putaway64.CommittedTransferRequest) :
  Putaway64.selectedLot st = Some lot ->
  Putaway64.isTransactionModalOpen st = false ->
  (Putaway64.sent
     (Putaway64.run_call backend user (Putaway64.openTransactionModal st))
   = Some r ->
   Binary64.gt (Putaway64.c_transfer_qty r) (Putaway64.qtyCommitSales lot) = false /\
   Binary64.lt
     (Binary64.Math_abs
        (Binary64.sub (Putaway64.c_transfer_qty r) (Putaway64.qtyCommitSales lot)))
     tolerance64 = true) /\
  (Putaway64.isTransactionModalOpen (fst (Putaway64.openTransactionModal st))
   = true ->
   Putaway64.sent
     (Putaway64.confirmSelection backend user txs pick
        (fst (Putaway64.openTransactionModal st))) = Some r ->
   Binary64.gt (Putaway64.c_transfer_qty r) (Putaway64.qtyCommitSales lot) = false /\
   Binary64.lt
     (Binary64.Math_abs
        (Binary64.sub (Putaway64.c_transfer_qty r) (Putaway64.qtyCommitSales lot)))
     tolerance64 = false /\
   pick <> ∅ /\
   Binary64.gt
     (Binary64.Math_abs
        (Binary64.sub
           (Modal64.selectedTotalQty
              (Putaway64.modal_of txs pick
                 (fst (Putaway64.openTransactionModal st))))
           (Putaway64.c_transfer_qty r)))
     tolerance64 = false).
Proof.
  intros Hlot Hclosed.
  destruct (Putaway64.blank (Putaway64.toBinNumber (Putaway64.putawayForm st)))
    eqn:Hbin.
  { unfold Putaway64.openTransactionModal. rewrite Hlot, Hbin.
    split; [discriminate|]. cbn. rewrite Hclosed. discriminate. }
  rewrite (openTransactionModal64_with_lot st lot Hlot Hbin). cbv zeta.
  set (qty := Binary64.parseFloat_or_0
                (Putaway64.putawayQty (Putaway64.putawayForm st))).
  destruct (Binary64.gt qty (Putaway64.qtyCommitSales lot)) eqn:Eg.
  { split; [discriminate|]. cbn. rewrite Hclosed. discriminate. }
  destruct (Binary64.lt
              (Binary64.Math_abs (Binary64.sub qty (Putaway64.qtyCommitSales lot)))
              tolerance64) eqn:El.
  - split.
    + intros H. apply run_call64_sends in H. destruct H as (q & Hq & ->).
      cbn [snd] in Hq. injection Hq as <-. split; assumption.
    + cbn [fst]. rewrite Hclosed. discriminate.
  - split; [discriminate|]. intros _ H. cbn [fst] in H |- *.
    set (st1 := Putaway64.set_modal qty true (Putaway64.clearMessages st)) in *.
    unfold Putaway64.confirmSelection in H. apply run_call64_sends in H.
    destruct H as (q & Hq & ->). rewrite modalConfirm64_call in Hq.
    destruct (Modal64.canConfirm (Putaway64.modal_of txs pick st1)) eqn:Ec;
      [|discriminate].
    change (Putaway64.targetTransferQty st1) with qty in Hq.
    destruct (Binary64.gt
                (Binary64.Math_abs
                   (Binary64.sub
                      (Modal64.selectedTotalQty (Putaway64.modal_of txs pick st1))
                      qty)) tolerance64) eqn:Em; [discriminate|].
    cbn [andb negb] in Hq. injection Hq as <-.
    apply canConfirm64_true in Ec. destruct Ec as [Hne _].
    repeat split; assumption.
Qed.

Lemma committed_requests_within_commitment_witness :
  Putaway64.sent
    (Putaway64.run_call Scenario64.accepting (Some "DECHAWAT")
       (Putaway64.openTransactionModal
          (Scenario64.state (Some (Binary64.of_Z 50)))))
  = Some (Scenario64.committed_request (Binary64.of_Z 50)) /\
  Binary64.gt (Binary64.of_Z 50) (Binary64.of_Z 50) = false.
Proof.
  assert (H : Putaway64.sent
                (Putaway64.run_call Scenario64.accepting (Some "DECHAWAT")
                   (Putaway64.openTransactionModal
                      (Scenario64.state (Some (Binary64.of_Z 50)))))
              = Some (Scenario64.committed_request (Binary64.of_Z 50)))
    by (vm_compute; reflexivity).
  split; [exact H|].
  exact (proj1 (proj1 (committed_requests_within_commitment Scenario64.accepting
                         (Some "DECHAWAT")
                         (Scenario64.state (Some (Binary64.of_Z 50)))
                         Scenario64.lot [] ∅
                         (Scenario64.committed_request (Binary64.of_Z 50))
                         eq_refl eq_refl) H)).
Defined.

(** ** The free path *)

Lemma isFormValid64_true (st : Putaway64.State) :
  Putaway64.isFormValid st = true <->
  exists lot q,
    Putaway64.selectedLot st = Some lot /\
    Putaway64.putawayQty (Putaway64.putawayForm st) = Some q /\
    Binary64.le tolerance64 q = true /\
    Binary64.le q (Putaway64.roundToDecimalPlaces (Putaway64.qtyAvail lot) 3) = true.
Proof.
  unfold Putaway64.isFormValid, Putaway64.putawayQtyValid, Putaway64.maxQuantity.
  destruct (Putaway64.selectedLot st) as [lot|].
  2: { split; [discriminate|]. intros (l & q & H & _). discriminate H. }
  destruct (Putaway64.putawayQty (Putaway64.putawayForm st)) as [q|].
  2: { split; [discriminate|]. intros (l & q & _ & H & _). discriminate H. }
  rewrite !andb_true_iff, negb_true_iff. cbn [Binary64.parseFloat_or_0].
  split.
  - intros [[Hmin Hpos] Hmax].
    assert (Ht : Binary64.truthy q = true).
    { destruct (Binary64.truthy q); [reflexivity|]. discriminate Hpos. }
    rewrite Ht in Hpos, Hmax.
    exists lot, q. repeat split; [|exact Hmax].
    apply at_least_tolerance. split; assumption.
  - intros (l & q' & Hl & Hq & Hmin & Hmax).
    injection Hl as <-. injection Hq as <-.
    apply at_least_tolerance in Hmin. destruct Hmin as [Hmin Hpos].
    assert (Ht : Binary64.truthy q = true).
    { destruct q as [s|s| |s m e]; try reflexivity; discriminate Hpos. }
    rewrite Ht. repeat split; assumption.
Qed.

(** C2, as amended: the form admits a free-quantity request exactly when a
    lot is selected and a quantity is entered that is at least the number
    0.001 and at most the available quantity rounded to three places by
    [roundToDecimalPlaces], both compared in binary64, with no tolerance
    above that bound; and a request that the form does not admit is never
    sent: [onSubmit] returns at once, the signals as they were. *)
Theorem isFormValid_bounds
    (backend : Putaway64.BinTransferRequest -> Putaway64.BackendResult)
    (user : option string) (st : Putaway64.State) :
  (Putaway64.isFormValid st = true <->
   exists lot q,
     Putaway64.selectedLot st = Some lot /\
     Putaway64.putawayQty (Putaway64.putawayForm st) = Some q /\
     Binary64.le tolerance64 q = true /\
     Binary64.le q (Putaway64.roundToDecimalPlaces (Putaway64.qtyAvail lot) 3)
     = true) /\
  (Putaway64.isFormValid st = false ->
   Putaway64.onSubmit backend user st = Putaway64.stopped st).
Proof.
  split; [apply isFormValid64_true|].
  intros H. unfold Putaway64.onSubmit. rewrite H. reflexivity.
Qed.

(** The claim as it is stated fails: with 925 available, the quantity
    925.0001, which exceeds it by less than 0.001, is not admitted and
    nothing is sent; 925 itself is admitted, 925.01 and 0 are not. *)
Lemma isFormValid_no_tolerance :
  (Qabs (Binary64.value (Binary64.decimal 9250001 4)
         - Binary64.value (Putaway64.qtyAvail Scenario64.lot)) < 1 # 1000)%Q /\
  Putaway64.isFormValid (Scenario64.state (Some (Binary64.decimal 9250001 4)))
  = false /\
  Putaway64.sent
    (Putaway64.onSubmit Scenario64.accepting (Some "DECHAWAT")
       (Scenario64.state (Some (Binary64.decimal 9250001 4)))) = None /\
  Putaway64.isFormValid (Scenario64.state (Some (Binary64.of_Z 925))) = true /\
  Putaway64.isFormValid (Scenario64.state (Some (Binary64.decimal 92501 2)))
  = false /\
  Putaway64.isFormValid (Scenario64.state (Some Binary64.zero)) = false.
Proof. repeat split; vm_compute; reflexivity. Qed.

Lemma isFormValid_bounds_witness :
  Putaway64.isFormValid (Scenario64.state (Some (Binary64.of_Z 925))) = true /\
  Putaway64.onSubmit Scenario64.accepting (Some "DECHAWAT")
    (Scenario64.state (Some (Binary64.decimal 9250001 4)))
  = Putaway64.stopped (Scenario64.state (Some (Binary64.decimal 9250001 4))).
Proof.
  split.
  - apply (proj1 (isFormValid_bounds Scenario64.accepting (Some "DECHAWAT")
                    (Scenario64.state (Some (Binary64.of_Z 925))))).
    exists Scenario64.lot, (Binary64.of_Z 925).
    repeat split; vm_compute; reflexivity.
  - apply (proj2 (isFormValid_bounds Scenario64.accepting (Some "DECHAWAT")
                    (Scenario64.state (Some (Binary64.decimal 9250001 4))))).
    vm_compute. reflexivity.
Defined.

(** The bound in binary64: 925 rounds to itself, 2.0035 to 2.003 and
    925.0005 to 925.001. *)
Example roundToDecimalPlaces_in_binary64 :
  Putaway64.roundToDecimalPlaces (Binary64.of_Z 925) 3 = Binary64.of_Z 925 /\
  Putaway64.roundToDecimalPlaces (Binary64.decimal 20035 4) 3
  = Binary64.decimal 2003 3 /\
  Putaway64.roundToDecimalPlaces (Binary64.decimal 9250005 4) 3
  = Binary64.decimal 925001 3.
Proof. repeat split; vm_compute; reflexivity. Qed.

(** X10: [onSubmit] sends a request only for a signed-in user, a selected
    lot and a quantity that is at least the number 0.001 and at most the
    available quantity rounded to three places, compared in binary64; the
    request names that user, the lot and its bin as source, that quantity,
    and the destination typed in the form, which is not blank. *)
Theorem onSubmit_sends_valid_requests
    (backend : Putaway64.BinTransferRequest -> Putaway64.BackendResult)
    (user : option string) (st : Putaway64.State)
    (r : Putaway64.BinTransferRequest) :
  Putaway64.sent (Putaway64.onSubmit backend user st) = Some r ->
  exists lot q name,
    Putaway64.selectedLot st = Some lot /\
    Putaway64.putawayQty (Putaway64.putawayForm st) = Some q /\
    user = Some name /\
    Putaway64.transfer_qty r = q /\
    Binary64.le tolerance64 q = true /\
    Binary64.le q (Putaway64.roundToDecimalPlaces (Putaway64.qtyAvail lot) 3)
    = true /\
    Putaway64.user_id r = name /\
    Putaway64.lot_no r = Putaway64.lotNumber lot /\
    Putaway64.bin_from r = Putaway64.binNumber lot /\
    Putaway64.toBinNumber (Putaway64.putawayForm st) = Some (Putaway64.bin_to r) /\
    Utf8.trim (Putaway64.bin_to r) <> "".
Proof.
  unfold Putaway64.onSubmit.
  destruct (Putaway64.isFormValid st) eqn:Hv; [|discriminate]. cbn [negb].
  apply isFormValid64_true in Hv.
  destruct Hv as (lot & q & Hlot & Hq & Hmin & Hmax). rewrite Hlot, Hq.
  destruct (Putaway64.toBinNumber (Putaway64.putawayForm st)) as [toBin|] eqn:Et;
    [|discriminate].
  cbn [option_map]. unfold JS.falsy.
  destruct (String.eqb_spec (Utf8.trim toBin) "") as [Eb|Eb]; [discriminate|].
  destruct user as [name|]; [|discriminate].
  assert (Hbin : Putaway.or_else (Some toBin) "" = toBin).
  { unfold Putaway.or_else, JS.falsy.
    destruct (String.eqb_spec toBin "") as [->|]; reflexivity. }
  rewrite !Hbin.
  match goal with |- context [backend ?x] => set (req := x) end.
  destruct (backend req) as [result|e]; [destruct (Putaway.success result)|];
    cbn [Putaway64.sent]; intros H; injection H as <-;
    exists lot, q, name; subst req;
    cbn [Putaway64.transfer_qty Putaway64.user_id Putaway64.lot_no
         Putaway64.bin_from Putaway64.bin_to];
    repeat split; assumption.
Qed.

Lemma onSubmit_sends_valid_requests_witness :
  Putaway64.sent
    (Putaway64.onSubmit Scenario64.accepting (Some "DECHAWAT")
       (Scenario64.state (Some (Binary64.of_Z 500))))
  = Some (Scenario64.request (Binary64.of_Z 500)) /\
  Binary64.le tolerance64 (Binary64.of_Z 500) = true.
Proof.
  assert (H : Putaway64.sent
                (Putaway64.onSubmit Scenario64.accepting (Some "DECHAWAT")
                   (Scenario64.state (Some (Binary64.of_Z 500))))
              = Some (Scenario64.request (Binary64.of_Z 500)))
    by (vm_compute; reflexivity).
  split; [exact H|].
  destruct (onSubmit_sends_valid_requests Scenario64.accepting (Some "DECHAWAT")
              (Scenario64.state (Some (Binary64.of_Z 500)))
              (Scenario64.request (Binary64.of_Z 500)) H)
    as (lot & q & name & _ & Hq & _ & _ & Hmin & _).
  injection Hq as <-. exact Hmin.
Defined.

(** ** Failures *)

(** The kinds of failure for which [parseErrorResponse] shows the message
    of the body as it is. *)
Lemma parseErrorResponse_shown (e : Putaway64.HttpError) (st : Putaway64.State) :
  Putaway64.selectedLot (Putaway64.parseErrorResponse e st)
  = Putaway64.selectedLot st /\
  Putaway64.putawayForm (Putaway64.parseErrorResponse e st)
  = Putaway64.putawayForm st /\
  (Putaway64.shown (Putaway64.errorMessage (Putaway64.parseErrorResponse e st))
   = false <->
   exists b k,
     Putaway64.body e = Some b /\ Putaway64.kind b = Some k /\
     In k ["Insufficient quantity"; "Invalid bin"; "Lot not found";
           "Validation error"] /\
     (Putaway64.body_message b = None \/ Putaway64.body_message b = Some "")).
Proof.
  unfold Putaway64.parseErrorResponse.
  destruct (Putaway64.body e) as [b|] eqn:Ebody.
  2: { repeat split; [discriminate|]. intros (b & k & H & _). discriminate H. }
  split; [|split].
  1, 2: repeat match goal with
               | |- context [if ?c then _ else _] => destruct c
               end; reflexivity.
  assert (Hm : forall s, Putaway64.shown
                           (match s with
                            | Some t => Putaway64.Literal t
                            | None => Putaway64.Missing
                            end) = false <-> s = None \/ s = Some "").
  { intros [t|]; cbn [Putaway64.shown].
    - rewrite negb_false_iff. destruct (String.eqb_spec t "") as [->|N].
      + split; [right; reflexivity|reflexivity].
      + split; [discriminate|]. intros [H|H]; [discriminate H|].
        injection H as ->. contradiction.
    - split; [left; reflexivity|reflexivity]. }
  assert (Hd : Putaway64.shown
                 (Putaway64.Literal
                    (Putaway.or_else (Putaway64.body_message b)
                       "An unexpected error occurred")) = true).
  { unfold Putaway.or_else, JS.falsy. destruct (Putaway64.body_message b) as [t|];
      [|reflexivity].
    destruct (String.eqb_spec t "") as [->|N]; [reflexivity|].
    cbn [Putaway64.shown]. apply negb_true_iff. apply String.eqb_neq, N. }
  assert (Hk : forall k0,
             Putaway64.kind b = Some k0 ->
             In k0 ["Insufficient quantity"; "Invalid bin"; "Lot not found";
                    "Validation error"] ->
             (Putaway64.body_message b = None \/
              Putaway64.body_message b = Some "" <->
              exists b' k,
                Some b = Some b' /\ Putaway64.kind b' = Some k /\
                In k ["Insufficient quantity"; "Invalid bin"; "Lot not found";
                      "Validation error"] /\
                (Putaway64.body_message b' = None \/
                 Putaway64.body_message b' = Some ""))).
  { intros k0 Ek Hin. split.
    - intros H. exists b, k0. repeat split; assumption.
    - intros (b' & k' & Hb & _ & _ & H). injection Hb as <-. exact H. }
  destruct (Putaway64.kind b) as [k|] eqn:Ek.
  2: { cbn [orb Putaway64.selectedLot Putaway64.putawayForm
            Putaway64.errorMessage Putaway64.setError].
       rewrite Hd. split; [discriminate|].
       intros (b' & k' & Hb & Hk' & _). injection Hb as <-.
       rewrite Ek in Hk'. discriminate Hk'. }
  destruct (String.eqb_spec k "Insufficient quantity") as [->|N1].
  { cbn [Putaway64.errorMessage Putaway64.setError]. rewrite Hm.
    apply (Hk _ eq_refl). cbn [In]. auto. }
  destruct (String.eqb_spec k "Invalid bin") as [->|N2].
  { cbn [Putaway64.errorMessage Putaway64.setError]. rewrite Hm.
    apply (Hk _ eq_refl). cbn [In]. auto. }
  destruct (String.eqb_spec k "Lot not found") as [->|N3].
  { cbn [Putaway64.errorMessage Putaway64.setError]. rewrite Hm.
    apply (Hk _ eq_refl). cbn [In]. auto. }
  destruct (String.eqb_spec k "Validation error") as [->|N4].
  { cbn [Putaway64.errorMessage Putaway64.setError]. rewrite Hm.
    apply (Hk _ eq_refl). cbn [In]. auto. }
  assert (Hno : ~ exists b' k',
                    Some b = Some b' /\ Putaway64.kind b' = Some k' /\
                    In k' ["Insufficient quantity"; "Invalid bin";
                           "Lot not found"; "Validation error"] /\
                    (Putaway64.body_message b' = None \/
                     Putaway64.body_message b' = Some "")).
  { intros (b' & k' & Hb & Hk' & Hin & _). injection Hb as <-.
    rewrite Ek in Hk'. injection Hk' as <-.
    cbn [In] in Hin. destruct Hin as [H|[H|[H|[H|[]]]]]; congruence. }
  destruct (String.eqb k "Transaction error" || String.eqb k "Database error");
    cbn [Putaway64.errorMessage Putaway64.setError];
    (split; [|intros H; exfalso; exact (Hno H)]).
  - discriminate.
  - rewrite Hd. discriminate.
Qed.

(** X13: a transfer that was sent and did not succeed, on either path,
    leaves the lot selected and the form as typed, and prints nothing.  On
    the committed path it always shows an error; after [onSubmit] it shows
    one unless the call was rejected with a body of the kind "Insufficient
    quantity", "Invalid bin", "Lot not found" or "Validation error" whose
    message is missing or empty: then the failure leaves no message at all. *)
Theorem failed_transfer_keeps_form :
  (forall backend user q st r,
     let out := Putaway64.executeCommittedTransfer backend user q st in
     Putaway64.sent out = Some r -> Putaway64.succeeded out = false ->
     Putaway64.selectedLot (Putaway64.final out) = Putaway64.selectedLot st /\
     Putaway64.putawayForm (Putaway64.final out) = Putaway64.putawayForm st /\
     Putaway64.printed out = false /\
     Putaway64.shown (Putaway64.errorMessage (Putaway64.final out)) = true) /\
  (forall backend user st r,
     let out := Putaway64.onSubmit backend user st in
     Putaway64.sent out = Some r -> Putaway64.succeeded out = false ->
     Putaway64.selectedLot (Putaway64.final out) = Putaway64.selectedLot st /\
     Putaway64.putawayForm (Putaway64.final out) = Putaway64.putawayForm st /\
     Putaway64.printed out = false /\
     (Putaway64.shown (Putaway64.errorMessage (Putaway64.final out)) = false <->
      exists e b k,
        backend r = Putaway64.Rejected e /\
        Putaway64.body e = Some b /\ Putaway64.kind b = Some k /\
        In k ["Insufficient quantity"; "Invalid bin"; "Lot not found";
              "Validation error"] /\
        (Putaway64.body_message b = None \/ Putaway64.body_message b = Some ""))).
Proof.
  assert (Hfail : forall m, Putaway64.shown
                    (Putaway64.Literal (Putaway.or_else (Some m) "Transfer failed"))
                  = true).
  { intros m. unfold Putaway.or_else, JS.falsy.
    destruct (String.eqb_spec m "") as [->|N]; [reflexivity|].
    cbn [Putaway64.shown]. apply negb_true_iff, String.eqb_neq, N. }
  split.
  - intros backend user q st r out. unfold out, Putaway64.executeCommittedTransfer.
    destruct (Putaway64.selectedLot st) as [lot|] eqn:El; [|discriminate].
    destruct (Putaway64.toBinNumber (Putaway64.putawayForm st)) as [toBin|];
      [|discriminate].
    destruct (Putaway64.blank (Some toBin)); [discriminate|].
    destruct (backend _) as [result|e]; [destruct (Putaway.success result)|];
      cbn [Putaway64.sent Putaway64.succeeded Putaway64.final Putaway64.printed];
      intros _ H; try discriminate H.
    + cbn [Putaway64.selectedLot Putaway64.putawayForm Putaway64.errorMessage
           Putaway64.setError Putaway64.clearMessages].
      repeat split; [exact El|apply Hfail].
    + cbn [Putaway64.selectedLot Putaway64.putawayForm Putaway64.errorMessage
           Putaway64.setError Putaway64.clearMessages Putaway64.shown].
      repeat split. exact El.
  - intros backend user st r out. unfold out, Putaway64.onSubmit.
    destruct (negb (Putaway64.isFormValid st)); [discriminate|].
    destruct (Putaway64.selectedLot st) as [lot|] eqn:El; [|discriminate].
    destruct (Putaway64.putawayQty (Putaway64.putawayForm st)) as [q|];
      [|discriminate].
    destruct (JS.falsy _); [discriminate|].
    destruct user as [name|]; [|discriminate].
    match goal with |- context [backend ?x] => set (req := x) end.
    destruct (backend req) as [result|e] eqn:Eb;
      [destruct (Putaway.success result)|];
      cbn [Putaway64.sent Putaway64.succeeded Putaway64.final Putaway64.printed];
      intros Hs H; try discriminate H; injection Hs as <-.
    + cbn [Putaway64.selectedLot Putaway64.putawayForm Putaway64.errorMessage
           Putaway64.setError Putaway64.clearMessages].
      repeat split; [exact El| |].
      * rewrite Hfail. discriminate.
      * intros (e & b & k & He & _). rewrite Eb in He. discriminate He.
    + destruct (parseErrorResponse_shown e (Putaway64.clearMessages st))
        as (H1 & H2 & H3).
      rewrite H1, H2. cbn [Putaway64.selectedLot Putaway64.putawayForm
                           Putaway64.clearMessages].
      repeat split; [exact El| |].
      * intros Hn. apply H3 in Hn. destruct Hn as (b & k & Hb & Hk & Hin & Hm).
        exists e, b, k. rewrite Eb. repeat split; assumption.
      * intros (e' & b & k & He & Hb & Hk & Hin & Hm). rewrite Eb in He.
        injection He as <-. apply H3. exists b, k. repeat split; assumption.
Qed.

Lemma failed_transfer_keeps_form_witness :
  Putaway64.putawayForm
    (Putaway64.final
       (Putaway64.onSubmit
          (Scenario64.rejecting
             (Scenario64.rejection "Insufficient quantity" None))
          (Some "DECHAWAT") (Scenario64.state (Some (Binary64.of_Z 500)))))
  = Putaway64.putawayForm (Scenario64.state (Some (Binary64.of_Z 500))) /\
  Putaway64.shown
    (Putaway64.errorMessage
       (Putaway64.final
          (Putaway64.onSubmit
             (Scenario64.rejecting
                (Scenario64.rejection "Insufficient quantity" None))
             (Some "DECHAWAT") (Scenario64.state (Some (Binary64.of_Z 500))))))
  = false /\
  Putaway64.shown
    (Putaway64.errorMessage
       (Putaway64.final
          (Putaway64.onSubmit
             (Scenario64.rejecting
                (Scenario64.rejection "Insufficient quantity"
                   (Some "Only 425 available")))
             (Some "DECHAWAT") (Scenario64.state (Some (Binary64.of_Z 500))))))
  <> false.
Proof.
  pose proof (proj2 failed_transfer_keeps_form
                (Scenario64.rejecting
                   (Scenario64.rejection "Insufficient quantity" None))
                (Some "DECHAWAT") (Scenario64.state (Some (Binary64.of_Z 500)))
                (Scenario64.request (Binary64.of_Z 500))
                ltac:(vm_compute; reflexivity) ltac:(vm_compute; reflexivity))
    as (_ & Hform & _ & Hsilent).
  pose proof (proj2 failed_transfer_keeps_form
                (Scenario64.rejecting
                   (Scenario64.rejection "Insufficient quantity"
                      (Some "Only 425 available")))
                (Some "DECHAWAT") (Scenario64.state (Some (Binary64.of_Z 500)))
                (Scenario64.request (Binary64.of_Z 500))
                ltac:(vm_compute; reflexivity) ltac:(vm_compute; reflexivity))
    as (_ & _ & _ & Htold).
  split; [exact Hform|]. split.
  - apply Hsilent. eexists _, _, _. split; [reflexivity|].
    split; [reflexivity|]. split; [reflexivity|].
    split; [left; reflexivity|left; reflexivity].
  - intros H. apply Htold in H.
    destruct H as (e & b & k & He & Hb & _ & _ & Hm).
    injection He as <-. injection Hb as <-.
    destruct Hm as [Hm|Hm]; discriminate Hm.
Defined.
